(** * YelpApp: the star-schema ETL pipelines

    A shallow embedding of the three ETL scripts of the repository and of
    its schema tool

      - [src/ETL/business_owners_and_managers_ETL.py]  (PySpark, module [Owners])
      - [src/ETL/investorsETL.py]                      (pandas,  module [Investors])
      - [src/ETL/marketingETL.py]                      (PySpark, module [Marketing])
      - [src/ETL/investors_business_analysts_star_schema.py] (module [Schema])

    A DataFrame is a list of rows (a record per row, an [option] per nullable
    column); the relational operators the scripts call ([distinct],
    [groupBy().agg(count)], [join], [explode], [lag] over a window) are list
    functions.

    The date parsers of Spark and pandas are parameters of the pipelines
    (a [Variable] of each [Section Pipeline]), and so is the format pandas
    guesses from the first string of a series.  A frame has the columns of
    its record type; the frame of a file of no record, which has none where
    the columns are inferred, is told apart where a whole run is stated
    ([Investors.run]) and excluded by hypothesis elsewhere.

    Spark is taken with its default null semantics: a failed parse or an
    array index out of range is null, a null matches nothing in a join and
    forms a group of its own in a [groupBy].  The list functions that stand
    for [distinct] and [join] fix one row order, which Spark does not
    promise.  The derived numeric columns of the owners' fact table are
    given twice: as the binary64 values Spark writes, and as the exact
    fractions they round. *)

From Stdlib Require Import ZArith QArith Qround List String Ascii Bool Lia.
From Stdlib Require Import Permutation Sorted Lqa.
From Stdlib Require Import PrimFloat FloatOps SpecFloat.
Import ListNotations.

Local Open Scope string_scope.
Local Open Scope list_scope.
Local Open Scope Z_scope.

(** ** Strings: the delimited fields *)

Module Str.

(** Put a character in front of the first piece of a split. *)
Definition cons_head (c : ascii) (pieces : list string) : list string :=
  match pieces with
  | [] => [String c EmptyString]
  | h :: t => String c h :: t
  end.

(** [split(col, ", ")] of Spark and [str.split(', ')] of pandas: the pieces
    between the occurrences of comma-space, empty pieces kept, the whole
    string when there is none. *)
Fixpoint split_comma_space (s : string) : list string :=
  match s with
  | EmptyString => [EmptyString]
  | String "," (String " " rest) => EmptyString :: split_comma_space rest
  | String c rest => cons_head c (split_comma_space rest)
  end.

(** The class [\s] of a Java regular expression. *)
Definition is_space (c : ascii) : bool :=
  let n := nat_of_ascii c in
  orb (Nat.eqb n 32) (andb (Nat.leb 9 n) (Nat.leb n 13)).

(** [split(col, ",\s*")]: a comma and all the white space after it separate
    two pieces.  [in_sep] is true while the scan is inside a separator. *)
Fixpoint split_comma_ws_from (in_sep : bool) (s : string) : list string :=
  match s with
  | EmptyString => [EmptyString]
  | String c rest =>
      if Ascii.eqb c ","
      then EmptyString :: split_comma_ws_from true rest
      else if andb in_sep (is_space c)
           then split_comma_ws_from true rest
           else cons_head c (split_comma_ws_from false rest)
  end.

Definition split_comma_ws (s : string) : list string :=
  split_comma_ws_from false s.

(** [F.trim]: the spaces (code 32) at both ends go. *)
Fixpoint ltrim (s : string) : string :=
  match s with
  | String " " rest => ltrim rest
  | _ => s
  end.

Fixpoint rtrim (s : string) : string :=
  match s with
  | EmptyString => EmptyString
  | String c rest =>
      match rtrim rest with
      | EmptyString => if Ascii.eqb c " " then EmptyString else String c EmptyString
      | r => String c r
      end
  end.

Definition trim (s : string) : string := rtrim (ltrim s).

(** ASCII case folding, to compare labels up to case. *)
Definition lower_ascii (c : ascii) : ascii :=
  let n := nat_of_ascii c in
  if andb (Nat.leb 65 n) (Nat.leb n 90) then ascii_of_nat (n + 32) else c.

Fixpoint lower (s : string) : string :=
  match s with
  | EmptyString => EmptyString
  | String c rest => String (lower_ascii c) (lower rest)
  end.

Definition neqb (a b : string) : bool := negb (String.eqb a b).

Lemma neqb_true (a b : string) : neqb a b = true <-> a <> b.
Proof.
  unfold neqb. rewrite negb_true_iff. split.
  - intros H E. apply String.eqb_eq in E. congruence.
  - intros H. apply String.eqb_neq. exact H.
Qed.

Lemma cons_head_not_nil (c : ascii) (l : list string) : cons_head c l <> [].
Proof. destruct l; discriminate. Qed.

Lemma split_comma_space_not_nil (s : string) : split_comma_space s <> [].
Proof.
  destruct s as [|c rest]; simpl; [discriminate|].
  destruct c as [[] [] [] [] [] [] [] []]; try apply cons_head_not_nil.
  destruct rest as [|c' rest']; [apply cons_head_not_nil|].
  destruct c' as [[] [] [] [] [] [] [] []]; try apply cons_head_not_nil.
  discriminate.
Qed.

Lemma split_comma_ws_from_not_nil (b : bool) (s : string) :
  split_comma_ws_from b s <> [].
Proof.
  revert b. induction s as [|c rest IH]; intros b; simpl; [discriminate|].
  destruct (Ascii.eqb c ","); [discriminate|].
  destruct (andb b (is_space c)); [apply IH|apply cons_head_not_nil].
Qed.


(** The number of commas of a string. *)
Fixpoint comma_count (s : string) : nat :=
  match s with
  | EmptyString => 0
  | String c rest => (if Ascii.eqb c "," then 1 else 0) + comma_count rest
  end.

Lemma cons_head_length (c : ascii) (l : list string) :
  l <> [] -> List.length (cons_head c l) = List.length l.
Proof. destruct l; [congruence|reflexivity]. Qed.

(** Every comma starts one separator: a split on [,\s*] has one piece more
    than the string has commas. *)
Lemma split_comma_ws_from_length (b : bool) (s : string) :
  List.length (split_comma_ws_from b s) = S (comma_count s).
Proof.
  revert b. induction s as [|c rest IH]; intros b; [reflexivity|].
  cbn [split_comma_ws_from comma_count].
  destruct (Ascii.eqb c ",").
  - cbn [List.length]. rewrite IH. reflexivity.
  - destruct (andb b (is_space c)); [apply IH|].
    rewrite cons_head_length by apply split_comma_ws_from_not_nil. apply IH.
Qed.

(** No piece of such a split has a comma. *)
Lemma cons_head_In (c : ascii) (l : list string) (p : string) :
  In p (cons_head c l) ->
  (exists h, p = String c h /\ (l = [] /\ h = EmptyString \/ exists t, l = h :: t))
  \/ (exists h t, l = h :: t /\ In p t).
Proof.
  destruct l as [|h t]; simpl.
  - intros [<-|[]]. left. exists EmptyString. split; [reflexivity|]. left. auto.
  - intros [<-|Hp].
    + left. exists h. split; [reflexivity|]. right. exists t. reflexivity.
    + right. exists h, t. auto.
Qed.

Lemma split_comma_ws_from_no_comma (b : bool) (s : string) (p : string) :
  In p (split_comma_ws_from b s) -> comma_count p = 0%nat.
Proof.
  revert b p. induction s as [|c rest IH]; intros b p.
  - intros [<-|[]]. reflexivity.
  - cbn [split_comma_ws_from]. destruct (Ascii.eqb c ",") eqn:Ec.
    + intros [<-|Hp]; [reflexivity|]. exact (IH true p Hp).
    + destruct (andb b (is_space c)); [apply IH|].
      intros Hp. apply cons_head_In in Hp.
      destruct Hp as [[h [-> [[_ ->]|[t Ht]]]]|[h [t [Ht Hp]]]].
      * cbn [comma_count]. rewrite Ec. reflexivity.
      * cbn [comma_count]. rewrite Ec. apply (IH false h). rewrite Ht. left. reflexivity.
      * apply (IH false p). rewrite Ht. right. exact Hp.
Qed.
End Str.

Example split_two_stamps :
  Str.split_comma_space "2018-01-01 10:00:00, 2018-02-02 11:00:00"
  = ["2018-01-01 10:00:00"; "2018-02-02 11:00:00"].
Proof. reflexivity. Qed.

Example split_keeps_empty_pieces :
  Str.split_comma_ws "A, ,B,  C," = ["A"; ""; "B"; "C"; ""].
Proof. reflexivity. Qed.

Example split_of_empty : Str.split_comma_ws "" = [""].
Proof. reflexivity. Qed.

Example trim_spaces : Str.trim "  Bars " = "Bars".
Proof. reflexivity. Qed.

(** ** Calendar dates *)

Module Date.

Record date : Type := mk { year : Z; month : Z; day : Z }.

Definition eq_dec (a b : date) : {a = b} + {a <> b}.
Proof. decide equality; apply Z.eq_dec. Defined.

Definition is_leap (y : Z) : bool :=
  andb (y mod 4 =? 0) (orb (negb (y mod 100 =? 0)) (y mod 400 =? 0)).

Definition days_in_month (y m : Z) : Z :=
  if m =? 2 then (if is_leap y then 29 else 28)
  else if orb (orb (m =? 4) (m =? 6)) (orb (m =? 9) (m =? 11)) then 30
  else 31.

(** The dates a DATE column holds: 0001-01-01 to 9999-12-31. *)
Definition valid (d : date) : bool :=
  andb (andb (1 <=? year d) (year d <=? 9999))
       (andb (andb (1 <=? month d) (month d <=? 12))
             (andb (1 <=? day d) (day d <=? days_in_month (year d) (month d)))).

(** [F.quarter] and [dt.quarter]. *)
Definition quarter (d : date) : Z := (month d - 1) / 3 + 1.

(** Days since 1970-01-01 in the proleptic Gregorian calendar. *)
Definition days_from_civil (d : date) : Z :=
  let y := if month d <=? 2 then year d - 1 else year d in
  let era := y / 400 in
  let yoe := y - era * 400 in
  let mp := if month d <=? 2 then month d + 9 else month d - 3 in
  let doy := (153 * mp + 2) / 5 + day d - 1 in
  let doe := yoe * 365 + yoe / 4 - yoe / 100 + doy in
  era * 146097 + doe - 719468.

(** [F.dayofweek]: Sunday is 1, Saturday is 7. *)
Definition dayofweek_spark (d : date) : Z := (days_from_civil d + 4) mod 7 + 1.

(** [dt.dayofweek]: Monday is 0, Sunday is 6. *)
Definition dayofweek_pandas (d : date) : Z := (days_from_civil d + 3) mod 7.

(** *** The [yyyyMMdd] format *)

Definition digit (n : Z) : ascii := ascii_of_nat (48 + Z.to_nat n).

Definition two_digits (n : Z) : string :=
  String (digit (n / 10)) (String (digit (n mod 10)) EmptyString).

Definition four_digits (n : Z) : string :=
  (two_digits (n / 100) ++ two_digits (n mod 100))%string.

(** [F.date_format(col, "yyyyMMdd")] and [d.strftime('%Y%m%d')]. *)
Definition format_yyyyMMdd (d : date) : string :=
  (four_digits (year d) ++ two_digits (month d) ++ two_digits (day d))%string.

Definition digit_value (c : ascii) : option Z :=
  let n := nat_of_ascii c in
  if andb (Nat.leb 48 n) (Nat.leb n 57) then Some (Z.of_nat (n - 48)) else None.

(** [int(s)] and the cast of a string to [IntegerType], on digit strings. *)
Fixpoint int_of_digits_from (acc : Z) (s : string) : option Z :=
  match s with
  | EmptyString => Some acc
  | String c rest =>
      match digit_value c with
      | Some v => int_of_digits_from (acc * 10 + v) rest
      | None => None
      end
  end.

Definition int_of_string (s : string) : option Z :=
  match s with
  | EmptyString => None
  | _ => int_of_digits_from 0 s
  end.

(** The integer key of the pandas and marketing pipelines,
    [int(d.strftime('%Y%m%d'))]. *)
Definition date_key (d : date) : option Z := int_of_string (format_yyyyMMdd d).

(** Reading a key back: the year, month and day a [yyyyMMdd] key spells. *)
Definition of_int_key (k : Z) : date :=
  mk (k / 10000) ((k / 100) mod 100) (k mod 100).


(** *** A reader of the data set's time stamps

    The pipelines call the date parsers of Spark and pandas; the development
    is parametric in them.  [of_iso] reads the form the Yelp data uses,
    [yyyy-MM-dd] alone or followed by a blank and a time, and stands for them
    in the examples. *)
Definition of_iso (s : string) : option date :=
  match s with
  | String y1 (String y2 (String y3 (String y4 (String s1
      (String m1 (String m2 (String s2 (String d1 (String d2 rest))))))))) =>
      let ok_rest := match rest with
                     | EmptyString => true
                     | String c _ => Ascii.eqb c " "
                     end in
      if andb (andb (Ascii.eqb s1 "-") (Ascii.eqb s2 "-")) ok_rest
      then
        match int_of_digits_from 0 (String y1 (String y2 (String y3 (String y4 EmptyString)))) with
        | Some y =>
            match int_of_digits_from 0 (String m1 (String m2 EmptyString)) with
            | Some m =>
                match int_of_digits_from 0 (String d1 (String d2 EmptyString)) with
                | Some d => if valid (mk y m d) then Some (mk y m d) else None
                | None => None
                end
            | None => None
            end
        | None => None
        end
      else None
  | _ => None
  end.

(** The format of such a time stamp, given as the test of the strings that
    have it: a date alone, or a date and what follows to the same length.
    It stands in the examples for the format pandas guesses from the first
    string of a series. *)
Definition iso_format (s : string) : option (string -> bool) :=
  match of_iso s with
  | Some _ =>
      Some (fun s' => andb (Nat.eqb (String.length s') (String.length s))
                           (match of_iso s' with Some _ => true | None => false end))
  | None => None
  end.

(** *** The key of a date reads back as the date *)

Lemma digit_value_digit (k : Z) : 0 <= k <= 9 -> digit_value (digit k) = Some k.
Proof.
  intros H.
  assert (E : k = 0 \/ k = 1 \/ k = 2 \/ k = 3 \/ k = 4 \/ k = 5 \/ k = 6 \/ k = 7
              \/ k = 8 \/ k = 9) by lia.
  repeat (destruct E as [->|E]; [reflexivity|]). subst k. reflexivity.
Qed.

Lemma two_digits_value (acc n : Z) (rest : string) :
  0 <= n <= 99 ->
  int_of_digits_from acc (String (digit (n / 10)) (String (digit (n mod 10)) rest))
  = int_of_digits_from (acc * 100 + n) rest.
Proof.
  intros H. cbn [int_of_digits_from].
  rewrite !digit_value_digit.
  - f_equal. pose proof (Z.div_mod n 10). lia.
  - pose proof (Z.mod_pos_bound n 10). lia.
  - split; [apply Z.div_pos; lia|].
    apply Z.lt_succ_r. apply Z.div_lt_upper_bound; lia.
Qed.

Lemma valid_bounds (d : date) :
  valid d = true ->
  1 <= year d <= 9999 /\ 1 <= month d <= 12 /\ 1 <= day d <= 31.
Proof.
  unfold valid. rewrite !andb_true_iff, !Z.leb_le.
  intros [[Hy1 Hy2] [[Hm1 Hm2] [Hd1 Hd2]]].
  assert (days_in_month (year d) (month d) <= 31).
  { unfold days_in_month.
    destruct (month d =? 2); [destruct (is_leap (year d)); lia|].
    destruct (orb _ _); lia. }
  lia.
Qed.

Lemma date_key_value (d : date) :
  valid d = true ->
  date_key d = Some (year d * 10000 + month d * 100 + day d).
Proof.
  intros Hv. apply valid_bounds in Hv. destruct Hv as [Hy [Hm Hd]].
  unfold date_key, int_of_string, format_yyyyMMdd, four_digits, two_digits.
  cbn [append].
  assert (Hhi : 0 <= year d / 100 <= 99).
  { split; [apply Z.div_pos; lia|].
    apply Z.lt_succ_r. apply Z.div_lt_upper_bound; lia. }
  assert (Hlo : 0 <= year d mod 100 <= 99).
  { pose proof (Z.mod_pos_bound (year d) 100). lia. }
  rewrite (two_digits_value 0 _ _ Hhi).
  rewrite (two_digits_value _ _ _ Hlo).
  rewrite two_digits_value by lia.
  rewrite two_digits_value by lia.
  cbn [int_of_digits_from]. f_equal. pose proof (Z.div_mod (year d) 100). lia.
Qed.

Lemma of_int_key_value (y m d : Z) :
  0 <= m <= 99 -> 0 <= d <= 99 ->
  of_int_key (y * 10000 + m * 100 + d) = mk y m d.
Proof.
  intros Hm Hd. unfold of_int_key.
  assert (E1 : (y * 10000 + m * 100 + d) / 10000 = y).
  { symmetry. apply (Z.div_unique _ _ _ (m * 100 + d)); lia. }
  assert (E2 : (y * 10000 + m * 100 + d) / 100 = y * 100 + m).
  { symmetry. apply (Z.div_unique _ _ _ d); lia. }
  assert (E3 : (y * 10000 + m * 100 + d) mod 100 = d).
  { symmetry. apply (Z.mod_unique _ _ (y * 100 + m)); lia. }
  assert (E4 : (y * 100 + m) mod 100 = m).
  { symmetry. apply (Z.mod_unique _ _ y); lia. }
  rewrite E1, E2, E3, E4. reflexivity.
Qed.

(** The integer key of a date spells the date. *)
Lemma of_int_key_date_key (d : date) :
  valid d = true -> option_map of_int_key (date_key d) = Some d.
Proof.
  intros Hv. rewrite (date_key_value d Hv). cbn [option_map].
  apply valid_bounds in Hv.
  rewrite of_int_key_value by lia. destruct d; reflexivity.
Qed.



Lemma of_iso_valid (s : string) (d : date) : of_iso s = Some d -> valid d = true.
Proof.
  unfold of_iso.
  do 10 (destruct s as [|? s]; [discriminate|]).
  destruct (andb _ _); [|discriminate].
  destruct (int_of_digits_from 0 (String a (String a0 (String a1 (String a2 EmptyString)))))
    as [y|]; [|discriminate].
  destruct (int_of_digits_from 0 (String a4 (String a5 EmptyString)))
    as [m|]; [|discriminate].
  destruct (int_of_digits_from 0 (String a7 (String a8 EmptyString)))
    as [dd|]; [|discriminate].
  destruct (valid (mk y m dd)) eqn:E; [|discriminate].
  intros H. injection H as <-. exact E.
Qed.

End Date.

Example format_new_year : Date.format_yyyyMMdd (Date.mk 2018 1 2) = "20180102".
Proof. reflexivity. Qed.

Example key_new_year : Date.date_key (Date.mk 2018 1 2) = Some 20180102.
Proof. reflexivity. Qed.

Example of_iso_stamp : Date.of_iso "2018-01-02 10:00:00" = Some (Date.mk 2018 1 2).
Proof. reflexivity. Qed.

Example of_iso_bad_day : Date.of_iso "2018-02-30 10:00:00" = None.
Proof. reflexivity. Qed.

Example of_iso_garbage : Date.of_iso "yesterday" = None.
Proof. reflexivity. Qed.

Example a_saturday : Date.dayofweek_spark (Date.mk 2018 1 6) = 7
                     /\ Date.dayofweek_pandas (Date.mk 2018 1 6) = 5.
Proof. split; reflexivity. Qed.

(** ** The relational operators *)

Module Rel.

Section Keyed.
Context {K : Type} (K_dec : forall x y : K, {x = y} + {x <> y}).

Definition eqb (x y : K) : bool := if K_dec x y then true else false.

Definition mem (k : K) (l : list K) : bool :=
  if in_dec K_dec k l then true else false.

(** [distinct()] and [drop_duplicates()]: the first occurrence of each
    value stays, in the order of the input. *)
Fixpoint distinct (l : list K) : list K :=
  match l with
  | [] => []
  | x :: t => x :: filter (fun y => negb (eqb y x)) (distinct t)
  end.

(** The equality of a join condition: a key with a null column matches
    nothing, itself included.  [complete k] says that [k] has no null. *)
Variable complete : K -> bool.

Definition sql_eqb (x y : K) : bool := andb (complete x) (eqb x y).

(** [count(col)] over a group: the rows whose column is not null;
    [count("*")] counts them all. *)
Definition count {R : Type} (not_null : R -> bool) (group : list R) : Z :=
  Z.of_nat (List.length (filter not_null group)).

(** The rows of a group. *)
Definition group_of {R : Type} (key : R -> K) (k : K) (rows : list R) : list R :=
  filter (fun r => eqb (key r) k) rows.

(** [groupBy(key).agg(f)]: a row per distinct key, the null keys forming a
    group of their own. *)
Definition group_by {R V : Type} (key : R -> K) (agg : list R -> V)
           (rows : list R) : list (K * V) :=
  map (fun k => (k, agg (group_of key k rows))) (distinct (map key rows)).

(** What a left join on the key finds in a grouped aggregate. *)
Definition sql_lookup {R V : Type} (key : R -> K) (agg : list R -> V)
           (rows : list R) (k : K) : option (K * V) :=
  if andb (complete k) (mem k (map key rows))
  then Some (k, agg (group_of key k rows))
  else None.
End Keyed.

(** [left.join(right, on, "left")]: every left row, once per matching right
    row, and once with nulls when nothing matches. *)
Definition left_join {A B : Type} (on : A -> B -> bool)
           (left : list A) (right : list B) : list (A * option B) :=
  flat_map (fun a => match filter (on a) right with
                     | [] => [(a, None)]
                     | ms => map (fun b => (a, Some b)) ms
                     end) left.

(** [left.join(right, on, "inner")]. *)
Definition inner_join {A B : Type} (on : A -> B -> bool)
           (left : list A) (right : list B) : list (A * B) :=
  flat_map (fun a => map (fun b => (a, b)) (filter (on a) right)) left.

(** *** Facts about the operators *)

Section KeyedFacts.
Context {K : Type} (K_dec : forall x y : K, {x = y} + {x <> y}).

Lemma eqb_true (x y : K) : eqb K_dec x y = true <-> x = y.
Proof. unfold eqb. destruct (K_dec x y); split; congruence. Qed.

Lemma eqb_refl (x : K) : eqb K_dec x x = true.
Proof. apply eqb_true. reflexivity. Qed.

Lemma eqb_false (x y : K) : eqb K_dec x y = false <-> x <> y.
Proof. unfold eqb. destruct (K_dec x y); split; congruence. Qed.

Lemma mem_true (k : K) (l : list K) : mem K_dec k l = true <-> In k l.
Proof. unfold mem. destruct (in_dec K_dec k l); split; congruence. Qed.

Lemma mem_false (k : K) (l : list K) : mem K_dec k l = false <-> ~ In k l.
Proof. unfold mem. destruct (in_dec K_dec k l); split; congruence. Qed.

Lemma distinct_In (l : list K) (x : K) : In x (distinct K_dec l) <-> In x l.
Proof.
  induction l as [|a t IH]; simpl; [tauto|].
  rewrite filter_In, IH, negb_true_iff, eqb_false.
  destruct (K_dec a x) as [->|Hne]; intuition congruence.
Qed.

Lemma distinct_NoDup (l : list K) : NoDup (distinct K_dec l).
Proof.
  induction l as [|a t IH]; simpl; constructor.
  - rewrite filter_In, negb_true_iff, eqb_false. tauto.
  - apply NoDup_filter. exact IH.
Qed.

Lemma mem_distinct (k : K) (l : list K) :
  mem K_dec k (distinct K_dec l) = mem K_dec k l.
Proof.
  destruct (mem K_dec k l) eqn:E.
  - apply mem_true. apply distinct_In. apply mem_true. exact E.
  - apply mem_false. rewrite distinct_In. apply mem_false. exact E.
Qed.

Lemma filter_none {A : Type} (p : A -> bool) (l : list A) :
  (forall x, In x l -> p x = false) -> filter p l = [].
Proof.
  induction l as [|a t IH]; intros H; simpl; [reflexivity|].
  rewrite (H a (or_introl eq_refl)). apply IH. intros x Hx. apply H. right. exact Hx.
Qed.

(** In a list without repetition an equality filter keeps one element. *)
Lemma filter_eqb_NoDup (k : K) (l : list K) :
  NoDup l ->
  filter (fun x => eqb K_dec k x) l = if mem K_dec k l then [k] else [].
Proof.
  intros Hnd. induction Hnd as [|a t Hnotin Hnd IH]; simpl; [reflexivity|].
  unfold mem in *. simpl.
  destruct (K_dec a k) as [->|Hne].
  - rewrite eqb_refl. f_equal.
    apply filter_none. intros x Hx. apply eqb_false. intros ->. contradiction.
  - assert (E : eqb K_dec k a = false) by (apply eqb_false; congruence).
    rewrite E, IH. destruct (in_dec K_dec k t); reflexivity.
Qed.

Lemma filter_map_comm {A B : Type} (p : B -> bool) (g : A -> B) (l : list A) :
  filter p (map g l) = map g (filter (fun a => p (g a)) l).
Proof.
  induction l as [|a t IH]; simpl; [reflexivity|].
  rewrite IH. destruct (p (g a)); reflexivity.
Qed.

Lemma flat_map_singleton {A B : Type} (f : A -> B) (l : list A) :
  flat_map (fun a => [f a]) l = map f l.
Proof. induction l as [|a t IH]; simpl; [reflexivity|]. rewrite IH. reflexivity. Qed.

Lemma group_of_nil_iff {R : Type} (key : R -> K) (k : K) (rows : list R) :
  group_of K_dec key k rows = [] <-> ~ In k (map key rows).
Proof.
  unfold group_of. induction rows as [|r t IH]; simpl; [tauto|].
  destruct (eqb K_dec (key r) k) eqn:E.
  - apply eqb_true in E. split; [discriminate|]. intros H. exfalso. apply H. left. exact E.
  - apply eqb_false in E. rewrite IH. tauto.
Qed.

Lemma count_nonneg {R : Type} (p : R -> bool) (rows : list R) : 0 <= count p rows.
Proof. unfold count. lia. Qed.

Lemma count_nil {R : Type} (p : R -> bool) : count p [] = 0.
Proof. reflexivity. Qed.
Lemma group_by_keys {R V : Type} (key : R -> K) (agg : list R -> V) (rows : list R) :
  map fst (group_by K_dec key agg rows) = distinct K_dec (map key rows).
Proof. unfold group_by. rewrite map_map. simpl. apply map_id. Qed.

Variable complete : K -> bool.

(** A left join against a grouped aggregate adds one column to every left
    row: the group's aggregate, or null. *)
Lemma left_join_group_by {A R V : Type} (kf : A -> K) (key : R -> K)
      (agg : list R -> V) (rows : list R) (l : list A) :
  left_join (fun a b => sql_eqb K_dec complete (kf a) (fst b)) l
            (group_by K_dec key agg rows)
  = map (fun a => (a, sql_lookup K_dec complete key agg rows (kf a))) l.
Proof.
  unfold left_join. rewrite <- flat_map_singleton.
  apply flat_map_ext. intros a.
  unfold group_by. rewrite filter_map_comm. simpl.
  unfold sql_lookup, sql_eqb.
  destruct (complete (kf a)); simpl.
  - rewrite (@filter_eqb_NoDup (kf a) _ (distinct_NoDup (map key rows))).
    rewrite mem_distinct.
    destruct (mem K_dec (kf a) (map key rows)); reflexivity.
  - rewrite filter_none; [reflexivity|]. intros; reflexivity.
Qed.

End KeyedFacts.

Lemma inner_join_In {A B : Type} (on : A -> B -> bool) (l : list A) (r : list B)
      (a : A) (b : B) :
  In (a, b) (inner_join on l r) <-> In a l /\ In b r /\ on a b = true.
Proof.
  unfold inner_join. rewrite in_flat_map. split.
  - intros [a' [Ha Hin]]. apply in_map_iff in Hin. destruct Hin as [b' [E Hb]].
    injection E as -> ->. apply filter_In in Hb. tauto.
  - intros [Ha [Hb Hon]]. exists a. split; [exact Ha|].
    apply in_map_iff. exists b. split; [reflexivity|]. apply filter_In. auto.
Qed.

Lemma left_join_In {A B : Type} (on : A -> B -> bool) (l : list A) (r : list B)
      (a : A) (ob : option B) :
  In (a, ob) (left_join on l r) <->
  In a l /\ match ob with
            | Some b => In b r /\ on a b = true
            | None => forall b, In b r -> on a b = false
            end.
Proof.
  unfold left_join. rewrite in_flat_map. split.
  - intros [a' [Ha Hin]]. destruct (filter (on a') r) as [|m ms] eqn:Ef.
    + destruct Hin as [E|[]]. injection E as -> <-. split; [exact Ha|].
      intros b Hb. destruct (on a b) eqn:Eon; [|reflexivity].
      assert (Hf : In b (filter (on a) r)) by (apply filter_In; auto).
      rewrite Ef in Hf. destruct Hf.
    + apply in_map_iff in Hin. destruct Hin as [b [E Hb]]. injection E as -> <-.
      split; [exact Ha|]. rewrite <- Ef in Hb. apply filter_In in Hb. exact Hb.
  - intros [Ha Hob]. exists a. split; [exact Ha|].
    destruct ob as [b|].
    + destruct Hob as [Hb Hon].
      assert (Hf : In b (filter (on a) r)) by (apply filter_In; auto).
      destruct (filter (on a) r) as [|m ms]; [destruct Hf|].
      apply in_map_iff. exists b. auto.
    + rewrite (@filter_none B (on a) r Hob). left. reflexivity.
Qed.

(** A left join drops no left row. *)
Lemma left_join_total {A B : Type} (on : A -> B -> bool) (l : list A) (r : list B)
      (a : A) :
  In a l ->
  exists ob, In (a, ob) (left_join on l r)
             /\ ((forall b, In b r -> on a b = false) -> ob = None).
Proof.
  intros Ha. destruct (filter (on a) r) as [|m ms] eqn:Ef.
  - exists None. split; [|reflexivity]. apply left_join_In. split; [exact Ha|].
    intros b Hb. destruct (on a b) eqn:Eon; [|reflexivity].
    assert (Hf : In b (filter (on a) r)) by (apply filter_In; auto).
    rewrite Ef in Hf. destruct Hf.
  - assert (Hm : In m (filter (on a) r)) by (rewrite Ef; left; reflexivity).
    apply filter_In in Hm. destruct Hm as [Hm Hon].
    exists (Some m). split; [apply left_join_In; auto|].
    intros Hno. rewrite (Hno m Hm) in Hon. discriminate.
Qed.

Lemma combine_snd {A B : Type} (a : list A) (b : list B) :
  List.length a = List.length b -> map snd (combine a b) = b.
Proof.
  revert b. induction a as [|x a IH]; intros [|y b] H; simpl in *; try discriminate.
  - reflexivity.
  - f_equal. apply IH. lia.
Qed.

Lemma NoDup_map_eq {A B : Type} (f : A -> B) (l : list A) (x y : A) :
  NoDup (map f l) -> In x l -> In y l -> f x = f y -> x = y.
Proof.
  induction l as [|a t IH]; simpl; intros Hnd Hx Hy E; [destruct Hx|].
  inversion Hnd as [|? ? Hnotin Hnd']; subst.
  destruct Hx as [->|Hx], Hy as [->|Hy].
  - reflexivity.
  - exfalso. apply Hnotin. rewrite E. apply in_map. exact Hy.
  - exfalso. apply Hnotin. rewrite <- E. apply in_map. exact Hx.
  - apply IH; assumption.
Qed.

(** *** Ordering a frame *)

Section Sorting.
Context {A : Type} (leb : A -> A -> bool).

Fixpoint insert (x : A) (l : list A) : list A :=
  match l with
  | [] => [x]
  | y :: t => if leb x y then x :: l else y :: insert x t
  end.

(** [orderBy] and [sorted]: a stable insertion sort. *)
Fixpoint sort (l : list A) : list A :=
  match l with
  | [] => []
  | x :: t => insert x (sort t)
  end.

Lemma insert_perm (x : A) (l : list A) : Permutation (insert x l) (x :: l).
Proof.
  induction l as [|y t IH]; simpl; [reflexivity|].
  destruct (leb x y); [reflexivity|].
  rewrite IH. apply perm_swap.
Qed.

Lemma sort_perm (l : list A) : Permutation (sort l) l.
Proof.
  induction l as [|x t IH]; simpl; [reflexivity|].
  rewrite insert_perm. constructor. exact IH.
Qed.

Lemma sort_In (l : list A) (x : A) : In x (sort l) <-> In x l.
Proof.
  split; apply Permutation_in; [apply sort_perm | symmetry; apply sort_perm].
Qed.

Hypothesis leb_total : forall x y, leb x y = false -> leb y x = true.

Lemma insert_sorted (x : A) (l : list A) :
  Sorted (fun a b => leb a b = true) l ->
  Sorted (fun a b => leb a b = true) (insert x l).
Proof.
  induction l as [|y t IH]; intros Hs; simpl.
  - repeat constructor.
  - destruct (leb x y) eqn:E.
    + constructor; [exact Hs|]. constructor. exact E.
    + inversion Hs as [|? ? Ht Hhd]; subst.
      constructor; [apply IH; exact Ht|].
      destruct t as [|z t']; simpl.
      * constructor. apply leb_total. exact E.
      * destruct (leb x z); constructor.
        -- apply leb_total. exact E.
        -- inversion Hhd; subst. assumption.
Qed.

Lemma sort_sorted (l : list A) : Sorted (fun a b => leb a b = true) (sort l).
Proof.
  induction l as [|x t IH]; simpl; [constructor|].
  apply insert_sorted. exact IH.
Qed.
End Sorting.

(** *** Groups partition a frame *)

Section Partition.
Context {K R : Type} (K_dec : forall x y : K, {x = y} + {x <> y}) (key : R -> K).

Lemma group_of_cons_other (r : R) (t : list R) (k : K) :
  key r <> k -> group_of K_dec key k (r :: t) = group_of K_dec key k t.
Proof.
  intros Hne. unfold group_of. cbn [filter].
  assert (E : eqb K_dec (key r) k = false) by (apply eqb_false; exact Hne).
  rewrite E. reflexivity.
Qed.

Lemma group_of_cons_same (r : R) (t : list R) :
  group_of K_dec key (key r) (r :: t) = r :: group_of K_dec key (key r) t.
Proof. unfold group_of. cbn [filter]. rewrite eqb_refl. reflexivity. Qed.

Lemma flat_map_ext_in {A B : Type} (f g : A -> list B) (l : list A) :
  (forall a, In a l -> f a = g a) -> flat_map f l = flat_map g l.
Proof.
  induction l as [|a t IH]; intros H; simpl; [reflexivity|].
  rewrite (H a (or_introl eq_refl)), IH; [reflexivity|].
  intros x Hx. apply H. right. exact Hx.
Qed.

Lemma flat_map_groups_skip (r : R) (t : list R) (l : list K) :
  ~ In (key r) l ->
  flat_map (fun k => group_of K_dec key k (r :: t)) l
  = flat_map (fun k => group_of K_dec key k t) l.
Proof.
  intros Hno. apply flat_map_ext_in. intros k Hk. apply group_of_cons_other.
  intros E. subst k. contradiction.
Qed.

Lemma flat_map_groups_cons (r : R) (t : list R) (l : list K) :
  NoDup l -> In (key r) l ->
  Permutation (flat_map (fun k => group_of K_dec key k (r :: t)) l)
              (r :: flat_map (fun k => group_of K_dec key k t) l).
Proof.
  intros Hnd. induction Hnd as [|k l' Hnotin Hnd IH]; intros Hin; [destruct Hin|].
  cbn [flat_map]. destruct (K_dec (key r) k) as [E|Hne].
  - subst k. rewrite (flat_map_groups_skip r t l' Hnotin), group_of_cons_same.
    reflexivity.
  - destruct Hin as [E|Hin]; [congruence|].
    rewrite (group_of_cons_other r t k Hne), (IH Hin). symmetry. apply Permutation_middle.
Qed.

(** The groups of the keys of a frame, one after the other, are the frame. *)
Lemma groups_partition (rows : list R) (l : list K) :
  NoDup l -> (forall r, In r rows -> In (key r) l) ->
  Permutation (flat_map (fun k => group_of K_dec key k rows) l) rows.
Proof.
  intros Hnd. induction rows as [|r t IH]; intros Hall.
  - assert (E : flat_map (fun k => group_of K_dec key k []) l = []).
    { clear. induction l as [|k l IH]; simpl; [reflexivity|exact IH]. }
    rewrite E. constructor.
  - rewrite (flat_map_groups_cons r t l Hnd (Hall r (or_introl eq_refl))).
    constructor. apply IH. intros x Hx. apply Hall. right. exact Hx.
Qed.

Lemma count_cons (p : R -> bool) (r : R) (t : list R) :
  count p (r :: t) = (if p r then 1 else 0) + count p t.
Proof. unfold count. cbn [filter]. destruct (p r); cbn [List.length]; lia. Qed.

(** The sum of the group counts the left joins fill in, [c] saying which
    keys can be matched. *)
Definition counts_sum (c : K -> bool) (p : R -> bool) (rows : list R) (l : list K) : Z :=
  fold_right Z.add 0
    (map (fun k => if c k then count p (group_of K_dec key k rows) else 0) l).

Lemma counts_sum_skip (c : K -> bool) (p : R -> bool) (r : R) (t : list R) (l : list K) :
  ~ In (key r) l -> counts_sum c p (r :: t) l = counts_sum c p t l.
Proof.
  intros Hno. unfold counts_sum. f_equal. apply map_ext_in. intros k Hk.
  rewrite group_of_cons_other; [reflexivity|]. intros E. subst k. contradiction.
Qed.

Lemma counts_sum_cons (c : K -> bool) (p : R -> bool) (r : R) (t : list R) (l : list K) :
  NoDup l -> In (key r) l ->
  counts_sum c p (r :: t) l
  = (if andb (c (key r)) (p r) then 1 else 0) + counts_sum c p t l.
Proof.
  intros Hnd. induction Hnd as [|k l' Hnotin Hnd IH]; intros Hin; [destruct Hin|].
  unfold counts_sum in *. cbn [map fold_right].
  destruct (K_dec (key r) k) as [E|Hne].
  - subst k. pose proof (counts_sum_skip c p r t l' Hnotin) as Hs.
    unfold counts_sum in Hs. rewrite Hs, group_of_cons_same, count_cons.
    destruct (c (key r)), (p r); cbn [andb]; lia.
  - destruct Hin as [E|Hin]; [congruence|].
    rewrite (group_of_cons_other r t k Hne), (IH Hin). lia.
Qed.

(** No row is lost and none is counted twice. *)
Lemma counts_sum_total (c : K -> bool) (p : R -> bool) (rows : list R) (l : list K) :
  NoDup l -> (forall r, In r rows -> In (key r) l) ->
  counts_sum c p rows l = count (fun r => andb (c (key r)) (p r)) rows.
Proof.
  intros Hnd. induction rows as [|r t IH]; intros Hall.
  - unfold counts_sum. clear. induction l as [|k l IH]; cbn [map fold_right].
    + reflexivity.
    + rewrite IH. destruct (c k); reflexivity.
  - rewrite (counts_sum_cons c p r t l Hnd (Hall r (or_introl eq_refl))), count_cons.
    rewrite IH; [reflexivity|]. intros x Hx. apply Hall. right. exact Hx.
Qed.
End Partition.

Lemma flat_map_perm_pointwise {A B : Type} (f g : A -> list B) (l : list A) :
  (forall a, In a l -> Permutation (f a) (g a)) ->
  Permutation (flat_map f l) (flat_map g l).
Proof.
  induction l as [|a t IH]; intros H; simpl; [constructor|].
  apply Permutation_app.
  - apply H. left. reflexivity.
  - apply IH. intros x Hx. apply H. right. exact Hx.
Qed.


(** [distinct()] leaves a frame without repeated rows as it is. *)
Lemma distinct_id {K : Type} (K_dec : forall x y : K, {x = y} + {x <> y}) (l : list K) :
  NoDup l -> distinct K_dec l = l.
Proof.
  intros Hnd. induction Hnd as [|x t Hnotin Hnd IH]; simpl; [reflexivity|].
  rewrite IH. f_equal.
  rewrite <- (filter_ext_in (fun _ => true)).
  - clear. induction t as [|a t IH]; simpl; [reflexivity|]. rewrite IH. reflexivity.
  - intros y Hy. symmetry. apply negb_true_iff. apply eqb_false.
    intros ->. contradiction.
Qed.

Lemma NoDup_map_factor {A B C : Type} (g : A -> B) (h : B -> C) (l : list A) :
  NoDup (map (fun a => h (g a)) l) -> NoDup (map g l).
Proof. rewrite <- (map_map g h). apply NoDup_map_inv. Qed.

Lemma count_map {A B : Type} (p : B -> bool) (g : A -> B) (l : list A) :
  count p (map g l) = count (fun a => p (g a)) l.
Proof. unfold count. rewrite filter_map_comm, length_map. reflexivity. Qed.

Lemma count_ext {A : Type} (p q : A -> bool) (l : list A) :
  (forall a, p a = q a) -> count p l = count q l.
Proof. intros H. unfold count. rewrite (filter_ext p q H). reflexivity. Qed.

(** *** Joins that match a row once at most *)

Lemma existsb_filter {A : Type} (p : A -> bool) (l : list A) :
  existsb p l = match filter p l with [] => false | _ => true end.
Proof.
  induction l as [|a t IH]; simpl; [reflexivity|].
  destruct (p a); [reflexivity|exact IH].
Qed.

(** An inner join against a frame that matches a left row once at most
    keeps the left rows that have a match, once each. *)
Lemma inner_join_fst {A B : Type} (on : A -> B -> bool) (l : list A) (r : list B) :
  (forall a, In a l -> (List.length (filter (on a) r) <= 1)%nat) ->
  map fst (inner_join on l r) = filter (fun a => existsb (on a) r) l.
Proof.
  unfold inner_join. induction l as [|a t IH]; intros H; [reflexivity|].
  cbn [flat_map filter]. rewrite map_app, IH by (intros x Hx; apply H; right; exact Hx).
  rewrite existsb_filter. specialize (H a (or_introl eq_refl)).
  destruct (filter (on a) r) as [|b [|b' ms]]; cbn in H |- *; [reflexivity|reflexivity|lia].
Qed.

(** A left join against such a frame keeps every left row once. *)
Lemma left_join_fst {A B : Type} (on : A -> B -> bool) (l : list A) (r : list B) :
  (forall a, In a l -> (List.length (filter (on a) r) <= 1)%nat) ->
  map fst (left_join on l r) = l.
Proof.
  unfold left_join. induction l as [|a t IH]; intros H; [reflexivity|].
  cbn [flat_map]. rewrite map_app, IH by (intros x Hx; apply H; right; exact Hx).
  specialize (H a (or_introl eq_refl)).
  destruct (filter (on a) r) as [|b [|b' ms]]; cbn in H |- *; [reflexivity|reflexivity|lia].
Qed.

Lemma filter_filter {A : Type} (p q : A -> bool) (l : list A) :
  filter p (filter q l) = filter (fun a => andb (q a) (p a)) l.
Proof.
  induction l as [|a t IH]; simpl; [reflexivity|].
  destruct (q a); simpl; [destruct (p a)|]; rewrite IH; reflexivity.
Qed.
End Rel.


(** ** The source collections

    One record per line of the JSON files, a nullable column as an [option]:
    a field the line lacks is null.  A floating-point column holds the
    rational its decimal literal denotes. *)

Definition opt_string_dec (a b : option string) : {a = b} + {a <> b}.
Proof. decide equality; apply string_dec. Defined.

Definition opt_Z_dec (a b : option Z) : {a = b} + {a <> b}.
Proof. decide equality; apply Z.eq_dec. Defined.

Definition Q_dec (a b : Q) : {a = b} + {a <> b}.
Proof. decide equality; [apply Pos.eq_dec | apply Z.eq_dec]. Defined.

Definition opt_Q_dec (a b : option Q) : {a = b} + {a <> b}.
Proof. decide equality; apply Q_dec. Defined.

Definition is_some {A : Type} (o : option A) : bool :=
  match o with Some _ => true | None => false end.

Definition bind_opt {A B : Type} (o : option A) (f : A -> option B) : option B :=
  match o with Some a => f a | None => None end.

(** [coalesce(col, lit(v))], [fillna(v)] and [na.fill(v)] on one cell. *)
Definition coalesce {A : Type} (o : option A) (v : A) : A :=
  match o with Some a => a | None => v end.

(** [na.drop()] and [dropna()] on a one-column frame. *)
Definition na_drop {A : Type} (l : list (option A)) : list A :=
  flat_map (fun o => match o with Some a => [a] | None => [] end) l.

(** [F.avg(col)] and [mean]: the mean of the values that are not null, null
    when there is none. *)
Definition avg (values : list (option Q)) : option Q :=
  match na_drop values with
  | [] => None
  | v :: vs => Some (Qred (fold_right Qplus 0%Q (v :: vs)
                           / inject_Z (Z.of_nat (List.length (v :: vs)))))
  end.

Lemma na_drop_In {A : Type} (l : list (option A)) (a : A) :
  In a (na_drop l) <-> In (Some a) l.
Proof.
  unfold na_drop. rewrite in_flat_map. split.
  - intros [[x|] [Hin Hx]]; [|destruct Hx].
    destruct Hx as [->|[]]. exact Hin.
  - intros Hin. exists (Some a). split; [exact Hin|left; reflexivity].
Qed.

Lemma na_drop_NoDup {A : Type} (l : list (option A)) : NoDup l -> NoDup (na_drop l).
Proof.
  intros Hnd. induction Hnd as [|x t Hnotin Hnd IH]; simpl; [constructor|].
  destruct x as [a|]; simpl; [|exact IH].
  constructor; [|exact IH]. rewrite na_drop_In. exact Hnotin.
Qed.

Module Business.
Record t : Type := mk {
  business_id : option string;
  name : option string;
  address : option string;
  city : option string;
  state : option string;
  postal_code : option string;
  latitude : option Q;
  longitude : option Q;
  stars : option Q;
  review_count : option Z;
  is_open : option Z;
  attributes : option string;
  categories : option string;
  hours : option string
}.
End Business.

Module Review.
Record t : Type := mk {
  review_id : option string;
  user_id : option string;
  business_id : option string;
  stars : option Q;
  useful : option Z;
  funny : option Z;
  cool : option Z;
  date : option string
}.
End Review.

Module Checkin.
Record t : Type := mk {
  business_id : option string;
  date : option string
}.
End Checkin.

Module Tip.
Record t : Type := mk {
  user_id : option string;
  business_id : option string;
  date : option string
}.
End Tip.

Module User.
Record t : Type := mk {
  user_id : option string;
  name : option string;
  yelping_since : option string;
  review_count : option Z;
  average_stars : option Q;
  fans : option Z;
  elite : option string;
  compliments : list (option Z)   (* compliment_cool, ..., compliment_writer *)
}.
End User.

(** Sample records for the runs below. *)
Module Sample.

Definition cafe (categories : option string) : Business.t :=
  Business.mk (Some "b1") (Some "Cafe") (Some "1 Main St") (Some "Reno") (Some "NV")
              (Some "89501") None None (Some 4%Q) (Some 7) (Some 1) None categories None.

Definition diner (categories : option string) : Business.t :=
  Business.mk (Some "b2") (Some "Diner") (Some "2 Main St") (Some "Reno") (Some "NV")
              (Some "89501") None None (Some 3%Q) None (Some 0) None categories None.

Definition review_on (review_id : option string) (date : string) : Review.t :=
  Review.mk review_id (Some "u1") (Some "b1") (Some 5%Q) (Some 1) (Some 0) (Some 0)
            (Some date).

Definition reviews : list Review.t :=
  [review_on (Some "r1") "2018-01-05 09:00:00";
   review_on (Some "r2") "2018-01-20 18:30:00"].

Definition checkins : list Checkin.t :=
  [Checkin.mk (Some "b1") (Some "2018-01-01 10:00:00, 2018-02-02 11:00:00")].

Definition tips : list Tip.t :=
  [Tip.mk (Some "u2") (Some "b1") (Some "2018-03-03 12:00:00")].

End Sample.

(** ** The PySpark pipeline of [business_owners_and_managers_ETL.py] *)

Module Owners.

(** The grouping key of the monthly aggregates: [business_id], [year],
    [month]. *)
Definition month_key : Type := (option string * option Z * option Z)%type.

Definition month_key_dec (a b : month_key) : {a = b} + {a <> b}.
Proof. repeat decide equality. Defined.

Definition month_key_complete (k : month_key) : bool :=
  let '(b, y, m) := k in andb (is_some b) (andb (is_some y) (is_some m)).

(** The key of an event of business [b] dated [d]: [F.year] and [F.month] of
    a null date are null. *)
Definition key_of (b : option string) (d : option Date.date) : month_key :=
  (b, option_map Date.year d, option_map Date.month d).

(** A row of [Dim_Date]. *)
Record date_row : Type := mk_date_row {
  date_id : string;
  date : Date.date;
  dd_month : Z;
  dd_year : Z;
  quarter : Z;
  is_weekend : bool
}.

(** A row of [fact_table_monthly_joined], after [na.fill(0)]. *)
Record monthly_row : Type := mk_monthly_row {
  business_id : option string;
  year : Z;
  month : Z;
  review_count_monthly : Z;
  checkin_count_monthly : Z;
  tip_count_monthly : Z
}.

(** A row of [Fact_Business_Performance], its two derived columns read as
    exact fractions. *)
Record performance_row : Type := mk_performance_row {
  fp_business_id : option string;
  month_id : string;
  review_count : Z;
  checkin_count : Z;
  tip_count : Z;
  photo_count : Z;
  engagement_score : Q;
  growth_rate : option Q
}.

(** A row of [Fact_Business_Performance] as it is written: the two derived
    columns are doubles. *)
Record performance_row_double : Type := mk_performance_row_double {
  fd_business_id : option string;
  fd_month_id : string;
  fd_review_count : Z;
  fd_checkin_count : Z;
  fd_tip_count : Z;
  fd_photo_count : Z;
  fd_engagement_score : float;
  fd_growth_rate : option float
}.

(** A row of [Dim_Business]; [overall_avg_rating] is a [DecimalType(3, 1)],
    held in tenths. *)
Record business_row : Type := mk_business_row {
  db_business_id : option string;
  db_name : option string;
  subcategory : option string;
  db_is_open : option bool;
  overall_avg_rating : option Z;
  overall_review_count : Z
}.

Definition business_row_dec (a b : business_row) : {a = b} + {a <> b}.
Proof. repeat decide equality. Defined.

Definition opt_date_dec (a b : option Date.date) : {a = b} + {a <> b}.
Proof. decide equality; apply Date.eq_dec. Defined.

Definition pair_dec (a b : option string * Z) : {a = b} + {a <> b}.
Proof. repeat decide equality. Defined.

Section Pipeline.

(** [F.to_date] on a string: the date it starts with, or null when it
    starts with none, the nulls being what the script drops afterwards. *)
Variable to_date : string -> option Date.date.

(** [F.monotonically_increasing_id()]: the id of the row at a position of
    the frame; Spark promises no more than that the ids differ and grow. *)
Variable monotonically_increasing_id : nat -> Z.

Definition to_date_col (s : option string) : option Date.date := bind_opt s to_date.

(** *** Dim_Date (lines 94-118) *)

Definition review_dates (df_review : list Review.t) : list (option Date.date) :=
  map (fun r => to_date_col (Review.date r)) df_review.

Definition tip_dates (df_tip : list Tip.t) : list (option Date.date) :=
  map (fun t => to_date_col (Tip.date t)) df_tip.

(** [explode(split(col("date"), ", "))]: a row per piece, none for a null
    string. *)
Definition checkin_dates_exploded (df_checkin : list Checkin.t)
  : list (Checkin.t * string) :=
  flat_map (fun c => match Checkin.date c with
                     | Some s => map (fun piece => (c, piece)) (Str.split_comma_space s)
                     | None => []
                     end) df_checkin.

Definition checkin_dates (df_checkin : list Checkin.t) : list (option Date.date) :=
  map (fun cp => to_date (Str.trim (snd cp))) (checkin_dates_exploded df_checkin).

Definition all_dates (df_review : list Review.t) (df_tip : list Tip.t)
           (df_checkin : list Checkin.t) : list Date.date :=
  na_drop (Rel.distinct opt_date_dec
             (review_dates df_review ++ tip_dates df_tip ++ checkin_dates df_checkin)).

Definition date_row_of (d : Date.date) : date_row :=
  {| date_id := Date.format_yyyyMMdd d;
     date := d;
     dd_month := Date.month d;
     dd_year := Date.year d;
     quarter := Date.quarter d;
     is_weekend := orb (Date.dayofweek_spark d =? 1) (Date.dayofweek_spark d =? 7) |}.

Definition dim_date (df_review : list Review.t) (df_tip : list Tip.t)
           (df_checkin : list Checkin.t) : list date_row :=
  map date_row_of (all_dates df_review df_tip df_checkin).

(** *** Dim_Location (lines 120-133) *)

Definition location_row : Type :=
  (option string * option string * option string * option string * option string
   * option Q * option Q)%type.

Definition location_row_dec (a b : location_row) : {a = b} + {a <> b}.
Proof. repeat decide equality. Defined.

Definition dim_location (df_business : list Business.t) : list location_row :=
  Rel.distinct location_row_dec
    (map (fun b => (Business.business_id b, Business.business_id b, Business.city b,
                    Business.state b, Business.postal_code b, Business.latitude b,
                    Business.longitude b)) df_business).

(** *** Dim_Category and the bridge (lines 135-166) *)

Definition business_categories_exploded (df_business : list Business.t)
  : list (option string * string) :=
  filter (fun bc => andb (Str.neqb (snd bc) "") (Str.neqb (snd bc) "null"))
    (flat_map (fun b => match Business.categories b with
                        | Some s => map (fun c => (Business.business_id b, c))
                                        (Str.split_comma_ws s)
                        | None => []
                        end) df_business).

(** The ids go to the rows in the order [distinct()] leaves them. *)
Definition with_ids {A : Type} (l : list A) : list (Z * A) :=
  combine (map monotonically_increasing_id (seq 0 (List.length l))) l.

Definition dim_category (df_business : list Business.t) : list (Z * string) :=
  with_ids (Rel.distinct string_dec (map snd (business_categories_exploded df_business))).

Definition fact_business_categories (df_business : list Business.t)
  : list (option string * Z) :=
  Rel.distinct pair_dec
    (map (fun j => (fst (fst j), fst (snd j)))
         (Rel.inner_join (fun bc cat => String.eqb (snd bc) (snd cat))
                         (business_categories_exploded df_business)
                         (dim_category df_business))).

(** *** Dim_Business (lines 169-216) *)

(** The cast to [DecimalType(3, 1)]: rounded half up to one decimal, null
    when the value needs more than three digits. *)
Definition cast_decimal_3_1 (q : Q) : option Z :=
  let tenths := if Qle_bool 0%Q q
                then Qfloor (q * inject_Z 10 + (1 # 2))%Q
                else - Qfloor (- q * inject_Z 10 + (1 # 2))%Q in
  if Z.abs tenths <=? 999 then Some tenths else None.

(** [groupBy("business_id").agg(avg("stars"), count("review_id"))].  The
    average is taken here as the exact mean of the star values; Spark takes
    it over doubles, from a [FloatType] column.  The statements below are
    about the count. *)
Definition business_review_overall_stats (df_review : list Review.t)
  : list (option string * (option Q * Z)) :=
  Rel.group_by opt_string_dec Review.business_id
    (fun g => (avg (map Review.stars g),
               Rel.count (fun r => is_some (Review.review_id r)) g))
    df_review.

(** The [when(...).otherwise(None)] of the subcategory column:
    [category_array[1]] when the array has more than one element and that
    element is neither empty nor "null". *)
Definition subcategory_of (category_array : option (list string)) : option string :=
  match category_array with
  | None => None
  | Some arr =>
      match nth_error arr 1 with
      | Some c =>
          if andb (1 <? Z.of_nat (List.length arr))
                  (andb (Str.neqb c "") (Str.neqb c "null"))
          then Some c
          else None
      | None => None
      end
  end.

Record base_info : Type := mk_base_info {
  bi_business_id : option string;
  bi_name : option string;
  bi_is_open : option bool;
  bi_subcategory : option string
}.

Definition business_base_info (df_business : list Business.t) : list base_info :=
  map (fun b =>
         {| bi_business_id := Business.business_id b;
            bi_name := Business.name b;
            bi_is_open := option_map (fun v => v =? 1) (Business.is_open b);
            bi_subcategory :=
              subcategory_of (option_map Str.split_comma_ws (Business.categories b)) |})
      df_business.

Definition dim_business (df_business : list Business.t) (df_review : list Review.t)
  : list business_row :=
  Rel.distinct business_row_dec
    (map (fun j =>
            {| db_business_id := bi_business_id (fst j);
               db_name := bi_name (fst j);
               subcategory := bi_subcategory (fst j);
               db_is_open := bi_is_open (fst j);
               overall_avg_rating :=
                 bind_opt (bind_opt (snd j) (fun s => fst (snd s))) cast_decimal_3_1;
               overall_review_count := coalesce (option_map (fun s => snd (snd s)) (snd j)) 0 |})
         (Rel.left_join
            (fun b s => Rel.sql_eqb opt_string_dec is_some (bi_business_id b) (fst s))
            (business_base_info df_business)
            (business_review_overall_stats df_review))).

(** *** Fact_Business_Performance (lines 219-306) *)

Definition df_review_ym (df_review : list Review.t) : list (Review.t * option Date.date) :=
  map (fun r => (r, to_date_col (Review.date r))) df_review.

Definition df_checkin_ym (df_checkin : list Checkin.t) : list (option string * Date.date) :=
  flat_map (fun cp => match to_date (Str.trim (snd cp)) with
                      | Some d => [(Checkin.business_id (fst cp), d)]
                      | None => []
                      end)
           (checkin_dates_exploded df_checkin).

Definition df_tip_ym (df_tip : list Tip.t) : list (Tip.t * option Date.date) :=
  map (fun t => (t, to_date_col (Tip.date t))) df_tip.

Definition review_key (rd : Review.t * option Date.date) : month_key :=
  key_of (Review.business_id (fst rd)) (snd rd).

Definition checkin_key (cd : option string * Date.date) : month_key :=
  key_of (fst cd) (Some (snd cd)).

Definition tip_key (td : Tip.t * option Date.date) : month_key :=
  key_of (Tip.business_id (fst td)) (snd td).

Definition has_review_id (rd : Review.t * option Date.date) : bool :=
  is_some (Review.review_id (fst rd)).

Definition review_agg_monthly (df_review : list Review.t) : list (month_key * Z) :=
  Rel.group_by month_key_dec review_key (Rel.count has_review_id) (df_review_ym df_review).

Definition checkin_agg_monthly (df_checkin : list Checkin.t) : list (month_key * Z) :=
  Rel.group_by month_key_dec checkin_key (Rel.count (fun _ => true))
               (df_checkin_ym df_checkin).

Definition tip_agg_monthly (df_tip : list Tip.t) : list (month_key * Z) :=
  Rel.group_by month_key_dec tip_key (Rel.count (fun _ => true)) (df_tip_ym df_tip).

Definition base_facts_monthly (df_review : list Review.t) (df_checkin : list Checkin.t)
           (df_tip : list Tip.t) : list month_key :=
  Rel.distinct month_key_dec
    (map fst (review_agg_monthly df_review)
     ++ map fst (checkin_agg_monthly df_checkin)
     ++ map fst (tip_agg_monthly df_tip)).

(** The join condition of [join(agg, ["business_id", "year", "month"], "left")]. *)
Definition on_month {A : Type} (kf : A -> month_key) (a : A) (b : month_key * Z) : bool :=
  Rel.sql_eqb month_key_dec month_key_complete (kf a) (fst b).

(** [na.fill(0)]: every null of a numeric column becomes 0, the null years
    and months of the key as well as the null counts. *)
Definition na_fill_0
           (j : month_key * option (month_key * Z) * option (month_key * Z)
                * option (month_key * Z)) : monthly_row :=
  let '(k, r, c, t) := j in
  let '(b, y, m) := k in
  {| business_id := b;
     year := coalesce y 0;
     month := coalesce m 0;
     review_count_monthly := coalesce (option_map snd r) 0;
     checkin_count_monthly := coalesce (option_map snd c) 0;
     tip_count_monthly := coalesce (option_map snd t) 0 |}.

Definition fact_table_monthly_joined (df_review : list Review.t)
           (df_checkin : list Checkin.t) (df_tip : list Tip.t) : list monthly_row :=
  map na_fill_0
    (Rel.left_join (on_month (fun x => fst (fst x)))
       (Rel.left_join (on_month (fun x => fst x))
          (Rel.left_join (on_month (fun x => x))
             (base_facts_monthly df_review df_checkin df_tip)
             (review_agg_monthly df_review))
          (checkin_agg_monthly df_checkin))
       (tip_agg_monthly df_tip)).

(** [Window.partitionBy("business_id").orderBy("year", "month")]: the rows of
    one business, by year and then month. *)
Definition ym_leb (a b : monthly_row) : bool :=
  orb (year a <? year b) (andb (year a =? year b) (month a <=? month b)).

Definition business_window (e : option string) (rows : list monthly_row)
  : list monthly_row :=
  Rel.sort ym_leb (filter (fun r => Rel.eqb opt_string_dec (business_id r) e) rows).

(** [F.lag("review_count_monthly", 1).over(business_window)]: each row of a
    window with the count of the row before it, null for the first. *)
Fixpoint lag_review_count (prev : option Z) (w : list monthly_row)
  : list (monthly_row * option Z) :=
  match w with
  | [] => []
  | r :: t => (r, prev) :: lag_review_count (Some (review_count_monthly r)) t
  end.

Definition fact_table_with_lag (rows : list monthly_row) : list (monthly_row * option Z) :=
  flat_map (fun e => lag_review_count None (business_window e rows))
           (Rel.distinct opt_string_dec (map business_id rows)).

(** The [when(prev.isNull() | (prev == 0), None).otherwise((cur - prev) / prev)]
    of the growth column; the quotient of two integers is a fraction. *)
Definition review_growth_rate (cur : Z) (prev_month_review_count : option Z) : option Q :=
  match prev_month_review_count with
  | None => None
  | Some prev =>
      if prev =? 0 then None
      else Some (inject_Z (cur - prev) / inject_Z prev)%Q
  end.

Definition fact_table_with_growth (rows : list monthly_row)
  : list (monthly_row * option Q) :=
  map (fun rl => (fst rl, review_growth_rate (review_count_monthly (fst rl)) (snd rl)))
      (fact_table_with_lag rows).

(** [photo_count_monthly = F.lit(0)], the placeholder of line 283. *)
Definition photo_count_monthly : Z := 0.

Definition engagement_score_of (r : monthly_row) : Q :=
  (inject_Z (review_count_monthly r) * 1
   + inject_Z (tip_count_monthly r) * (1 # 2)
   + inject_Z photo_count_monthly * (1 # 4)
   + inject_Z (checkin_count_monthly r) * (1 # 5))%Q.

(** The two derived columns over binary64, the type Spark gives them: a
    count is a long, and a long meets a double as a double, the nearest one
    (ties to even), negative or not. *)
Definition double_of_long (z : Z) : float :=
  SF2Prim (binary_normalize prec emax z 0 false).

#[warnings="-inexact-float"]
Definition engagement_score_double (r : monthly_row) : float :=
  (double_of_long (review_count_monthly r) * 1.0
   + double_of_long (tip_count_monthly r) * 0.5
   + double_of_long photo_count_monthly * 0.25
   + double_of_long (checkin_count_monthly r) * 0.2)%float.

Definition review_growth_rate_double (cur : Z) (prev_month_review_count : option Z)
  : option float :=
  match prev_month_review_count with
  | None => None
  | Some prev =>
      if prev =? 0 then None
      else Some (double_of_long (cur - prev) / double_of_long prev)%float
  end.

(** [F.format_string("%04d%02d", year, month)], for the years and months of
    dates. *)
Definition month_id_of (r : monthly_row) : string :=
  (Date.four_digits (year r) ++ Date.two_digits (month r))%string.

(** The growth table with its [engagement_score] column. *)
Definition fact_table_final_monthly (rows : list monthly_row)
  : list (monthly_row * option Q * Q) :=
  map (fun rg => (rg, engagement_score_of (fst rg))) (fact_table_with_growth rows).

(** The same two steps over binary64. *)
Definition fact_table_with_growth_double (rows : list monthly_row)
  : list (monthly_row * option float) :=
  map (fun rl =>
         (fst rl, review_growth_rate_double (review_count_monthly (fst rl)) (snd rl)))
      (fact_table_with_lag rows).

Definition fact_table_final_monthly_double (rows : list monthly_row)
  : list (monthly_row * option float * float) :=
  map (fun rg => (rg, engagement_score_double (fst rg)))
      (fact_table_with_growth_double rows).

Definition fact_business_performance (df_review : list Review.t)
           (df_checkin : list Checkin.t) (df_tip : list Tip.t) : list performance_row :=
  map (fun rgs =>
         let r := fst (fst rgs) in
         {| fp_business_id := business_id r;
            month_id := month_id_of r;
            review_count := review_count_monthly r;
            checkin_count := checkin_count_monthly r;
            tip_count := tip_count_monthly r;
            photo_count := photo_count_monthly;
            engagement_score := snd rgs;
            growth_rate := snd (fst rgs) |})
      (fact_table_final_monthly
         (fact_table_monthly_joined df_review df_checkin df_tip)).

(** The table as Spark writes it. *)
Definition fact_business_performance_double (df_review : list Review.t)
           (df_checkin : list Checkin.t) (df_tip : list Tip.t)
  : list performance_row_double :=
  map (fun rgs =>
         let r := fst (fst rgs) in
         {| fd_business_id := business_id r;
            fd_month_id := month_id_of r;
            fd_review_count := review_count_monthly r;
            fd_checkin_count := checkin_count_monthly r;
            fd_tip_count := tip_count_monthly r;
            fd_photo_count := photo_count_monthly;
            fd_engagement_score := snd rgs;
            fd_growth_rate := snd (fst rgs) |})
      (fact_table_final_monthly_double
         (fact_table_monthly_joined df_review df_checkin df_tip)).

(** The exact value of a double that is a number. *)
Definition exact_value (x : float) : option Q :=
  match Prim2SF x with
  | S754_zero _ => Some 0%Q
  | S754_finite s m e =>
      Some (inject_Z (if s then Z.neg m else Z.pos m) * Qpower 2 e)%Q
  | S754_infinity _ | S754_nan => None
  end.

(** *** The events of a business in a month *)

Definition in_month (e : string) (y m : Z) (k : month_key) : bool :=
  Rel.eqb month_key_dec k (Some e, Some y, Some m).

(** The review records of business [e] dated in month [m] of year [y]. *)
Definition reviews_in (df_review : list Review.t) (e : string) (y m : Z)
  : list (Review.t * option Date.date) :=
  filter (fun rd => in_month e y m (review_key rd)) (df_review_ym df_review).

(** Its exploded checkin time stamps of that month. *)
Definition checkins_in (df_checkin : list Checkin.t) (e : string) (y m : Z)
  : list (option string * Date.date) :=
  filter (fun cd => in_month e y m (checkin_key cd)) (df_checkin_ym df_checkin).

(** Its tips of that month. *)
Definition tips_in (df_tip : list Tip.t) (e : string) (y m : Z)
  : list (Tip.t * option Date.date) :=
  filter (fun td => in_month e y m (tip_key td)) (df_tip_ym df_tip).

(** The rows of the fact table for business [e] and month [y]-[m]. *)
Definition rows_for (e : string) (y m : Z) (table : list monthly_row) : list monthly_row :=
  filter (fun r => andb (Rel.eqb opt_string_dec (business_id r) (Some e))
                        (andb (year r =? y) (month r =? m))) table.

(** *** The monthly fact table is the union of the three aggregates *)

(** The row the three left joins and [na.fill(0)] build for a key. *)
Definition joined_row (df_review : list Review.t) (df_checkin : list Checkin.t)
           (df_tip : list Tip.t) (k : month_key) : monthly_row :=
  na_fill_0
    (k,
     Rel.sql_lookup month_key_dec month_key_complete review_key
       (Rel.count has_review_id) (df_review_ym df_review) k,
     Rel.sql_lookup month_key_dec month_key_complete checkin_key
       (Rel.count (fun _ => true)) (df_checkin_ym df_checkin) k,
     Rel.sql_lookup month_key_dec month_key_complete tip_key
       (Rel.count (fun _ => true)) (df_tip_ym df_tip) k).

Lemma fact_table_monthly_joined_map (df_review : list Review.t)
      (df_checkin : list Checkin.t) (df_tip : list Tip.t) :
  fact_table_monthly_joined df_review df_checkin df_tip
  = map (joined_row df_review df_checkin df_tip)
        (base_facts_monthly df_review df_checkin df_tip).
Proof.
  unfold fact_table_monthly_joined, on_month.
  unfold review_agg_monthly, checkin_agg_monthly, tip_agg_monthly.
  rewrite (Rel.left_join_group_by month_key_dec month_key_complete (fun x => x)).
  rewrite (Rel.left_join_group_by month_key_dec month_key_complete
             (fun x : month_key * option (month_key * Z) => fst x)).
  rewrite (Rel.left_join_group_by month_key_dec month_key_complete
             (fun x : month_key * option (month_key * Z) * option (month_key * Z) =>
                fst (fst x))).
  rewrite !map_map. reflexivity.
Qed.

(** A filled count is the count of the key's group, when the key has no null. *)
Lemma lookup_count {R : Type} (key : R -> month_key) (p : R -> bool)
      (rows : list R) (k : month_key) :
  month_key_complete k = true ->
  coalesce (option_map snd
              (Rel.sql_lookup month_key_dec month_key_complete key (Rel.count p) rows k)) 0
  = Rel.count p (Rel.group_of month_key_dec key k rows).
Proof.
  intros Hc. unfold Rel.sql_lookup. rewrite Hc. simpl.
  destruct (Rel.mem month_key_dec k (map key rows)) eqn:E; simpl; [reflexivity|].
  apply Rel.mem_false in E. apply (Rel.group_of_nil_iff month_key_dec) in E. rewrite E. reflexivity.
Qed.

(** Every key of the fact table comes from one event: its year and month are
    null together. *)
Lemma base_facts_monthly_form (df_review : list Review.t) (df_checkin : list Checkin.t)
      (df_tip : list Tip.t) (k : month_key) :
  In k (base_facts_monthly df_review df_checkin df_tip) ->
  exists b d, k = key_of b d.
Proof.
  unfold base_facts_monthly. rewrite Rel.distinct_In, !in_app_iff.
  unfold review_agg_monthly, checkin_agg_monthly, tip_agg_monthly.
  rewrite !Rel.group_by_keys, !Rel.distinct_In, !in_map_iff.
  intros [[x [<- _]]|[[x [<- _]]|[x [<- _]]]]; eexists; eexists; reflexivity.
Qed.

Lemma base_facts_monthly_In (df_review : list Review.t) (df_checkin : list Checkin.t)
      (df_tip : list Tip.t) (k : month_key) :
  In k (base_facts_monthly df_review df_checkin df_tip) <->
  Rel.group_of month_key_dec review_key k (df_review_ym df_review) <> []
  \/ Rel.group_of month_key_dec checkin_key k (df_checkin_ym df_checkin) <> []
  \/ Rel.group_of month_key_dec tip_key k (df_tip_ym df_tip) <> [].
Proof.
  unfold base_facts_monthly. rewrite Rel.distinct_In, !in_app_iff.
  unfold review_agg_monthly, checkin_agg_monthly, tip_agg_monthly.
  rewrite !Rel.group_by_keys, !Rel.distinct_In.
  rewrite !Rel.group_of_nil_iff.
  destruct (in_dec month_key_dec k (map review_key (df_review_ym df_review)));
    destruct (in_dec month_key_dec k (map checkin_key (df_checkin_ym df_checkin)));
    destruct (in_dec month_key_dec k (map tip_key (df_tip_ym df_tip)));
    tauto.
Qed.

(** The business has an event in the month: a review, an exploded checkin
    time stamp or a tip. *)
Definition active (df_review : list Review.t) (df_checkin : list Checkin.t)
           (df_tip : list Tip.t) (e : string) (y m : Z) : bool :=
  negb (Nat.eqb (List.length (reviews_in df_review e y m)
                 + List.length (checkins_in df_checkin e y m)
                 + List.length (tips_in df_tip e y m)) 0).

Lemma active_iff (df_review : list Review.t) (df_checkin : list Checkin.t)
      (df_tip : list Tip.t) (e : string) (y m : Z) :
  active df_review df_checkin df_tip e y m = true <->
  In (Some e, Some y, Some m) (base_facts_monthly df_review df_checkin df_tip).
Proof.
  rewrite base_facts_monthly_In. unfold active, reviews_in, checkins_in, tips_in.
  unfold Rel.group_of, in_month.
  rewrite negb_true_iff, Nat.eqb_neq.
  destruct (filter _ (df_review_ym df_review)); 
    destruct (filter _ (df_checkin_ym df_checkin));
    destruct (filter _ (df_tip_ym df_tip)); simpl;
    split; intros H; try lia; try (intuition congruence);
    try (left; discriminate); try (right; left; discriminate);
    try (right; right; discriminate).
Qed.

(** The key a row of the table was built from, for a month that is not 0. *)
Lemma joined_row_key (df_review : list Review.t) (df_checkin : list Checkin.t)
      (df_tip : list Tip.t) (e : string) (y m : Z) (b : option string)
      (d : option Date.date) :
  m <> 0 ->
  andb (Rel.eqb opt_string_dec
          (business_id (joined_row df_review df_checkin df_tip (key_of b d))) (Some e))
       (andb (year (joined_row df_review df_checkin df_tip (key_of b d)) =? y)
             (month (joined_row df_review df_checkin df_tip (key_of b d)) =? m))
  = Rel.eqb month_key_dec (Some e, Some y, Some m) (key_of b d).
Proof.
  intros Hm. unfold joined_row, key_of. simpl.
  destruct (Rel.eqb month_key_dec (Some e, Some y, Some m)
              (b, option_map Date.year d, option_map Date.month d)) eqn:E.
  - apply Rel.eqb_true in E. injection E as <- Hy Hmm.
    rewrite <- Hy, <- Hmm. simpl.
    rewrite Rel.eqb_refl, !Z.eqb_refl. reflexivity.
  - apply Rel.eqb_false in E.
    destruct (Rel.eqb opt_string_dec b (Some e)) eqn:Eb; simpl; [|reflexivity].
    apply Rel.eqb_true in Eb. subst b.
    destruct d as [d|]; simpl.
    + destruct (Date.year d =? y) eqn:Ey; simpl; [|reflexivity].
      destruct (Date.month d =? m) eqn:Em; simpl; [|reflexivity].
      apply Z.eqb_eq in Ey, Em. subst. contradiction.
    + destruct y, m; try reflexivity; exfalso; apply Hm; reflexivity.
Qed.

Lemma filter_all {A : Type} (l : list A) : filter (fun _ => true) l = l.
Proof. induction l as [|a t IH]; simpl; [reflexivity|]. rewrite IH. reflexivity. Qed.

(** The rows of a business and calendar month: one row, with the counts of
    the month's events, when there is an event; none otherwise. *)
Lemma rows_for_monthly_joined
      (df_review : list Review.t) (df_checkin : list Checkin.t)
      (df_tip : list Tip.t) (e : string) (y m : Z) :
  1 <= m <= 12 ->
  rows_for e y m (fact_table_monthly_joined df_review df_checkin df_tip)
  = if active df_review df_checkin df_tip e y m
    then [ {| business_id := Some e;
              year := y;
              month := m;
              review_count_monthly :=
                Rel.count has_review_id (reviews_in df_review e y m);
              checkin_count_monthly :=
                Z.of_nat (List.length (checkins_in df_checkin e y m));
              tip_count_monthly :=
                Z.of_nat (List.length (tips_in df_tip e y m)) |} ]
    else [].
Proof.
  intros Hm.
  rewrite fact_table_monthly_joined_map. unfold rows_for.
  rewrite Rel.filter_map_comm.
  rewrite (filter_ext_in _ (fun k => Rel.eqb month_key_dec (Some e, Some y, Some m) k)).
  2:{ intros k Hk. apply base_facts_monthly_form in Hk.
      destruct Hk as [b [d ->]]. apply joined_row_key. lia. }
  rewrite (@Rel.filter_eqb_NoDup _ month_key_dec (Some e, Some y, Some m)
             (base_facts_monthly df_review df_checkin df_tip)
             (Rel.distinct_NoDup month_key_dec _)).
  destruct (active df_review df_checkin df_tip e y m) eqn:Eact.
  - apply active_iff in Eact. apply (Rel.mem_true month_key_dec) in Eact.
    rewrite Eact. simpl. f_equal.
    unfold joined_row, na_fill_0.
    rewrite !lookup_count by reflexivity.
    unfold reviews_in, checkins_in, tips_in, in_month, Rel.group_of.
    f_equal; unfold Rel.count; rewrite filter_all; reflexivity.
  - assert (Hno : Rel.mem month_key_dec (Some e, Some y, Some m)
                    (base_facts_monthly df_review df_checkin df_tip) = false).
    { apply Rel.mem_false. intros Hin. apply active_iff in Hin. congruence. }
    rewrite Hno. reflexivity.
Qed.

Lemma active_true_iff (df_review : list Review.t) (df_checkin : list Checkin.t)
      (df_tip : list Tip.t) (e : string) (y m : Z) :
  active df_review df_checkin df_tip e y m = true <->
  (reviews_in df_review e y m <> []
   \/ checkins_in df_checkin e y m <> []
   \/ tips_in df_tip e y m <> []).
Proof.
  unfold active. rewrite negb_true_iff, Nat.eqb_neq.
  destruct (reviews_in df_review e y m), (checkins_in df_checkin e y m),
    (tips_in df_tip e y m); simpl; split; intros H; try lia;
    try (intuition congruence); try (left; discriminate);
    try (right; left; discriminate); try (right; right; discriminate).
Qed.

Lemma rows_for_In (e : string) (y m : Z) (table : list monthly_row) (r : monthly_row) :
  In r (rows_for e y m table) <->
  In r table /\ business_id r = Some e /\ year r = y /\ month r = m.
Proof.
  unfold rows_for. rewrite filter_In, !andb_true_iff, Rel.eqb_true, !Z.eqb_eq. tauto.
Qed.

(** C1 (as amended): for a business [e] and a calendar month [y]-[m], the
    monthly fact table has a row exactly when the business has a review, an
    exploded checkin time stamp or a tip dated in that month (the union of
    the three aggregates), and then a single one; the row carries all three
    counts, 0 where a source has no event that month: the number of the
    month's exploded checkin time stamps, the number of its tips, and the
    number of its reviews that have a [review_id], which is what
    [F.count("review_id")] counts. *)
Theorem monthly_fact_is_union_with_counts
        (df_review : list Review.t) (df_checkin : list Checkin.t)
        (df_tip : list Tip.t) (e : string) (y m : Z) :
  1 <= m <= 12 ->
  ((exists r, In r (fact_table_monthly_joined df_review df_checkin df_tip)
              /\ business_id r = Some e /\ year r = y /\ month r = m)
   <-> (reviews_in df_review e y m <> []
        \/ checkins_in df_checkin e y m <> []
        \/ tips_in df_tip e y m <> []))
  /\ (List.length (rows_for e y m (fact_table_monthly_joined df_review df_checkin df_tip))
      <= 1)%nat
  /\ (forall r, In r (fact_table_monthly_joined df_review df_checkin df_tip) ->
                business_id r = Some e -> year r = y -> month r = m ->
                review_count_monthly r
                = Rel.count has_review_id (reviews_in df_review e y m)
                /\ checkin_count_monthly r
                   = Z.of_nat (List.length (checkins_in df_checkin e y m))
                /\ tip_count_monthly r
                   = Z.of_nat (List.length (tips_in df_tip e y m))).
Proof.
  intros Hm.
  pose proof (rows_for_monthly_joined df_review df_checkin df_tip e y m Hm) as Hrows.
  pose proof (active_true_iff df_review df_checkin df_tip e y m) as Hact.
  destruct (active df_review df_checkin df_tip e y m) eqn:Ea.
  - split; [|split].
    + split; [intros _; apply Hact; reflexivity|]. intros _.
      eexists. rewrite <- rows_for_In, Hrows. left. reflexivity.
    + rewrite Hrows. simpl. lia.
    + intros r Hin Hb Hy Hmm.
      assert (Hr : In r (rows_for e y m
                           (fact_table_monthly_joined df_review df_checkin df_tip))).
      { apply rows_for_In. auto. }
      rewrite Hrows in Hr. destruct Hr as [<-|[]]. simpl. auto.
  - split; [|split].
    + split.
      * intros [r Hr]. apply rows_for_In in Hr. rewrite Hrows in Hr. destruct Hr.
      * intros H. apply Hact in H. discriminate.
    + rewrite Hrows. simpl. lia.
    + intros r Hin Hb Hy Hmm.
      assert (Hr : In r (rows_for e y m
                           (fact_table_monthly_joined df_review df_checkin df_tip))).
      { apply rows_for_In. auto. }
      rewrite Hrows in Hr. destruct Hr.
Qed.

(** *** Growth rate over the window of a business *)

(** The rows of one window with their growth rates. *)
Definition window_growth (e : option string) (rows : list monthly_row)
  : list (monthly_row * option Q) :=
  map (fun rl => (fst rl, review_growth_rate (review_count_monthly (fst rl)) (snd rl)))
      (lag_review_count None (business_window e rows)).

(** The growth is null in binary64 exactly when it is null as a fraction. *)
Lemma review_growth_rate_double_null (cur : Z) (prev : option Z) :
  review_growth_rate_double cur prev = None <-> review_growth_rate cur prev = None.
Proof.
  unfold review_growth_rate_double, review_growth_rate.
  destruct prev as [p|]; [|tauto].
  destruct (p =? 0); [tauto|]. split; discriminate.
Qed.



Lemma business_window_In (e : option string) (rows : list monthly_row) (r : monthly_row) :
  In r (business_window e rows) <-> In r rows /\ business_id r = e.
Proof.
  unfold business_window. rewrite Rel.sort_In, filter_In, Rel.eqb_true. tauto.
Qed.




(** *** Dim_Date has one row per date *)

(** A date occurs in a source: it is the date of a review, of a tip, or of
    one exploded piece of a checkin string. *)
Definition date_occurs (df_review : list Review.t) (df_tip : list Tip.t)
           (df_checkin : list Checkin.t) (d : Date.date) : Prop :=
  (exists r, In r df_review /\ to_date_col (Review.date r) = Some d)
  \/ (exists t, In t df_tip /\ to_date_col (Tip.date t) = Some d)
  \/ (exists c s piece, In c df_checkin /\ Checkin.date c = Some s
                        /\ In piece (Str.split_comma_space s)
                        /\ to_date (Str.trim piece) = Some d).

Lemma all_dates_In (df_review : list Review.t) (df_tip : list Tip.t)
      (df_checkin : list Checkin.t) (d : Date.date) :
  In d (all_dates df_review df_tip df_checkin)
  <-> date_occurs df_review df_tip df_checkin d.
Proof.
  unfold all_dates, date_occurs.
  rewrite na_drop_In, Rel.distinct_In, !in_app_iff.
  unfold review_dates, tip_dates, checkin_dates, checkin_dates_exploded.
  rewrite !in_map_iff. split.
  - intros [[r [E Hin]]|[[t [E Hin]]|[[c piece] [E Hin]]]].
    + left. exists r. auto.
    + right. left. exists t. auto.
    + right. right. apply in_flat_map in Hin. destruct Hin as [c' [Hc Hp]].
      destruct (Checkin.date c') as [s|] eqn:Es; [|destruct Hp].
      apply in_map_iff in Hp. destruct Hp as [p [Ep Hp]].
      injection Ep as <- <-. exists c', s, p. auto.
  - intros [[r [Hin E]]|[[t [Hin E]]|[c [s [piece [Hin [Es [Hp E]]]]]]]].
    + left. exists r. auto.
    + right. left. exists t. auto.
    + right. right. exists (c, piece). split; [exact E|].
      apply in_flat_map. exists c. split; [exact Hin|].
      rewrite Es. apply in_map_iff. exists piece. auto.
Qed.




(** The parser gives dates of the calendar. *)
Hypothesis to_date_valid : forall s d, to_date s = Some d -> Date.valid d = true.



(** *** Dim_Category and the bridge *)

Lemma with_ids_snd {A : Type} (l : list A) : map snd (with_ids l) = l.
Proof.
  unfold with_ids. apply Rel.combine_snd. rewrite length_map, length_seq. reflexivity.
Qed.

Lemma exploded_In (df_business : list Business.t) (b : option string) (c : string) :
  In (b, c) (business_categories_exploded df_business) <->
  (exists x s, In x df_business /\ Business.business_id x = b
               /\ Business.categories x = Some s
               /\ In c (Str.split_comma_ws s))
  /\ c <> "" /\ c <> "null".
Proof.
  unfold business_categories_exploded.
  rewrite filter_In, andb_true_iff, !Str.neqb_true, in_flat_map. simpl.
  split.
  - intros [[x [Hx Hin]] Hne]. split; [|exact Hne].
    destruct (Business.categories x) as [s|] eqn:Es; [|destruct Hin].
    apply in_map_iff in Hin. destruct Hin as [c' [E Hc]]. injection E as <- <-.
    exists x, s. auto.
  - intros [[x [s [Hx [Hb [Es Hc]]]]] Hne]. split; [|exact Hne].
    exists x. split; [exact Hx|]. rewrite Es. apply in_map_iff.
    exists c. rewrite Hb. auto.
Qed.

Lemma dim_category_names (df_business : list Business.t) :
  map snd (dim_category df_business)
  = Rel.distinct string_dec (map snd (business_categories_exploded df_business)).
Proof. unfold dim_category. apply with_ids_snd. Qed.

Lemma dim_category_In_name (df_business : list Business.t) (c : string) :
  (exists id, In (id, c) (dim_category df_business))
  <-> (exists b, In (b, c) (business_categories_exploded df_business)).
Proof.
  split.
  - intros [id Hin]. apply (in_map snd) in Hin. rewrite dim_category_names in Hin.
    apply Rel.distinct_In in Hin. apply in_map_iff in Hin.
    destruct Hin as [[b c'] [E Hin]]. simpl in E. subst c'. exists b. exact Hin.
  - intros [b Hin].
    assert (H : In c (map snd (dim_category df_business))).
    { rewrite dim_category_names. apply Rel.distinct_In.
      apply in_map_iff. exists (b, c). auto. }
    apply in_map_iff in H. destruct H as [[id c'] [E H]]. simpl in E. subst c'.
    exists id. exact H.
Qed.

(** A label has one row, so one id. *)
Lemma dim_category_one_id (df_business : list Business.t) (id1 id2 : Z) (c : string) :
  In (id1, c) (dim_category df_business) ->
  In (id2, c) (dim_category df_business) -> id1 = id2.
Proof.
  intros H1 H2.
  assert (E : (id1, c) = (id2, c)).
  { apply (Rel.NoDup_map_eq snd (dim_category df_business)); auto.
    rewrite dim_category_names. apply Rel.distinct_NoDup. }
  congruence.
Qed.

Lemma fact_business_categories_In (df_business : list Business.t)
      (b : option string) (id : Z) :
  In (b, id) (fact_business_categories df_business) <->
  exists c, In (b, c) (business_categories_exploded df_business)
            /\ In (id, c) (dim_category df_business).
Proof.
  unfold fact_business_categories, Rel.inner_join.
  rewrite Rel.distinct_In, in_map_iff. split.
  - intros [[[b' c] [id' c']] [E Hin]]. simpl in E. injection E as <- <-.
    apply in_flat_map in Hin. destruct Hin as [[b'' c''] [Hbc Hj]].
    apply in_map_iff in Hj. destruct Hj as [[id'' c3] [E Hf]].
    injection E as <- <- <- <-.
    apply filter_In in Hf. destruct Hf as [Hd Heq]. simpl in Heq.
    apply String.eqb_eq in Heq. subst c3. exists c''. auto.
  - intros [c [Hbc Hd]]. exists ((b, c), (id, c)). split; [reflexivity|].
    apply in_flat_map. exists (b, c). split; [exact Hbc|].
    apply in_map_iff. exists (id, c). split; [reflexivity|].
    apply filter_In. split; [exact Hd|]. simpl. apply String.eqb_refl.
Qed.

(** *** Dim_Business *)

(** The reviews [F.count("review_id")] counts for a business: those of the
    business that have a [review_id]. *)
Definition reviews_of (df_review : list Review.t) (e : string) : list Review.t :=
  Rel.group_of opt_string_dec Review.business_id (Some e) df_review.

Definition counted_reviews_of (df_review : list Review.t) (e : string) : Z :=
  Rel.count (fun r => is_some (Review.review_id r)) (reviews_of df_review e).

(** The row of [Dim_Business] a business record gives. *)
Definition business_row_of (df_review : list Review.t) (b : Business.t) : business_row :=
  let stats :=
    Rel.sql_lookup opt_string_dec is_some Review.business_id
      (fun g => (avg (map Review.stars g),
                 Rel.count (fun r => is_some (Review.review_id r)) g))
      df_review (Business.business_id b) in
  {| db_business_id := Business.business_id b;
     db_name := Business.name b;
     subcategory :=
       subcategory_of (option_map Str.split_comma_ws (Business.categories b));
     db_is_open := option_map (fun v => v =? 1) (Business.is_open b);
     overall_avg_rating := bind_opt (bind_opt stats (fun s => fst (snd s))) cast_decimal_3_1;
     overall_review_count := coalesce (option_map (fun s => snd (snd s)) stats) 0 |}.

Lemma dim_business_map (df_business : list Business.t) (df_review : list Review.t) :
  dim_business df_business df_review
  = Rel.distinct business_row_dec (map (business_row_of df_review) df_business).
Proof.
  unfold dim_business, business_review_overall_stats.
  rewrite (Rel.left_join_group_by opt_string_dec is_some bi_business_id).
  unfold business_base_info. rewrite !map_map. reflexivity.
Qed.

Lemma dim_business_In (df_business : list Business.t) (df_review : list Review.t)
      (row : business_row) :
  In row (dim_business df_business df_review)
  <-> exists b, In b df_business /\ row = business_row_of df_review b.
Proof.
  rewrite dim_business_map, Rel.distinct_In, in_map_iff.
  split; intros [b [H1 H2]]; exists b; auto.
Qed.

Lemma business_row_of_count (df_review : list Review.t) (b : Business.t) (e : string) :
  Business.business_id b = Some e ->
  overall_review_count (business_row_of df_review b) = counted_reviews_of df_review e.
Proof.
  intros Hb. unfold business_row_of, counted_reviews_of, reviews_of, Rel.sql_lookup.
  rewrite Hb. simpl.
  destruct (Rel.mem opt_string_dec (Some e) (map Review.business_id df_review)) eqn:E;
    simpl; [reflexivity|].
  apply Rel.mem_false in E. apply (Rel.group_of_nil_iff opt_string_dec) in E.
  rewrite E. reflexivity.
Qed.

(** C6 (as amended): every business record has its row in [Dim_Business],
    with or without reviews; the [overall_review_count] of the row of a
    business is a number, never null: the number of the review records with
    that [business_id] that have a [review_id] (the whole review set, no
    window), so 0 for a business without reviews. *)
Theorem dim_business_review_count (df_business : list Business.t)
        (df_review : list Review.t) :
  (forall b, In b df_business ->
             exists row, In row (dim_business df_business df_review)
                         /\ db_business_id row = Business.business_id b
                         /\ db_name row = Business.name b)
  /\ (forall row e, In row (dim_business df_business df_review) ->
                    db_business_id row = Some e ->
                    overall_review_count row
                    = Z.of_nat (List.length
                                  (filter (fun r => is_some (Review.review_id r))
                                          (reviews_of df_review e)))
                    /\ (reviews_of df_review e = [] -> overall_review_count row = 0)).
Proof.
  split.
  - intros b Hb. exists (business_row_of df_review b). split.
    + apply dim_business_In. exists b. auto.
    + split; reflexivity.
  - intros row e Hrow He. apply dim_business_In in Hrow.
    destruct Hrow as [b [Hb ->]]. simpl in He.
    rewrite (business_row_of_count df_review b e He).
    unfold counted_reviews_of, Rel.count. split; [reflexivity|].
    intros ->. reflexivity.
Qed.

(** *** The subcategory *)

Lemma subcategory_of_Some (arr : list string) (c : string) :
  subcategory_of (Some arr) = Some c
  <-> nth_error arr 1 = Some c /\ c <> "" /\ c <> "null".
Proof.
  unfold subcategory_of.
  destruct (nth_error arr 1) as [c'|] eqn:E.
  - assert (Hlen : (1 <? Z.of_nat (List.length arr)) = true).
    { apply Z.ltb_lt.
      assert (1 < List.length arr)%nat by (apply nth_error_Some; congruence). lia. }
    rewrite Hlen. simpl.
    destruct (Str.neqb c' "") eqn:E1; simpl.
    + destruct (Str.neqb c' "null") eqn:E2; simpl.
      * apply Str.neqb_true in E1, E2. split.
        -- intros H. injection H as <-. auto.
        -- intros [H _]. exact H.
      * split; [discriminate|]. intros [H [_ Hn]]. injection H as <-.
        apply Str.neqb_true in Hn. congruence.
    + split; [discriminate|]. intros [H [Hn _]]. injection H as <-.
      apply Str.neqb_true in Hn. congruence.
  - split; [discriminate|]. intros [H _]. discriminate.
Qed.

(** C9 (as amended): the subcategory of a row of [Dim_Business] is the
    second element of the business's category string split on a comma and
    the white space after it, when the split has a second element and that
    element is neither empty nor "null"; it is null otherwise: no category
    string, a single element, or a second element that is empty or "null".
    The other elements do not matter. *)
Theorem subcategory_is_valid_second_element (df_business : list Business.t)
        (df_review : list Review.t) (row : business_row) :
  In row (dim_business df_business df_review) ->
  exists b, In b df_business
            /\ db_business_id row = Business.business_id b
            /\ match Business.categories b with
               | None => subcategory row = None
               | Some s =>
                   match nth_error (Str.split_comma_ws s) 1 with
                   | None => subcategory row = None
                   | Some c =>
                       (c <> "" -> c <> "null" -> subcategory row = Some c)
                       /\ (c = "" \/ c = "null" -> subcategory row = None)
                   end
               end.
Proof.
  intros Hrow. apply dim_business_In in Hrow. destruct Hrow as [b [Hb ->]].
  exists b. split; [exact Hb|]. split; [reflexivity|].
  unfold business_row_of. cbn [subcategory].
  destruct (Business.categories b) as [s|]; cbn [option_map]; [|reflexivity].
  destruct (nth_error (Str.split_comma_ws s) 1) as [c|] eqn:E.
  - split.
    + intros H1 H2. apply subcategory_of_Some. auto.
    + intros H.
      destruct (subcategory_of (Some (Str.split_comma_ws s))) as [c'|] eqn:Es;
        [|reflexivity].
      apply subcategory_of_Some in Es. destruct Es as [E' [H1 H2]].
      rewrite E in E'. injection E' as <-. destruct H; contradiction.
  - unfold subcategory_of. rewrite E. reflexivity.
Qed.

(** *** The bridge refers to rows that exist *)

(** X1, the bridge of this pipeline: [distinct()] leaves no pair
    of [Fact_Business_Categories] twice; the inner join lets in only the
    categories of [Dim_Category]; every business of the bridge has its row
    in [Dim_Business]; and a business that lists a category, once or more,
    has one pair for it. *)
Theorem bridge_unique_and_referential (df_business : list Business.t)
        (df_review : list Review.t) :
  NoDup (fact_business_categories df_business)
  /\ (forall b id, In (b, id) (fact_business_categories df_business) ->
                   (exists c, In (id, c) (dim_category df_business)
                              /\ In (b, c) (business_categories_exploded df_business))
                   /\ (exists row, In row (dim_business df_business df_review)
                                   /\ db_business_id row = b))
  /\ (forall b c, In (b, c) (business_categories_exploded df_business) ->
                  exists id, In (id, c) (dim_category df_business)
                             /\ In (b, id) (fact_business_categories df_business)
                             /\ count_occ pair_dec (fact_business_categories df_business)
                                          (b, id) = 1%nat
                             /\ forall id', In (id', c) (dim_category df_business) ->
                                            id' = id).
Proof.
  assert (Hnd : NoDup (fact_business_categories df_business)).
  { unfold fact_business_categories. apply Rel.distinct_NoDup. }
  split; [exact Hnd|]. split.
  - intros b id Hin. apply fact_business_categories_In in Hin.
    destruct Hin as [c [Hbc Hd]]. split; [exists c; auto|].
    apply exploded_In in Hbc. destruct Hbc as [[x [s [Hx [Hb _]]]] _].
    exists (business_row_of df_review x). split; [|exact Hb].
    apply dim_business_In. exists x. auto.
  - intros b c Hbc.
    destruct (proj2 (dim_category_In_name df_business c)) as [id Hid];
      [exists b; exact Hbc|].
    exists id. split; [exact Hid|].
    assert (Hin : In (b, id) (fact_business_categories df_business)).
    { apply fact_business_categories_In. exists c. auto. }
    split; [exact Hin|]. split.
    + apply NoDup_count_occ'; assumption.
    + intros id' Hid'. apply (dim_category_one_id df_business id' id c); assumption.
Qed.

(** C5 (as amended): a label of [Dim_Category] is
    a piece of the category string of a business, as the split on a comma
    and the white space after it leaves it, that is neither empty nor
    "null"; every such piece is a label; and no label has two rows.  The
    pieces are compared as they are. *)
Theorem dim_category_labels (df_business : list Business.t) :
  (forall c, (exists id, In (id, c) (dim_category df_business))
             <-> (c <> "" /\ c <> "null"
                  /\ exists x s, In x df_business
                                 /\ Business.categories x = Some s
                                 /\ In c (Str.split_comma_ws s)))
  /\ NoDup (map snd (dim_category df_business)).
Proof.
  split.
  - intros c. rewrite dim_category_In_name. split.
    + intros [b Hbc]. apply exploded_In in Hbc.
      destruct Hbc as [[x [s [Hx [_ [Hs Hc]]]]] [H1 H2]].
      split; [exact H1|]. split; [exact H2|]. exists x, s. auto.
    + intros [H1 [H2 [x [s [Hx [Hs Hc]]]]]].
      exists (Business.business_id x). apply exploded_In.
      split; [exists x, s; auto|auto].
  - rewrite dim_category_names. apply Rel.distinct_NoDup.
Qed.

(** *** When every review has its id *)

Lemma count_all {R : Type} (p : R -> bool) (l : list R) :
  (forall r, In r l -> p r = true) -> Rel.count p l = Z.of_nat (List.length l).
Proof.
  intros H. unfold Rel.count. f_equal. f_equal.
  induction l as [|a t IH]; simpl; [reflexivity|].
  rewrite (H a (or_introl eq_refl)). f_equal. apply IH.
  intros r Hr. apply H. right. exact Hr.
Qed.

(** X8: when every review record has a [review_id], the review count of a
    row of the monthly fact table is the number of the reviews of its
    business dated in its month. *)
Theorem monthly_review_count_when_ids_present
        (df_review : list Review.t) (df_checkin : list Checkin.t)
        (df_tip : list Tip.t) (e : string) (y m : Z) (r : monthly_row) :
  1 <= m <= 12 ->
  (forall rv, In rv df_review -> Review.review_id rv <> None) ->
  In r (fact_table_monthly_joined df_review df_checkin df_tip) ->
  business_id r = Some e -> year r = y -> month r = m ->
  review_count_monthly r = Z.of_nat (List.length (reviews_in df_review e y m)).
Proof.
  intros Hm Hids Hin Hb Hy Hmm.
  assert (Hr : In r (rows_for e y m
                       (fact_table_monthly_joined df_review df_checkin df_tip))).
  { apply rows_for_In. auto. }
  rewrite (rows_for_monthly_joined df_review df_checkin df_tip e y m Hm) in Hr.
  destruct (active df_review df_checkin df_tip e y m); [|destruct Hr].
  destruct Hr as [<-|[]]. cbn [review_count_monthly].
  apply count_all. intros rd Hrd. unfold reviews_in in Hrd.
  apply filter_In in Hrd. destruct Hrd as [Hrd _].
  unfold df_review_ym in Hrd. apply in_map_iff in Hrd. destruct Hrd as [rv [<- Hrv]].
  unfold has_review_id. cbn [fst].
  destruct (Review.review_id rv) eqn:E; [reflexivity|].
  exfalso. apply (Hids rv Hrv). exact E.
Qed.

(** X9: when every review record has a [review_id], the
    [overall_review_count] of a business is the number of the review records
    with its [business_id]. *)
Theorem overall_review_count_when_ids_present
        (df_business : list Business.t) (df_review : list Review.t)
        (row : business_row) (e : string) :
  (forall rv, In rv df_review -> Review.review_id rv <> None) ->
  In row (dim_business df_business df_review) ->
  db_business_id row = Some e ->
  overall_review_count row = Z.of_nat (List.length (reviews_of df_review e)).
Proof.
  intros Hids Hrow He. apply dim_business_In in Hrow. destruct Hrow as [b [Hb ->]].
  cbn [db_business_id business_row_of] in He.
  rewrite (business_row_of_count df_review b e He).
  unfold counted_reviews_of. apply count_all.
  intros rv Hrv. unfold reviews_of, Rel.group_of in Hrv. apply filter_In in Hrv.
  destruct Hrv as [Hrv _].
  destruct (Review.review_id rv) eqn:E; [reflexivity|].
  exfalso. apply (Hids rv Hrv). exact E.
Qed.

(** *** Engagement score *)

(** The written table has the rows of the exact one, column by column; of
    the two derived columns, the growth is null in the same rows. *)
Lemma fact_business_performance_double_rows (df_review : list Review.t)
      (df_checkin : list Checkin.t) (df_tip : list Tip.t) :
  map (fun p => (fd_business_id p, fd_month_id p, fd_review_count p,
                 fd_checkin_count p, fd_tip_count p, fd_photo_count p,
                 is_some (fd_growth_rate p)))
      (fact_business_performance_double df_review df_checkin df_tip)
  = map (fun p => (fp_business_id p, month_id p, review_count p,
                   checkin_count p, tip_count p, photo_count p,
                   is_some (growth_rate p)))
        (fact_business_performance df_review df_checkin df_tip).
Proof.
  unfold fact_business_performance_double, fact_business_performance,
    fact_table_final_monthly_double, fact_table_final_monthly,
    fact_table_with_growth_double, fact_table_with_growth.
  rewrite !map_map. apply map_ext. intros [r l].
  cbn [fst snd fd_business_id fd_month_id fd_review_count fd_checkin_count
           fd_tip_count fd_photo_count fd_growth_rate fp_business_id month_id
           review_count checkin_count tip_count photo_count growth_rate].
  f_equal.
  unfold review_growth_rate_double, review_growth_rate.
  destruct l as [p|]; [|reflexivity]. destruct (p =? 0); reflexivity.
Qed.

(** C7: in every row of [Fact_Business_Performance] as it is written, the
    engagement score is the double
    review_count * 1.0 + tip_count * 0.5 + photo_count * 0.25
    + checkin_count * 0.2, the counts taken as doubles and each product and
    sum rounded to binary64 in this order; the reserved term
    photo_count * 0.25 is the double 0, because [photo_count] is the literal
    0; a month with 4 reviews, 2 tips and 5 checkins scores the double 6. *)
#[warnings="-inexact-float"]
Theorem engagement_score_weighted_sum (df_review : list Review.t)
        (df_checkin : list Checkin.t) (df_tip : list Tip.t)
        (p : performance_row_double) :
  In p (fact_business_performance_double df_review df_checkin df_tip) ->
  fd_engagement_score p
  = (double_of_long (fd_review_count p) * 1.0
     + double_of_long (fd_tip_count p) * 0.5
     + double_of_long (fd_photo_count p) * 0.25
     + double_of_long (fd_checkin_count p) * 0.2)%float
  /\ fd_photo_count p = 0
  /\ (double_of_long (fd_photo_count p) * 0.25)%float = 0%float
  /\ (fd_review_count p = 4 -> fd_tip_count p = 2 -> fd_checkin_count p = 5 ->
      fd_engagement_score p = 6%float).
Proof.
  unfold fact_business_performance_double, fact_table_final_monthly_double.
  rewrite map_map, in_map_iff.
  intros [[r g] [<- _]].
  cbn [fd_engagement_score fd_review_count fd_tip_count fd_checkin_count
         fd_photo_count fst snd].
  unfold engagement_score_double, photo_count_monthly.
  split; [reflexivity|]. split; [reflexivity|].
  split; [vm_compute; reflexivity|].
  intros -> -> ->. vm_compute. reflexivity.
Qed.

(** *** The window step keeps every row *)

Lemma lag_review_count_fst (prev : option Z) (w : list monthly_row) :
  map fst (lag_review_count prev w) = w.
Proof.
  revert prev. induction w as [|r t IH]; intros prev; simpl; [reflexivity|].
  rewrite IH. reflexivity.
Qed.

Lemma map_flat_map {A B C : Type} (g : B -> C) (f : A -> list B) (l : list A) :
  map g (flat_map f l) = flat_map (fun a => map g (f a)) l.
Proof.
  induction l as [|a t IH]; simpl; [reflexivity|]. rewrite map_app, IH. reflexivity.
Qed.

(** Partitioning by business, ordering each window and putting the windows
    together again gives the rows of the table in another order. *)
Lemma fact_table_with_growth_rows (rows : list monthly_row) :
  Permutation (map fst (fact_table_with_growth rows)) rows.
Proof.
  unfold fact_table_with_growth, fact_table_with_lag.
  rewrite map_map. cbn [fst].
  rewrite (map_flat_map fst).
  rewrite (Rel.flat_map_ext_in
             (fun e => map fst (lag_review_count None (business_window e rows)))
             (fun e => business_window e rows))
    by (intros; apply lag_review_count_fst).
  rewrite (Rel.flat_map_perm_pointwise
             (fun e => business_window e rows)
             (fun e => Rel.group_of opt_string_dec business_id e rows)).
  - apply Rel.groups_partition.
    + apply Rel.distinct_NoDup.
    + intros r Hr. apply Rel.distinct_In. apply in_map. exact Hr.
  - intros e _. apply Rel.sort_perm.
Qed.

(** X10: the window, the growth column and the engagement column neither
    drop nor repeat a row: [Fact_Business_Performance] has, up to the order
    of the rows, the business, month id and three counts of every row of the
    joined monthly table. *)
Theorem performance_fact_keeps_every_monthly_row
        (df_review : list Review.t) (df_checkin : list Checkin.t)
        (df_tip : list Tip.t) :
  Permutation
    (map (fun p => (fp_business_id p, month_id p, review_count p, checkin_count p,
                    tip_count p))
         (fact_business_performance df_review df_checkin df_tip))
    (map (fun r => (business_id r, month_id_of r, review_count_monthly r,
                    checkin_count_monthly r, tip_count_monthly r))
         (fact_table_monthly_joined df_review df_checkin df_tip)).
Proof.
  unfold fact_business_performance, fact_table_final_monthly.
  rewrite !map_map. cbn [fp_business_id month_id review_count checkin_count tip_count
                          fst snd].
  rewrite <- (map_map fst
                (fun r => (business_id r, month_id_of r, review_count_monthly r,
                           checkin_count_monthly r, tip_count_monthly r))).
  apply Permutation_map. apply fact_table_with_growth_rows.
Qed.

(** *** The counts of the table add up to the events *)

(** The total of a count column. *)
Definition column_total (f : monthly_row -> Z) (table : list monthly_row) : Z :=
  fold_right Z.add 0 (map f table).

Lemma lookup_count_or_0 {R : Type} (key : R -> month_key) (p : R -> bool)
      (rows : list R) (k : month_key) :
  coalesce (option_map snd
              (Rel.sql_lookup month_key_dec month_key_complete key (Rel.count p) rows k)) 0
  = if month_key_complete k
    then Rel.count p (Rel.group_of month_key_dec key k rows)
    else 0.
Proof.
  destruct (month_key_complete k) eqn:Hc; [apply lookup_count; exact Hc|].
  unfold Rel.sql_lookup. rewrite Hc. reflexivity.
Qed.

Lemma base_facts_monthly_NoDup (df_review : list Review.t) (df_checkin : list Checkin.t)
      (df_tip : list Tip.t) :
  NoDup (base_facts_monthly df_review df_checkin df_tip).
Proof. apply Rel.distinct_NoDup. Qed.

(** The total of a count column is the number of the counted events whose
    key has no null. *)
Lemma column_total_count {R : Type} (key : R -> month_key) (p : R -> bool)
      (rows : list R) (f : monthly_row -> Z)
      (df_review : list Review.t) (df_checkin : list Checkin.t) (df_tip : list Tip.t) :
  (forall k, f (joined_row df_review df_checkin df_tip k)
             = if month_key_complete k
               then Rel.count p (Rel.group_of month_key_dec key k rows)
               else 0) ->
  (forall r, In r rows -> In (key r) (base_facts_monthly df_review df_checkin df_tip)) ->
  column_total f (fact_table_monthly_joined df_review df_checkin df_tip)
  = Rel.count (fun r => andb (month_key_complete (key r)) (p r)) rows.
Proof.
  intros Hf Hkeys. unfold column_total.
  rewrite fact_table_monthly_joined_map, map_map.
  rewrite (map_ext _ _ Hf).
  apply (Rel.counts_sum_total month_key_dec key month_key_complete p rows
           (base_facts_monthly df_review df_checkin df_tip)).
  - apply base_facts_monthly_NoDup.
  - exact Hkeys.
Qed.

Lemma key_of_complete (b : option string) (d : option Date.date) :
  month_key_complete (key_of b d) = andb (is_some b) (is_some d).
Proof. destruct b, d; reflexivity. Qed.

(** X11: the count columns of the monthly table add up to the events: the
    review counts to the number of the review records that have a
    [business_id], a date that parses and a [review_id]; the checkin counts
    to the number of the exploded time stamps that parse, of the checkin
    records that have a [business_id]; the tip counts to the number of the
    tips that have a [business_id] and a date that parses.  No such event is
    left out or counted twice, and no other event is counted. *)
Theorem monthly_counts_add_up_to_the_events
        (df_review : list Review.t) (df_checkin : list Checkin.t)
        (df_tip : list Tip.t) :
  column_total review_count_monthly
    (fact_table_monthly_joined df_review df_checkin df_tip)
  = Rel.count (fun r => andb (andb (is_some (Review.business_id r))
                                   (is_some (to_date_col (Review.date r))))
                             (is_some (Review.review_id r))) df_review
  /\ column_total checkin_count_monthly
       (fact_table_monthly_joined df_review df_checkin df_tip)
     = Rel.count (fun cd => is_some (fst cd)) (df_checkin_ym df_checkin)
  /\ column_total tip_count_monthly
       (fact_table_monthly_joined df_review df_checkin df_tip)
     = Rel.count (fun t => andb (is_some (Tip.business_id t))
                                (is_some (to_date_col (Tip.date t)))) df_tip.
Proof.
  split; [|split].
  - rewrite (column_total_count review_key has_review_id (df_review_ym df_review)).
    + unfold df_review_ym. rewrite Rel.count_map. apply Rel.count_ext. intros r.
      unfold review_key, has_review_id. cbn [fst snd]. rewrite key_of_complete.
      reflexivity.
    + intros k. unfold joined_row, na_fill_0. destruct k as [[b y] m].
      cbn [review_count_monthly]. apply lookup_count_or_0.
    + intros r Hr. apply base_facts_monthly_In. left.
      rewrite Rel.group_of_nil_iff. intros H. apply H. apply in_map. exact Hr.
  - rewrite (column_total_count checkin_key (fun _ => true) (df_checkin_ym df_checkin)).
    + apply Rel.count_ext. intros [b d]. unfold checkin_key. cbn [fst snd].
      rewrite key_of_complete. cbn [is_some]. rewrite !andb_true_r. reflexivity.
    + intros k. unfold joined_row, na_fill_0. destruct k as [[b y] m].
      cbn [checkin_count_monthly]. apply lookup_count_or_0.
    + intros r Hr. apply base_facts_monthly_In. right. left.
      rewrite Rel.group_of_nil_iff. intros H. apply H. apply in_map. exact Hr.
  - rewrite (column_total_count tip_key (fun _ => true) (df_tip_ym df_tip)).
    + unfold df_tip_ym. rewrite Rel.count_map. apply Rel.count_ext. intros t.
      unfold tip_key. cbn [fst snd]. rewrite key_of_complete.
      rewrite andb_true_r. reflexivity.
    + intros k. unfold joined_row, na_fill_0. destruct k as [[b y] m].
      cbn [tip_count_monthly]. apply lookup_count_or_0.
    + intros r Hr. apply base_facts_monthly_In. right. right.
      rewrite Rel.group_of_nil_iff. intros H. apply H. apply in_map. exact Hr.
Qed.

(** *** The grain of the fact table *)

(** Every key of the table comes from one event, and its date, when it has
    one, is a date. *)
Lemma base_facts_monthly_valid (df_review : list Review.t) (df_checkin : list Checkin.t)
      (df_tip : list Tip.t) (k : month_key) :
  In k (base_facts_monthly df_review df_checkin df_tip) ->
  exists b d, k = key_of b d /\ forall dd, d = Some dd -> Date.valid dd = true.
Proof.
  assert (Hcol : forall s dd, to_date_col s = Some dd -> Date.valid dd = true).
  { intros [s|] dd H; [|discriminate]. exact (to_date_valid s dd H). }
  unfold base_facts_monthly. rewrite Rel.distinct_In, !in_app_iff.
  unfold review_agg_monthly, checkin_agg_monthly, tip_agg_monthly.
  rewrite !Rel.group_by_keys, !Rel.distinct_In, !in_map_iff.
  intros [[x [<- Hx]]|[[x [<- Hx]]|[x [<- Hx]]]].
  - unfold df_review_ym in Hx. apply in_map_iff in Hx. destruct Hx as [r [<- _]].
    eexists; eexists. split; [reflexivity|]. cbn [snd]. intros dd. apply Hcol.
  - unfold df_checkin_ym in Hx. apply in_flat_map in Hx. destruct Hx as [cp [_ Hx]].
    destruct (to_date (Str.trim (snd cp))) as [d|] eqn:E; [|destruct Hx].
    destruct Hx as [<-|[]]. eexists; eexists. split; [reflexivity|].
    cbn [snd]. intros dd Hdd. injection Hdd as <-. exact (to_date_valid _ _ E).
  - unfold df_tip_ym in Hx. apply in_map_iff in Hx. destruct Hx as [t [<- _]].
    eexists; eexists. split; [reflexivity|]. cbn [snd]. intros dd. apply Hcol.
Qed.

(** The month id spells the year and the month. *)
Lemma month_id_value (r : monthly_row) :
  0 <= year r <= 9999 -> 0 <= month r <= 99 ->
  Date.int_of_string (month_id_of r) = Some (year r * 100 + month r).
Proof.
  intros Hy Hm.
  unfold Date.int_of_string, month_id_of, Date.four_digits, Date.two_digits.
  cbn [append].
  assert (Hhi : 0 <= year r / 100 <= 99).
  { split; [apply Z.div_pos; lia|].
    apply Z.lt_succ_r. apply Z.div_lt_upper_bound; lia. }
  assert (Hlo : 0 <= year r mod 100 <= 99).
  { pose proof (Z.mod_pos_bound (year r) 100). lia. }
  rewrite (Date.two_digits_value 0 _ _ Hhi).
  rewrite (Date.two_digits_value _ _ _ Hlo).
  rewrite Date.two_digits_value by lia.
  cbn [Date.int_of_digits_from]. f_equal. pose proof (Z.div_mod (year r) 100). lia.
Qed.

Lemma joined_row_identified (df_review : list Review.t) (df_checkin : list Checkin.t)
      (df_tip : list Tip.t) (k1 k2 : month_key) :
  In k1 (base_facts_monthly df_review df_checkin df_tip) ->
  In k2 (base_facts_monthly df_review df_checkin df_tip) ->
  (business_id (joined_row df_review df_checkin df_tip k1),
   month_id_of (joined_row df_review df_checkin df_tip k1))
  = (business_id (joined_row df_review df_checkin df_tip k2),
     month_id_of (joined_row df_review df_checkin df_tip k2)) ->
  k1 = k2.
Proof.
  intros H1 H2 E.
  apply base_facts_monthly_valid in H1, H2.
  destruct H1 as [b1 [d1 [-> V1]]], H2 as [b2 [d2 [-> V2]]].
  pose proof (f_equal fst E) as Eb. pose proof (f_equal snd E) as Em.
  cbn [fst snd] in Eb, Em. clear E.
  assert (Hr : forall b d,
             (forall dd, d = Some dd -> Date.valid dd = true) ->
             0 <= year (joined_row df_review df_checkin df_tip (key_of b d)) <= 9999
             /\ 0 <= month (joined_row df_review df_checkin df_tip (key_of b d)) <= 99).
  { intros b [d|] V; unfold joined_row, key_of, na_fill_0; cbn; [|lia].
    pose proof (Date.valid_bounds d (V d eq_refl)). lia. }
  pose proof (month_id_value _ (proj1 (Hr b1 d1 V1)) (proj2 (Hr b1 d1 V1))) as I1.
  pose proof (month_id_value _ (proj1 (Hr b2 d2 V2)) (proj2 (Hr b2 d2 V2))) as I2.
  rewrite Em in I1. rewrite I1 in I2. injection I2 as I.
  clear Em I1 Hr. unfold joined_row, key_of, na_fill_0 in *. cbn in Eb, I. subst b2.
  destruct d1 as [d1|], d2 as [d2|]; cbn in *.
  - pose proof (Date.valid_bounds d1 (V1 d1 eq_refl)).
    pose proof (Date.valid_bounds d2 (V2 d2 eq_refl)).
    assert (Date.year d1 = Date.year d2 /\ Date.month d1 = Date.month d2) as [-> ->] by lia.
    reflexivity.
  - pose proof (Date.valid_bounds d1 (V1 d1 eq_refl)). lia.
  - pose proof (Date.valid_bounds d2 (V2 d2 eq_refl)). lia.
  - reflexivity.
Qed.

(** X12: a business and a month id identify a row of
    [Fact_Business_Performance]: no two rows of the table have the same
    [business_id] and [month_id]. *)
Theorem business_and_month_id_identify_a_row
        (df_review : list Review.t) (df_checkin : list Checkin.t)
        (df_tip : list Tip.t) :
  NoDup (map (fun p => (fp_business_id p, month_id p))
             (fact_business_performance df_review df_checkin df_tip)).
Proof.
  unfold fact_business_performance, fact_table_final_monthly.
  rewrite !map_map. cbn [fp_business_id month_id fst snd].
  rewrite <- (map_map fst (fun r => (business_id r, month_id_of r))).
  apply (Permutation_NoDup
           (l := map (fun r => (business_id r, month_id_of r))
                     (fact_table_monthly_joined df_review df_checkin df_tip))).
  - apply Permutation_map. symmetry. apply fact_table_with_growth_rows.
  - rewrite fact_table_monthly_joined_map, map_map.
    apply NoDup_map_NoDup_ForallPairs; [|apply base_facts_monthly_NoDup].
    intros k1 k2 H1 H2 E.
    exact (joined_row_identified df_review df_checkin df_tip k1 k2 H1 H2 E).
Qed.

(** *** Events with a null in their key *)

Lemma joined_row_incomplete (df_review : list Review.t) (df_checkin : list Checkin.t)
      (df_tip : list Tip.t) (b : option string) (y m : option Z) :
  month_key_complete (b, y, m) = false ->
  joined_row df_review df_checkin df_tip (b, y, m)
  = {| business_id := b; year := coalesce y 0; month := coalesce m 0;
       review_count_monthly := 0; checkin_count_monthly := 0;
       tip_count_monthly := 0 |}.
Proof.
  intros Hc. unfold joined_row, na_fill_0, Rel.sql_lookup. rewrite Hc. reflexivity.
Qed.

(** X13: an event with a null in its key has a row of its own and is
    counted nowhere.  A review or a tip whose date does not parse gives its
    business a row of year 0 and month 0 with the three counts 0; and every
    row of the table that has a null [business_id] or the month 0 has the
    three counts 0. *)
Theorem events_with_a_null_key_give_zero_rows
        (df_review : list Review.t) (df_checkin : list Checkin.t)
        (df_tip : list Tip.t) :
  (forall rv, In rv df_review -> to_date_col (Review.date rv) = None ->
     In {| business_id := Review.business_id rv; year := 0; month := 0;
           review_count_monthly := 0; checkin_count_monthly := 0;
           tip_count_monthly := 0 |}
        (fact_table_monthly_joined df_review df_checkin df_tip))
  /\ (forall t, In t df_tip -> to_date_col (Tip.date t) = None ->
        In {| business_id := Tip.business_id t; year := 0; month := 0;
              review_count_monthly := 0; checkin_count_monthly := 0;
              tip_count_monthly := 0 |}
           (fact_table_monthly_joined df_review df_checkin df_tip))
  /\ (forall row, In row (fact_table_monthly_joined df_review df_checkin df_tip) ->
        business_id row = None \/ month row = 0 ->
        review_count_monthly row = 0 /\ checkin_count_monthly row = 0
        /\ tip_count_monthly row = 0).
Proof.
  rewrite fact_table_monthly_joined_map. split; [|split].
  - intros rv Hrv Hd. apply in_map_iff.
    exists (Review.business_id rv, None, None). split.
    + apply joined_row_incomplete. destruct (Review.business_id rv); reflexivity.
    + apply base_facts_monthly_In. left. rewrite Rel.group_of_nil_iff.
      intros H. apply H. apply in_map_iff.
      exists (rv, to_date_col (Review.date rv)). split.
      * unfold review_key, key_of. cbn [fst snd]. rewrite Hd. reflexivity.
      * unfold df_review_ym. apply in_map_iff. exists rv. auto.
  - intros t Ht Hd. apply in_map_iff.
    exists (Tip.business_id t, None, None). split.
    + apply joined_row_incomplete. destruct (Tip.business_id t); reflexivity.
    + apply base_facts_monthly_In. right. right. rewrite Rel.group_of_nil_iff.
      intros H. apply H. apply in_map_iff.
      exists (t, to_date_col (Tip.date t)). split.
      * unfold tip_key, key_of. cbn [fst snd]. rewrite Hd. reflexivity.
      * unfold df_tip_ym. apply in_map_iff. exists t. auto.
  - intros row Hrow Hnull. apply in_map_iff in Hrow. destruct Hrow as [k [<- Hk]].
    apply base_facts_monthly_valid in Hk. destruct Hk as [b [d [-> V]]].
    assert (Hc : month_key_complete (key_of b d) = false).
    { rewrite key_of_complete. destruct Hnull as [Hb|Hm].
      - unfold joined_row, key_of, na_fill_0 in Hb. cbn in Hb. subst b. reflexivity.
      - destruct d as [d|]; [|apply andb_false_r].
        unfold joined_row, key_of, na_fill_0 in Hm. cbn in Hm.
        pose proof (Date.valid_bounds d (V d eq_refl)). lia. }
    unfold key_of in *. rewrite (joined_row_incomplete _ _ _ _ _ _ Hc).
    cbn. auto.
Qed.

(** *** The dimensions keyed by the business *)

(** X15: when no two business records share a [business_id], [distinct()]
    removes nothing: [Dim_Location] and [Dim_Business] have one row per
    business record (in whatever order Spark leaves them), [location_id] is
    the [business_id], and so each [business_id] meets one row of either
    table. *)
Theorem dimensions_have_one_row_per_business
        (df_business : list Business.t) (df_review : list Review.t) :
  NoDup (map Business.business_id df_business) ->
  Permutation
    (map (fun row : location_row =>
            let '(location_id, business_id, _, _, _, _, _) := row in
            (location_id, business_id))
         (dim_location df_business))
    (map (fun b => (Business.business_id b, Business.business_id b)) df_business)
  /\ NoDup (map (fun row : location_row =>
                   let '(location_id, _, _, _, _, _, _) := row in location_id)
                (dim_location df_business))
  /\ Permutation (map db_business_id (dim_business df_business df_review))
                 (map Business.business_id df_business)
  /\ NoDup (map db_business_id (dim_business df_business df_review)).
Proof.
  intros Hnd.
  assert (Hloc : map (fun row : location_row =>
                        let '(location_id, business_id, _, _, _, _, _) := row in
                        (location_id, business_id))
                     (dim_location df_business)
                 = map (fun b => (Business.business_id b, Business.business_id b))
                       df_business).
  { unfold dim_location. rewrite Rel.distinct_id.
    - rewrite map_map. reflexivity.
    - apply (Rel.NoDup_map_factor _
               (fun row : location_row =>
                  let '(location_id, _, _, _, _, _, _) := row in location_id)).
      exact Hnd. }
  assert (Hloc1 : map (fun row : location_row =>
                         let '(location_id, _, _, _, _, _, _) := row in location_id)
                      (dim_location df_business)
                  = map Business.business_id df_business).
  { unfold dim_location. rewrite Rel.distinct_id.
    - rewrite map_map. reflexivity.
    - apply (Rel.NoDup_map_factor _
               (fun row : location_row =>
                  let '(location_id, _, _, _, _, _, _) := row in location_id)).
      exact Hnd. }
  assert (Hbus : map db_business_id (dim_business df_business df_review)
                 = map Business.business_id df_business).
  { rewrite dim_business_map, Rel.distinct_id.
    - rewrite map_map. reflexivity.
    - apply (Rel.NoDup_map_factor _ db_business_id). exact Hnd. }
  rewrite Hloc, Hloc1, Hbus.
  split; [apply Permutation_refl|]. split; [exact Hnd|].
  split; [apply Permutation_refl|exact Hnd].
Qed.

(** *** The months of the fact table and [Dim_Date] *)

Lemma base_facts_monthly_occurs (df_review : list Review.t) (df_checkin : list Checkin.t)
      (df_tip : list Tip.t) (k : month_key) :
  In k (base_facts_monthly df_review df_checkin df_tip) ->
  exists b d, k = key_of b d
              /\ forall dd, d = Some dd -> date_occurs df_review df_tip df_checkin dd.
Proof.
  unfold base_facts_monthly. rewrite Rel.distinct_In, !in_app_iff.
  unfold review_agg_monthly, checkin_agg_monthly, tip_agg_monthly.
  rewrite !Rel.group_by_keys, !Rel.distinct_In, !in_map_iff.
  intros [[x [<- Hx]]|[[x [<- Hx]]|[x [<- Hx]]]].
  - unfold df_review_ym in Hx. apply in_map_iff in Hx. destruct Hx as [r [<- Hr]].
    eexists; eexists. split; [reflexivity|]. cbn [snd]. intros dd Hdd.
    left. exists r. auto.
  - unfold df_checkin_ym in Hx. apply in_flat_map in Hx. destruct Hx as [cp [Hcp Hx]].
    destruct (to_date (Str.trim (snd cp))) as [d|] eqn:E; [|destruct Hx].
    destruct Hx as [<-|[]]. eexists; eexists. split; [reflexivity|].
    cbn [snd]. intros dd Hdd. injection Hdd as <-.
    unfold checkin_dates_exploded in Hcp. apply in_flat_map in Hcp.
    destruct Hcp as [c [Hc Hp]].
    destruct (Checkin.date c) as [s|] eqn:Es; [|destruct Hp].
    apply in_map_iff in Hp. destruct Hp as [piece [<- Hp]].
    right. right. exists c, s, piece. auto.
  - unfold df_tip_ym in Hx. apply in_map_iff in Hx. destruct Hx as [t [<- Ht]].
    eexists; eexists. split; [reflexivity|]. cbn [snd]. intros dd Hdd.
    right. left. exists t. auto.
Qed.

(** X16: every month of the fact table is a month of [Dim_Date]: a row whose
    month is not 0 has a date of its year and month in [Dim_Date], and its
    month id, [yyyyMM], is the first six characters of that date's
    [date_id]. *)
Theorem fact_months_are_months_of_dim_date
        (df_review : list Review.t) (df_checkin : list Checkin.t)
        (df_tip : list Tip.t) (r : monthly_row) :
  In r (fact_table_monthly_joined df_review df_checkin df_tip) ->
  month r <> 0 ->
  exists dr, In dr (dim_date df_review df_tip df_checkin)
             /\ dd_year dr = year r /\ dd_month dr = month r
             /\ substring 0 6 (date_id dr) = month_id_of r.
Proof.
  rewrite fact_table_monthly_joined_map, in_map_iff.
  intros [k [<- Hk]] Hm.
  apply base_facts_monthly_occurs in Hk. destruct Hk as [b [d [-> Hocc]]].
  destruct d as [d|].
  - exists (date_row_of d). split.
    + unfold dim_date. apply in_map. apply all_dates_In. apply Hocc. reflexivity.
    + unfold joined_row, key_of, na_fill_0, month_id_of, date_row_of.
      cbn [dd_year dd_month date_id year month option_map coalesce].
      split; [reflexivity|]. split; reflexivity.
  - exfalso. apply Hm. reflexivity.
Qed.

(** *** The ranges of the derived columns *)

Lemma lag_review_count_In (first : option Z) (w : list monthly_row)
      (r : monthly_row) (prev : option Z) :
  In (r, prev) (lag_review_count first w) ->
  In r w /\ (prev = first \/ exists r', In r' w /\ prev = Some (review_count_monthly r')).
Proof.
  revert first. induction w as [|x t IH]; intros first H; [destruct H|].
  cbn [lag_review_count] in H. destruct H as [E|H].
  - injection E as -> ->. split; [left; reflexivity|left; reflexivity].
  - destruct (IH _ H) as [Hin Hprev]. split; [right; exact Hin|].
    right. destruct Hprev as [->|[r' [Hr' ->]]].
    + exists x. split; [left; reflexivity|reflexivity].
    + exists r'. split; [right; exact Hr'|reflexivity].
Qed.

Lemma monthly_counts_nonneg (df_review : list Review.t) (df_checkin : list Checkin.t)
      (df_tip : list Tip.t) (r : monthly_row) :
  In r (fact_table_monthly_joined df_review df_checkin df_tip) ->
  0 <= review_count_monthly r /\ 0 <= checkin_count_monthly r
  /\ 0 <= tip_count_monthly r.
Proof.
  rewrite fact_table_monthly_joined_map, in_map_iff. intros [[[b y] m] [<- _]].
  unfold joined_row, na_fill_0.
  cbn [review_count_monthly checkin_count_monthly tip_count_monthly].
  rewrite !lookup_count_or_0.
  destruct (month_key_complete (b, y, m)); [|lia].
  repeat split; apply Rel.count_nonneg.
Qed.

(** A growth over a count that is positive is -1 at least, and -1 for a
    month without reviews. *)
Lemma growth_at_least_minus_1 (cur prev : Z) :
  0 <= cur -> 0 < prev ->
  (-1 <= inject_Z (cur - prev) / inject_Z prev)%Q
  /\ ((inject_Z (cur - prev) / inject_Z prev == -1)%Q <-> cur = 0).
Proof.
  intros Hc Hp.
  assert (Hq : (0 < inject_Z prev)%Q)
    by (change 0%Q with (inject_Z 0); rewrite <- Zlt_Qlt; exact Hp).
  assert (Hcq : (0 <= inject_Z cur)%Q)
    by (change 0%Q with (inject_Z 0); rewrite <- Zle_Qle; exact Hc).
  assert (Hm : (inject_Z (cur - prev) == inject_Z cur - inject_Z prev)%Q).
  { unfold Z.sub. rewrite inject_Z_plus, inject_Z_opp. reflexivity. }
  assert (Hlo : (-1 <= inject_Z (cur - prev) / inject_Z prev)%Q).
  { apply Qle_shift_div_l; [exact Hq|]. rewrite Hm. lra. }
  split; [exact Hlo|]. split.
  - intros E.
    assert (Hmul : (inject_Z (cur - prev) / inject_Z prev * inject_Z prev
                    == inject_Z (cur - prev))%Q).
    { field. intros H0. rewrite H0 in Hq. discriminate Hq. }
    rewrite E, Hm in Hmul.
    assert (H0 : (inject_Z cur == 0)%Q) by lra.
    unfold Qeq, inject_Z in H0. cbn [Qnum Qden] in H0. lia.
  - intros ->. apply Qle_antisym; [|exact Hlo].
    apply Qle_shift_div_r; [exact Hq|]. rewrite Hm. change (inject_Z 0) with 0%Q. lra.
Qed.

(** X26: the ranges of the columns of [Fact_Business_Performance]: the
    three counts are not negative and [photo_count] is 0; the engagement
    score is not negative, and is 0 exactly when the three counts are 0;
    the growth rate, when it is not null, is -1 at least, and is -1 exactly
    in a month without counted reviews. *)
Theorem performance_columns_in_range
        (df_review : list Review.t) (df_checkin : list Checkin.t)
        (df_tip : list Tip.t) (p : performance_row) :
  In p (fact_business_performance df_review df_checkin df_tip) ->
  0 <= review_count p /\ 0 <= checkin_count p /\ 0 <= tip_count p
  /\ photo_count p = 0
  /\ (0 <= engagement_score p)%Q
  /\ ((engagement_score p == 0)%Q
      <-> review_count p = 0 /\ checkin_count p = 0 /\ tip_count p = 0)
  /\ match growth_rate p with
     | None => True
     | Some g => (-1 <= g)%Q /\ ((g == -1)%Q <-> review_count p = 0)
     end.
Proof.
  unfold fact_business_performance, fact_table_final_monthly.
  rewrite map_map, in_map_iff. intros [[r g] [<- Hrg]].
  cbn [review_count checkin_count tip_count photo_count engagement_score growth_rate
       fst snd].
  unfold fact_table_with_growth in Hrg. apply in_map_iff in Hrg.
  destruct Hrg as [[r0 prev] [E Hlag]]. cbn [fst snd] in E. injection E as -> <-.
  unfold fact_table_with_lag in Hlag. apply in_flat_map in Hlag.
  destruct Hlag as [e [_ Hlag]]. apply lag_review_count_In in Hlag.
  destruct Hlag as [Hr Hprev].
  apply business_window_In in Hr. destruct Hr as [Hr _].
  destruct (monthly_counts_nonneg _ _ _ r Hr) as [Hrc [Hcc Htc]].
  assert (Hrq : (0 <= inject_Z (review_count_monthly r))%Q)
    by (change 0%Q with (inject_Z 0); rewrite <- Zle_Qle; exact Hrc).
  assert (Hcq : (0 <= inject_Z (checkin_count_monthly r))%Q)
    by (change 0%Q with (inject_Z 0); rewrite <- Zle_Qle; exact Hcc).
  assert (Htq : (0 <= inject_Z (tip_count_monthly r))%Q)
    by (change 0%Q with (inject_Z 0); rewrite <- Zle_Qle; exact Htc).
  split; [exact Hrc|]. split; [exact Hcc|]. split; [exact Htc|].
  split; [reflexivity|].
  unfold engagement_score_of, photo_count_monthly. change (inject_Z 0) with 0%Q.
  split; [lra|]. split.
  - split.
    + intros E.
      assert (H1 : (inject_Z (review_count_monthly r) <= inject_Z 0)%Q)
        by (change (inject_Z 0) with 0%Q; lra).
      assert (H2 : (inject_Z (checkin_count_monthly r) <= inject_Z 0)%Q)
        by (change (inject_Z 0) with 0%Q; lra).
      assert (H3 : (inject_Z (tip_count_monthly r) <= inject_Z 0)%Q)
        by (change (inject_Z 0) with 0%Q; lra).
      rewrite <- Zle_Qle in H1, H2, H3. lia.
    + intros [-> [-> ->]]. reflexivity.
  - unfold review_growth_rate.
    destruct Hprev as [->|[r' [Hr' ->]]]; [exact I|].
    destruct (review_count_monthly r' =? 0) eqn:E0; [exact I|].
    apply Z.eqb_neq in E0.
    apply business_window_In in Hr'. destruct Hr' as [Hr' _].
    destruct (monthly_counts_nonneg _ _ _ r' Hr') as [Hrc' _].
    apply growth_at_least_minus_1; lia.
Qed.

End Pipeline.

(** *** Runs on sample data

    The parsers are instantiated with [Date.of_iso] and the row ids with the
    positions. *)

Import Sample.

Example sample_monthly_facts :
  fact_table_monthly_joined Date.of_iso reviews checkins tips
  = [mk_monthly_row (Some "b1") 2018 1 2 1 0;
     mk_monthly_row (Some "b1") 2018 2 0 1 0;
     mk_monthly_row (Some "b1") 2018 3 0 0 1].
Proof. vm_compute. reflexivity. Qed.

(** A checkin string with two stamps in two months gives two dates and two
    monthly counts; a malformed piece costs only itself. *)
Example checkin_string_is_exploded :
  map date_id (dim_date Date.of_iso [] [] checkins) = ["20180101"; "20180202"]
  /\ fact_table_monthly_joined Date.of_iso [] checkins []
     = [mk_monthly_row (Some "b1") 2018 1 0 1 0;
        mk_monthly_row (Some "b1") 2018 2 0 1 0].
Proof. split; vm_compute; reflexivity. Qed.

Example malformed_piece_is_dropped_alone :
  let df_checkin :=
    [Checkin.mk (Some "b1")
       (Some "2018-01-01 10:00:00, not a date, 2018-01-03 09:00:00")] in
  map date_id (dim_date Date.of_iso [] [] df_checkin) = ["20180101"; "20180103"]
  /\ fact_table_monthly_joined Date.of_iso [] df_checkin []
     = [mk_monthly_row (Some "b1") 2018 1 0 2 0].
Proof. split; vm_compute; reflexivity. Qed.

(** A review whose date does not parse has null year and month: [na.fill(0)]
    turns its key into year 0, month 0, and the join, which matches no null,
    leaves its count at 0. *)
Example unparsable_review_date_row :
  fact_table_monthly_joined Date.of_iso [review_on (Some "r1") "last week"] [] []
  = [mk_monthly_row (Some "b1") 0 0 0 0 0].
Proof. vm_compute. reflexivity. Qed.

Definition four_months : list monthly_row :=
  [mk_monthly_row (Some "b1") 2018 2 15 0 0;
   mk_monthly_row (Some "b2") 2018 1 3 0 0;
   mk_monthly_row (Some "b1") 2018 1 10 0 0;
   mk_monthly_row (Some "b1") 2018 3 0 1 0;
   mk_monthly_row (Some "b1") 2018 5 5 0 0].

(** Counts 10 then 15 give 1/2; the first month of a business and the month
    after a month without reviews give null. *)
Example growth_of_four_months :
  map (fun rg => (month (fst rg), option_map Qred (snd rg)))
      (window_growth (Some "b1") four_months)
  = [(1, None); (2, Some (1 # 2)%Q); (3, Some (-1 # 1)%Q); (5, None)].
Proof. vm_compute. reflexivity. Qed.

Example growth_ten_then_fifteen :
  review_growth_rate 15 (Some 10) = Some (5 # 10)%Q
  /\ (5 # 10 == 1 # 2)%Q
  /\ review_growth_rate 5 (Some 0) = None
  /\ review_growth_rate 5 None = None.
Proof. repeat split. Qed.

Example engagement_four_two_five :
  (engagement_score_of (mk_monthly_row (Some "b1") 2018 1 4 5 2) == 6)%Q.
Proof. reflexivity. Qed.

(** In binary64 both values of the specification are exact, and a decline
    is a negative rate. *)
Example doubles_of_the_specification :
  engagement_score_double (mk_monthly_row (Some "b1") 2018 1 4 5 2) = 6%float
  /\ review_growth_rate_double 15 (Some 10) = Some 0.5%float
  /\ review_growth_rate_double 5 (Some 0) = None
  /\ review_growth_rate_double 5 (Some 10) = Some (-0.5)%float
  /\ review_growth_rate_double 0 (Some 7) = Some (-1)%float.
Proof. repeat split; vm_compute; reflexivity. Qed.

(** *** Instances of the theorems *)

Lemma monthly_fact_is_union_with_counts_witness :
  1 <= 2 <= 12
  /\ (((exists r, In r (fact_table_monthly_joined Date.of_iso reviews
                          checkins tips)
                  /\ business_id r = Some "b1" /\ year r = 2018 /\ month r = 2)
       <-> (reviews_in Date.of_iso reviews "b1" 2018 2 <> []
            \/ checkins_in Date.of_iso checkins "b1" 2018 2 <> []
            \/ tips_in Date.of_iso tips "b1" 2018 2 <> []))
      /\ (List.length
            (rows_for "b1" 2018 2
               (fact_table_monthly_joined Date.of_iso reviews checkins
                  tips)) <= 1)%nat
      /\ (forall r, In r (fact_table_monthly_joined Date.of_iso reviews
                            checkins tips) ->
                    business_id r = Some "b1" -> year r = 2018 -> month r = 2 ->
                    review_count_monthly r
                    = Rel.count has_review_id
                        (reviews_in Date.of_iso reviews "b1" 2018 2)
                    /\ checkin_count_monthly r
                       = Z.of_nat (List.length
                                     (checkins_in Date.of_iso checkins "b1" 2018 2))
                    /\ tip_count_monthly r
                       = Z.of_nat (List.length
                                     (tips_in Date.of_iso tips "b1" 2018 2)))).
Proof.
  assert (H : 1 <= 2 <= 12) by lia.
  split; [exact H|].
  exact (monthly_fact_is_union_with_counts Date.of_iso reviews checkins
           tips "b1" 2018 2 H).
Defined.


Definition busy_reviews : list Review.t :=
  [review_on (Some "r1") "2018-01-05 09:00:00";
   review_on (Some "r2") "2018-01-06 09:00:00";
   review_on (Some "r3") "2018-01-07 09:00:00";
   review_on (Some "r4") "2018-01-08 09:00:00"].

Definition busy_tips : list Tip.t :=
  [Tip.mk (Some "u2") (Some "b1") (Some "2018-01-03 12:00:00");
   Tip.mk (Some "u3") (Some "b1") (Some "2018-01-04 12:00:00")].

Definition busy_checkins : list Checkin.t :=
  [Checkin.mk (Some "b1")
     (Some "2018-01-01 10:00:00, 2018-01-02 11:00:00, 2018-01-02 12:00:00, 2018-01-09 11:00:00, 2018-01-19 11:00:00")].

Definition busy_month : performance_row_double :=
  mk_performance_row_double (Some "b1") "201801" 4 5 2 0 6%float None.

#[warnings="-inexact-float"]
Lemma engagement_score_weighted_sum_witness :
  In busy_month
     (fact_business_performance_double Date.of_iso busy_reviews busy_checkins busy_tips)
  /\ (fd_engagement_score busy_month
      = (double_of_long (fd_review_count busy_month) * 1.0
         + double_of_long (fd_tip_count busy_month) * 0.5
         + double_of_long (fd_photo_count busy_month) * 0.25
         + double_of_long (fd_checkin_count busy_month) * 0.2)%float
      /\ fd_photo_count busy_month = 0
      /\ (double_of_long (fd_photo_count busy_month) * 0.25)%float = 0%float
      /\ (fd_review_count busy_month = 4 -> fd_tip_count busy_month = 2 ->
          fd_checkin_count busy_month = 5 ->
          fd_engagement_score busy_month = 6%float)).
Proof.
  assert (H : In busy_month
                 (fact_business_performance_double Date.of_iso busy_reviews
                    busy_checkins busy_tips)).
  { vm_compute. left. reflexivity. }
  split; [exact H|].
  exact (engagement_score_weighted_sum Date.of_iso busy_reviews busy_checkins busy_tips
           busy_month H).
Defined.

Definition bar_row : business_row :=
  mk_business_row (Some "b1") (Some "Cafe") (Some "Bars") (Some true) (Some 50) 2.

Lemma subcategory_is_valid_second_element_witness :
  In bar_row (dim_business [cafe (Some "Restaurants, Bars")] reviews)
  /\ exists b, In b [cafe (Some "Restaurants, Bars")]
               /\ db_business_id bar_row = Business.business_id b
               /\ match Business.categories b with
                  | None => subcategory bar_row = None
                  | Some s =>
                      match nth_error (Str.split_comma_ws s) 1 with
                      | None => subcategory bar_row = None
                      | Some c =>
                          (c <> "" -> c <> "null" -> subcategory bar_row = Some c)
                          /\ (c = "" \/ c = "null" -> subcategory bar_row = None)
                      end
                  end.
Proof.
  assert (H : In bar_row (dim_business [cafe (Some "Restaurants, Bars")] reviews)).
  { vm_compute. left. reflexivity. }
  split; [exact H|].
  exact (subcategory_is_valid_second_element [cafe (Some "Restaurants, Bars")]
           reviews bar_row H).
Defined.

Lemma sample_reviews_have_ids :
  forall rv, In rv reviews -> Review.review_id rv <> None.
Proof. intros rv [<-|[<-|[]]]; discriminate. Defined.

Lemma monthly_review_count_when_ids_present_witness :
  1 <= 1 <= 12
  /\ (forall rv, In rv reviews -> Review.review_id rv <> None)
  /\ In (mk_monthly_row (Some "b1") 2018 1 2 1 0)
        (fact_table_monthly_joined Date.of_iso reviews checkins tips)
  /\ business_id (mk_monthly_row (Some "b1") 2018 1 2 1 0) = Some "b1"
  /\ year (mk_monthly_row (Some "b1") 2018 1 2 1 0) = 2018
  /\ month (mk_monthly_row (Some "b1") 2018 1 2 1 0) = 1
  /\ review_count_monthly (mk_monthly_row (Some "b1") 2018 1 2 1 0)
     = Z.of_nat (List.length (reviews_in Date.of_iso reviews "b1" 2018 1)).
Proof.
  assert (Hm : 1 <= 1 <= 12) by lia.
  assert (Hin : In (mk_monthly_row (Some "b1") 2018 1 2 1 0)
                   (fact_table_monthly_joined Date.of_iso reviews checkins tips))
    by (vm_compute; left; reflexivity).
  split; [exact Hm|]. split; [exact sample_reviews_have_ids|]. split; [exact Hin|].
  split; [reflexivity|]. split; [reflexivity|]. split; [reflexivity|].
  exact (monthly_review_count_when_ids_present Date.of_iso reviews checkins tips
           "b1" 2018 1 (mk_monthly_row (Some "b1") 2018 1 2 1 0)
           Hm sample_reviews_have_ids Hin eq_refl eq_refl eq_refl).
Defined.

Lemma overall_review_count_when_ids_present_witness :
  (forall rv, In rv reviews -> Review.review_id rv <> None)
  /\ In bar_row (dim_business [cafe (Some "Restaurants, Bars")] reviews)
  /\ db_business_id bar_row = Some "b1"
  /\ overall_review_count bar_row = Z.of_nat (List.length (reviews_of reviews "b1")).
Proof.
  assert (Hin : In bar_row (dim_business [cafe (Some "Restaurants, Bars")] reviews))
    by (vm_compute; left; reflexivity).
  split; [exact sample_reviews_have_ids|]. split; [exact Hin|]. split; [reflexivity|].
  exact (overall_review_count_when_ids_present [cafe (Some "Restaurants, Bars")] reviews
           bar_row "b1" sample_reviews_have_ids Hin eq_refl).
Defined.

(** *** Where the code departs from the specification *)

(** C1 as stated fails: [F.count("review_id")] skips a review without a
    [review_id].  The business has one review in January 2018; its row of
    that month is there, with a review count of 0. *)
Lemma review_without_id_is_not_counted :
  List.length (reviews_in Date.of_iso [review_on None "2018-01-05 09:00:00"] "b1" 2018 1)
  = 1%nat
  /\ fact_table_monthly_joined Date.of_iso [review_on None "2018-01-05 09:00:00"] [] []
     = [mk_monthly_row (Some "b1") 2018 1 0 0 0].
Proof. split; vm_compute; reflexivity. Qed.

(** C7 read in exact arithmetic fails: the weights are doubles, and 0.2 is
    none.  A month with three checkins and nothing else (the review and the
    tip are of March) scores three times the double next to 1/5, rounded:
    0.6000000000000001, which is above 3/5 and is not the double next to
    3/5 either. *)
#[warnings="-inexact-float"]
Lemma engagement_score_is_rounded :
  let p := mk_performance_row_double (Some "b1") "201801" 0 3 0 0
             0.6000000000000001%float None in
  In p (fact_business_performance_double Date.of_iso
          [review_on (Some "r1") "2018-03-05 09:00:00"]
          [Checkin.mk (Some "b1")
             (Some "2018-01-01 10:00:00, 2018-01-02 11:00:00, 2018-01-02 12:00:00")]
          [Tip.mk (Some "u2") (Some "b1") (Some "2018-03-03 12:00:00")])
  /\ (inject_Z (fd_review_count p) * 1 + inject_Z (fd_tip_count p) * (1 # 2)
      + inject_Z (fd_checkin_count p) * (1 # 5) == 3 # 5)%Q
  /\ option_map Qred (exact_value (fd_engagement_score p))
     = Some (1351079888211149 # 2251799813685248)%Q
  /\ (3 # 5 < 1351079888211149 # 2251799813685248)%Q
  /\ option_map Qred (exact_value 0.6%float)
     = Some (5404319552844595 # 9007199254740992)%Q
  /\ PrimFloat.eqb (fd_engagement_score p) 0.6%float = false.
Proof.
  cbv zeta.
  split; [vm_compute; first [left; reflexivity | right; left; reflexivity]|].
  split; [reflexivity|]. split; [vm_compute; reflexivity|].
  split; [reflexivity|]. split; vm_compute; reflexivity.
Qed.

(** C9 as stated fails both ways.  "null, Bars" has one element that is
    neither empty nor "null", and the subcategory is "Bars"; "Food, , Bars"
    has two, and the subcategory is null, the second element of the split
    being empty. *)
Lemma subcategory_looks_at_second_element_only :
  let usable := fun c => andb (Str.neqb c "") (Str.neqb c "null") in
  (List.length (filter usable (Str.split_comma_ws "null, Bars")) = 1%nat
   /\ map subcategory (dim_business [cafe (Some "null, Bars")] []) = [Some "Bars"])
  /\ (List.length (filter usable (Str.split_comma_ws "Food, , Bars")) = 2%nat
      /\ nth_error (Str.split_comma_ws "Food, , Bars") 1 = Some ""
      /\ map subcategory (dim_business [cafe (Some "Food, , Bars")] []) = [None]).
Proof. repeat split; vm_compute; reflexivity. Qed.

(** The labels are neither trimmed nor folded to one case: "Bars " keeps
    its blank, and "bars" and "Bars" are two labels. *)
Lemma labels_are_not_normalized :
  map snd (dim_category Z.of_nat [cafe (Some "Bars ,bars, Bars")])
  = ["Bars "; "bars"; "Bars"]
  /\ Str.trim "Bars " <> "Bars "
  /\ Str.lower "bars" = Str.lower "Bars"
  /\ "bars" <> "Bars".
Proof. repeat split; try (vm_compute; reflexivity); discriminate. Qed.

(** A review without a [review_id] is not counted: the business has one
    review record and an [overall_review_count] of 0. *)
Lemma review_without_id_is_not_in_overall_count :
  List.length (reviews_of [review_on None "2018-01-05 09:00:00"] "b1") = 1%nat
  /\ map (fun row => (db_business_id row, overall_review_count row))
         (dim_business [cafe None] [review_on None "2018-01-05 09:00:00"])
     = [(Some "b1", 0)].
Proof. split; vm_compute; reflexivity. Qed.

(** *** The further properties, on the sample data *)

Example window_step_on_sample :
  map (fun p => (fp_business_id p, month_id p, review_count p, checkin_count p,
                 tip_count p))
      (fact_business_performance Date.of_iso reviews checkins tips)
  = [(Some "b1", "201801", 2, 1, 0); (Some "b1", "201802", 0, 1, 0);
     (Some "b1", "201803", 0, 0, 1)].
Proof. vm_compute. reflexivity. Qed.

Lemma business_and_month_id_identify_a_row_witness :
  (forall s d, Date.of_iso s = Some d -> Date.valid d = true)
  /\ NoDup (map (fun p => (fp_business_id p, month_id p))
                (fact_business_performance Date.of_iso reviews checkins tips)).
Proof.
  split; [exact Date.of_iso_valid|].
  exact (business_and_month_id_identify_a_row Date.of_iso Date.of_iso_valid
           reviews checkins tips).
Defined.

Definition undated_reviews : list Review.t :=
  [review_on (Some "r1") "last week"; review_on (Some "r2") "2018-01-20 18:30:00"].

Lemma events_with_a_null_key_give_zero_rows_witness :
  (forall s d, Date.of_iso s = Some d -> Date.valid d = true)
  /\ In (mk_monthly_row (Some "b1") 0 0 0 0 0)
        (fact_table_monthly_joined Date.of_iso undated_reviews checkins tips)
  /\ (forall row,
         In row (fact_table_monthly_joined Date.of_iso undated_reviews checkins tips) ->
         business_id row = None \/ month row = 0 ->
         review_count_monthly row = 0 /\ checkin_count_monthly row = 0
         /\ tip_count_monthly row = 0).
Proof.
  pose proof (events_with_a_null_key_give_zero_rows Date.of_iso Date.of_iso_valid
                undated_reviews checkins tips) as [Hr [_ Hz]].
  split; [exact Date.of_iso_valid|]. split; [|exact Hz].
  exact (Hr (review_on (Some "r1") "last week") (or_introl eq_refl) eq_refl).
Defined.

(** A value of 4.25 is kept as 4.3, half up; 4.24 as 4.2. *)
Example rating_rounds_half_up :
  cast_decimal_3_1 (17 # 4) = Some 43 /\ cast_decimal_3_1 (424 # 100) = Some 42.
Proof. split; reflexivity. Qed.

Lemma sample_business_ids_differ :
  NoDup (map Business.business_id [cafe None; diner None]).
Proof.
  constructor; [intros [H|[]]; discriminate H|].
  constructor; [intros []|constructor].
Defined.

Lemma dimensions_have_one_row_per_business_witness :
  NoDup (map Business.business_id [cafe None; diner None])
  /\ Permutation
       (map (fun row : location_row =>
               let '(location_id, business_id, _, _, _, _, _) := row in
               (location_id, business_id))
            (dim_location [cafe None; diner None]))
       (map (fun b => (Business.business_id b, Business.business_id b))
            [cafe None; diner None])
  /\ NoDup (map (fun row : location_row =>
                   let '(location_id, _, _, _, _, _, _) := row in location_id)
                (dim_location [cafe None; diner None]))
  /\ Permutation (map db_business_id (dim_business [cafe None; diner None] reviews))
                 (map Business.business_id [cafe None; diner None])
  /\ NoDup (map db_business_id (dim_business [cafe None; diner None] reviews)).
Proof.
  split; [exact sample_business_ids_differ|].
  exact (dimensions_have_one_row_per_business [cafe None; diner None] reviews
           sample_business_ids_differ).
Defined.

(** A business record that comes twice gives one row. *)
Example repeated_business_record :
  List.length (dim_location [cafe None; cafe None]) = 1%nat
  /\ List.length (dim_business [cafe None; cafe None] reviews) = 1%nat.
Proof. split; vm_compute; reflexivity. Qed.

Lemma fact_months_are_months_of_dim_date_witness :
  In (mk_monthly_row (Some "b1") 2018 1 2 1 0)
     (fact_table_monthly_joined Date.of_iso reviews checkins tips)
  /\ month (mk_monthly_row (Some "b1") 2018 1 2 1 0) <> 0
  /\ exists dr, In dr (dim_date Date.of_iso reviews tips checkins)
                /\ dd_year dr = year (mk_monthly_row (Some "b1") 2018 1 2 1 0)
                /\ dd_month dr = month (mk_monthly_row (Some "b1") 2018 1 2 1 0)
                /\ substring 0 6 (date_id dr)
                   = month_id_of (mk_monthly_row (Some "b1") 2018 1 2 1 0).
Proof.
  assert (Hin : In (mk_monthly_row (Some "b1") 2018 1 2 1 0)
                   (fact_table_monthly_joined Date.of_iso reviews checkins tips))
    by (vm_compute; left; reflexivity).
  assert (Hm : month (mk_monthly_row (Some "b1") 2018 1 2 1 0) <> 0) by discriminate.
  split; [exact Hin|]. split; [exact Hm|].
  exact (fact_months_are_months_of_dim_date Date.of_iso reviews checkins tips
           (mk_monthly_row (Some "b1") 2018 1 2 1 0) Hin Hm).
Defined.

Definition quiet_month : performance_row :=
  mk_performance_row (Some "b1") "201802" 0 1 0 0 (8 # 40)%Q (Some (-2 # 2)%Q).

Lemma performance_columns_in_range_witness :
  In quiet_month (fact_business_performance Date.of_iso reviews checkins tips)
  /\ (0 <= review_count quiet_month /\ 0 <= checkin_count quiet_month
      /\ 0 <= tip_count quiet_month
      /\ photo_count quiet_month = 0
      /\ (0 <= engagement_score quiet_month)%Q
      /\ ((engagement_score quiet_month == 0)%Q
          <-> review_count quiet_month = 0 /\ checkin_count quiet_month = 0
              /\ tip_count quiet_month = 0)
      /\ ((-1 <= -2 # 2)%Q /\ ((-2 # 2 == -1)%Q <-> review_count quiet_month = 0))).
Proof.
  assert (Hin : In quiet_month
                   (fact_business_performance Date.of_iso reviews checkins tips))
    by (vm_compute; right; left; reflexivity).
  split; [exact Hin|].
  exact (performance_columns_in_range Date.of_iso reviews checkins tips quiet_month Hin).
Defined.

End Owners.

(** ** The pandas pipeline of [investorsETL.py] *)

Module Investors.

(** What a call can raise. *)
Inductive exn : Type :=
| ValueError          (* [pd.to_datetime] on a string that is no date; [int] on a string that is no number *)
| InvalidIndexError   (* [Series.map] with a mapper whose index has a value twice *)
| KeyError.           (* a column selected from a frame that has no such column *)

Inductive result (A : Type) : Type :=
| Ok (a : A)
| Raise (e : exn).
Arguments Ok {A} a.
Arguments Raise {A} e.

Definition bind_result {A B : Type} (r : result A) (k : A -> result B) : result B :=
  match r with
  | Ok a => k a
  | Raise e => Raise e
  end.

(** The business frame is one object: [main] hands the same reference to
    every builder.  A builder is a computation over that object, which may
    rewrite it and may raise. *)
Definition M (A : Type) : Type := list Business.t -> result (A * list Business.t).

Definition ret {A : Type} (a : A) : M A := fun df => Ok (a, df).

Definition bind {A B : Type} (c : M A) (k : A -> M B) : M B :=
  fun df => match c df with
            | Ok (a, df') => k a df'
            | Raise e => Raise e
            end.

Definition get : M (list Business.t) := fun df => Ok (df, df).

Definition put (df' : list Business.t) : M unit := fun _ => Ok (tt, df').

Definition lift {A : Type} (r : result A) : M A :=
  fun df => match r with
            | Ok a => Ok (a, df)
            | Raise e => Raise e
            end.

Notation "x <- c ;; k" := (bind c (fun x => k))
  (at level 61, c at next level, right associativity).
Notation "c ;; k" := (bind c (fun _ => k))
  (at level 61, right associativity).

(** *** The tables *)

Definition location : Type :=
  (option string * option string * option string * option Q * option Q)%type.

Definition location_dec (a b : location) : {a = b} + {a <> b}.
Proof. repeat decide equality. Defined.

Record location_row : Type := mk_location_row {
  location_key : Z;
  loc : location
}.

Record category_row : Type := mk_category_row {
  category_key : Z;
  category_name : option string
}.

Record date_row : Type := mk_date_row {
  date_key : Z;
  full_date : Date.date;
  year : Z;
  month : Z;
  day : Z;
  day_of_week : Z;
  day_name : string;
  month_name : string;
  quarter : Z;
  is_weekend : bool
}.

Record business_row : Type := mk_business_row {
  business_key : Z;
  business_nk : option string;
  name : option string;
  address : option string;
  br_location_key : option Z;
  stars : option Q;
  review_count : option Z;
  is_open : option Z
}.

Record performance_row : Type := mk_performance_row {
  performance_key : Z;
  fp_business_key : Z;
  fp_date_key : Z;
  fp_review_count : Z;
  average_stars : Q;
  checkin_count : Z
}.

Record tables : Type := mk_tables {
  Dim_Location : list location_row;
  Dim_Category : list category_row;
  Dim_Date : list date_row;
  Dim_Business : list business_row;
  Fact_Business_Categories : list (Z * Z);
  Fact_Business_Performance : list performance_row
}.

Definition ZZ_dec (a b : Z * Z) : {a = b} + {a <> b}.
Proof. repeat decide equality. Defined.

Definition opt_ZZ_dec (a b : option Z * option Z) : {a = b} + {a <> b}.
Proof. repeat decide equality. Defined.

(** [range(1, len(df) + 1)] next to the rows. *)
Definition keys_from_1 {A : Type} (l : list A) : list (Z * A) :=
  combine (map (fun i => Z.of_nat i) (seq 1 (List.length l))) l.

(** [series.map(mapper)] with a Series as mapper: the value at each label,
    null for a label the index lacks; pandas refuses an index that has a
    label twice. *)
Fixpoint lookup {K V : Type} (K_dec : forall x y : K, {x = y} + {x <> y})
         (mapper : list (K * V)) (k : K) : option V :=
  match mapper with
  | [] => None
  | (k', v) :: t => if K_dec k' k then Some v else lookup K_dec t k
  end.

Fixpoint is_unique {K : Type} (K_dec : forall x y : K, {x = y} + {x <> y})
         (l : list K) : bool :=
  match l with
  | [] => true
  | k :: t => andb (negb (Rel.mem K_dec k t)) (is_unique K_dec t)
  end.

Definition series_map {K V : Type} (K_dec : forall x y : K, {x = y} + {x <> y})
           (mapper : list (K * V)) (values : list K) : result (list (option V)) :=
  if is_unique K_dec (map fst mapper)
  then Ok (map (lookup K_dec mapper) values)
  else Raise InvalidIndexError.

(** *** Dimensions *)

Definition location_of (b : Business.t) : location :=
  (Business.city b, Business.state b, Business.postal_code b,
   Business.latitude b, Business.longitude b).

(** [create_dim_location], which works on a copy of the columns. *)
Definition dim_location_of (df_business : list Business.t) : list location_row :=
  map (fun kl => mk_location_row (fst kl) (snd kl))
      (keys_from_1 (Rel.distinct location_dec (map location_of df_business))).

Definition create_dim_location : M (list location_row) :=
  df_business <- get ;;
  ret (dim_location_of df_business).

(** [df_business['categories'].fillna('')] on one record. *)
Definition fillna_categories (b : Business.t) : Business.t :=
  Business.mk (Business.business_id b) (Business.name b) (Business.address b)
              (Business.city b) (Business.state b) (Business.postal_code b)
              (Business.latitude b) (Business.longitude b) (Business.stars b)
              (Business.review_count b) (Business.is_open b) (Business.attributes b)
              (Some (coalesce (Business.categories b) "")) (Business.hours b).

(** [series.str.split(', ').explode()]: a row per piece, and one null row
    for a null string. *)
Definition split_explode (series : list (option string)) : list (option string) :=
  flat_map (fun o => match o with
                     | Some s => map Some (Str.split_comma_space s)
                     | None => [None]
                     end) series.

(** The labels of a frame whose categories are filled: the pieces that are
    not the empty string ([NaN != ''] holds, so a null would stay). *)
Definition unique_categories (df_business : list Business.t) : list (option string) :=
  Rel.distinct opt_string_dec
    (filter (fun o => negb (Rel.eqb opt_string_dec o (Some "")))
            (split_explode (map Business.categories df_business))).

(** [create_dim_category]: line 65 assigns the filled column to the frame it
    was given, the caller's. *)
Definition dim_category_of (df_business : list Business.t) : list category_row :=
  map (fun kc => mk_category_row (fst kc) (snd kc))
      (keys_from_1 (unique_categories df_business)).

Definition create_dim_category : M (list category_row) :=
  df_business <- get ;;
  put (map fillna_categories df_business) ;;
  df_business <- get ;;
  ret (dim_category_of df_business).

Definition date_leb (a b : Date.date) : bool :=
  orb (Date.year a <? Date.year b)
      (andb (Date.year a =? Date.year b)
            (orb (Date.month a <? Date.month b)
                 (andb (Date.month a =? Date.month b) (Date.day a <=? Date.day b)))).

Definition ZZ_leb (a b : Z * Z) : bool :=
  orb (fst a <? fst b) (andb (fst a =? fst b) (snd a <=? snd b)).

(** [strftime('%A')] and [strftime('%B')]. *)
Definition day_name_of (day_of_week : Z) : string :=
  nth (Z.to_nat day_of_week)
      ["Monday"; "Tuesday"; "Wednesday"; "Thursday"; "Friday"; "Saturday"; "Sunday"] "".

Definition month_name_of (month : Z) : string :=
  nth (Z.to_nat (month - 1))
      ["January"; "February"; "March"; "April"; "May"; "June"; "July"; "August";
       "September"; "October"; "November"; "December"] "".

Fixpoint map_result {A B : Type} (f : A -> result B) (l : list A) : result (list B) :=
  match l with
  | [] => Ok []
  | a :: t =>
      bind_result (f a) (fun b => bind_result (map_result f t) (fun bs => Ok (b :: bs)))
  end.

(** The first string of a series, the nulls before it skipped.  A null of
    a series is what pandas takes for a missing value: [None], [NaN], and
    in a series of dates the empty string and the spellings of [NaT]. *)
Fixpoint first_string (series : list (option string)) : option string :=
  match series with
  | [] => None
  | Some s :: _ => Some s
  | None :: t => first_string t
  end.

Section Pipeline.

(** [pd.to_datetime] on one string parsed on its own, with [.dt.date]: its
    date, or none when the string is no date. *)
Variable to_datetime : string -> option Date.date.

(** The format pandas 2 guesses from the first string of a series, given as
    the test of the strings that have it: the whole series is then parsed
    in that format, and a string of another format is no date there.  No
    format is guessed from a string that shows none, and none at all before
    pandas 2, where every string is parsed on its own: that is the instance
    [fun _ => None]. *)
Variable guess_datetime_format : string -> option (string -> bool).

(** What [pd.to_datetime] makes of a string of the series [series]: a
    string of the guessed format has the date it has on its own. *)
Definition parser_of (series : list (option string)) : string -> option Date.date :=
  match bind_opt (first_string series) guess_datetime_format with
  | Some has_format => fun s => if has_format s then to_datetime s else None
  | None => to_datetime
  end.

(** [pd.to_datetime(series)]: a null stays null; a string that is no date
    raises. *)
Definition to_datetime_raise (series : list (option string))
  : result (list (option Date.date)) :=
  map_result (fun o => match o with
                       | None => Ok None
                       | Some s => match parser_of series s with
                                   | Some d => Ok (Some d)
                                   | None => Raise ValueError
                                   end
                       end) series.

(** [pd.to_datetime(series, errors='coerce')]: such a string becomes null. *)
Definition to_datetime_coerce (series : list (option string)) : list (option Date.date) :=
  map (fun o => bind_opt o (parser_of series)) series.

(** The row of a date; [int(d.strftime('%Y%m%d'))] is the key. *)
Definition date_row_of (d : Date.date) : result date_row :=
  match Date.date_key d with
  | None => Raise ValueError
  | Some k =>
      Ok {| date_key := k;
            full_date := d;
            year := Date.year d;
            month := Date.month d;
            day := Date.day d;
            day_of_week := Date.dayofweek_pandas d;
            day_name := day_name_of (Date.dayofweek_pandas d);
            month_name := month_name_of (Date.month d);
            quarter := Date.quarter d;
            is_weekend := orb (Date.dayofweek_pandas d =? 5)
                              (Date.dayofweek_pandas d =? 6) |}
  end.

(** [pd.concat([review_dates, checkin_dates]).dropna().unique()], sorted. *)
Definition all_dates (review_dates checkin_dates : list (option Date.date))
  : list Date.date :=
  Rel.sort date_leb (Rel.distinct Date.eq_dec (na_drop (review_dates ++ checkin_dates))).

Definition create_dim_date (df_review : list Review.t) (df_checkin : list Checkin.t)
  : result (list date_row) :=
  bind_result (to_datetime_raise (map Review.date df_review)) (fun review_dates =>
  let checkin_dates_str := split_explode (map Checkin.date df_checkin) in
  let checkin_dates := to_datetime_coerce checkin_dates_str in
  map_result date_row_of (all_dates review_dates checkin_dates)).

(** [create_dim_business]: the left merge with [Dim_Location] on the five
    location columns (a null matches a null there), then the keys. *)
Definition dim_business_of (df_business : list Business.t)
           (df_location : list location_row) : list business_row :=
  map (fun kj =>
         let b := fst (snd kj) in
         {| business_key := fst kj;
            business_nk := Business.business_id b;
            name := Business.name b;
            address := Business.address b;
            br_location_key := option_map location_key (snd (snd kj));
            stars := Business.stars b;
            review_count := Business.review_count b;
            is_open := Business.is_open b |})
      (keys_from_1
         (Rel.left_join (fun b l => Rel.eqb location_dec (location_of b) (loc l))
                        df_business df_location)).

Definition create_dim_business (df_location : list location_row) : M (list business_row) :=
  df_business <- get ;;
  ret (dim_business_of df_business df_location).

(** *** Facts *)

(** [dropna()] on two key columns. *)
Definition both_keys (row : option Z * option Z) : option (Z * Z) :=
  match row with
  | (Some b, Some c) => Some (b, c)
  | _ => None
  end.

Definition exploded_categories (df_business : list Business.t)
  : list (option string * string) :=
  filter (fun bc => Str.neqb (snd bc) "")
    (flat_map (fun b => map (fun c => (Business.business_id b, c))
                            (Str.split_comma_space (coalesce (Business.categories b) "")))
              df_business).

Definition fact_business_categories_of (df_business : list Business.t)
           (df_category : list category_row) (df_dim_business : list business_row)
  : result (list (Z * Z)) :=
  let business_key_map := map (fun r => (business_nk r, business_key r)) df_dim_business in
  let category_key_map := map (fun c => (category_name c, category_key c)) df_category in
  let df_exploded := exploded_categories df_business in
  bind_result (series_map opt_string_dec business_key_map (map fst df_exploded))
    (fun business_keys =>
  bind_result (series_map opt_string_dec category_key_map
                          (map (fun bc => Some (snd bc)) df_exploded))
    (fun category_keys =>
  Ok (Rel.distinct ZZ_dec
        (na_drop (map both_keys (combine business_keys category_keys)))))).

Definition create_fact_business_categories (df_category : list category_row)
           (df_dim_business : list business_row) : M (list (Z * Z)) :=
  df_business <- get ;;
  lift (fact_business_categories_of df_business df_category df_dim_business).

(** [groupby(['business_key', 'date_key']).agg(...)], which sorts the keys. *)
Definition groupby_keys {R V : Type} (key : R -> Z * Z) (agg : list R -> V)
           (rows : list R) : list (Z * Z * V) :=
  Rel.sort (fun a b => ZZ_leb (fst a) (fst b)) (Rel.group_by ZZ_dec key agg rows).

(** The rows whose two keys were found: [dropna(subset=['business_key',
    'date_key'])]. *)
Definition keyed {R : Type} (rows : list R) (business_keys date_keys : list (option Z))
  : list (R * (Z * Z)) :=
  flat_map (fun rk => match both_keys (snd rk) with
                      | Some k => [(fst rk, k)]
                      | None => []
                      end)
           (combine rows (combine business_keys date_keys)).

Definition opt_date_dec (a b : option Date.date) : {a = b} + {a <> b}.
Proof. decide equality; apply Date.eq_dec. Defined.

(** [pd.merge(left, right, on=['business_key', 'date_key'], how='outer')]:
    a row per pair of a left and a right row that have the same key, a row
    per left row whose key the right frame lacks, a row per right row whose
    key the left frame lacks, the missing side null; the rows come sorted by
    key. *)
Definition merge_outer {L R : Type} (left : list (Z * Z * L)) (right : list (Z * Z * R))
  : list (Z * Z * (option L * option R)) :=
  Rel.sort (fun a b => ZZ_leb (fst a) (fst b))
    (flat_map (fun l =>
                 match filter (fun r => Rel.eqb ZZ_dec (fst r) (fst l)) right with
                 | [] => [(fst l, (Some (snd l), None))]
                 | r :: matches =>
                     map (fun r => (fst l, (Some (snd l), Some (snd r)))) (r :: matches)
                 end) left
     ++ flat_map (fun r => if Rel.mem ZZ_dec (fst r) (map fst left) then []
                           else [(fst r, (None, Some (snd r)))]) right).

(** The merge of the two aggregates, then the three [fillna(0)] and the
    surrogate key. *)
Definition merge_outer_fillna (review_agg : list (Z * Z * (Z * option Q)))
           (checkin_agg : list (Z * Z * Z)) : list performance_row :=
  map (fun nk =>
         let k := fst (snd nk) in
         let r := fst (snd (snd nk)) in
         {| performance_key := fst nk;
            fp_business_key := fst k;
            fp_date_key := snd k;
            fp_review_count := coalesce (option_map fst r) 0;
            average_stars := coalesce (bind_opt r snd) 0%Q;
            checkin_count := coalesce (snd (snd (snd nk))) 0 |})
      (keys_from_1 (merge_outer review_agg checkin_agg)).

Definition create_fact_business_performance (df_review : list Review.t)
           (df_checkin : list Checkin.t) (df_dim_business : list business_row)
           (df_dim_date : list date_row) : result (list performance_row) :=
  let business_key_map := map (fun r => (business_nk r, business_key r)) df_dim_business in
  let date_key_map := map (fun r => (Some (full_date r), date_key r)) df_dim_date in
  (* Process reviews *)
  bind_result (to_datetime_raise (map Review.date df_review)) (fun rev_dates =>
  bind_result (series_map opt_string_dec business_key_map
                          (map Review.business_id df_review)) (fun rev_bk =>
  bind_result (series_map opt_date_dec date_key_map rev_dates) (fun rev_dk =>
  let df_rev := keyed df_review rev_bk rev_dk in
  let review_agg :=
    groupby_keys snd
      (fun g => (Rel.count (fun r => is_some (Review.review_id (fst r))) g,
                 avg (map (fun r => Review.stars (fst r)) g)))
      df_rev in
  (* Process checkins *)
  let df_chk_exploded :=
    flat_map (fun c => map (fun piece => (Checkin.business_id c, piece))
                           (match Checkin.date c with
                            | Some s => map Some (Str.split_comma_space s)
                            | None => [None]
                            end)) df_checkin in
  let chk_dated :=
    flat_map (fun bp => match bind_opt (snd bp) (parser_of (map snd df_chk_exploded)) with
                        | Some d => [(fst bp, d)]
                        | None => []
                        end) df_chk_exploded in
  bind_result (series_map opt_string_dec business_key_map (map fst chk_dated))
    (fun chk_bk =>
  bind_result (series_map opt_date_dec date_key_map
                          (map (fun bd => Some (snd bd)) chk_dated)) (fun chk_dk =>
  let df_chk := keyed chk_dated chk_bk chk_dk in
  let checkin_agg :=
    groupby_keys snd (Rel.count (fun r => is_some (fst (fst r)))) df_chk in
  Ok (merge_outer_fillna review_agg checkin_agg)))))).

(** *** The run (lines 242-250) on the three frames *)

Definition main (df_review_raw : list Review.t) (df_checkin_raw : list Checkin.t)
  : M tables :=
  dim_location <- create_dim_location ;;
  dim_category <- create_dim_category ;;
  dim_date <- lift (create_dim_date df_review_raw df_checkin_raw) ;;
  dim_business <- create_dim_business dim_location ;;
  fact_business_categories <- create_fact_business_categories dim_category dim_business ;;
  fact_business_performance <-
    lift (create_fact_business_performance df_review_raw df_checkin_raw
                                           dim_business dim_date) ;;
  ret {| Dim_Location := dim_location;
         Dim_Category := dim_category;
         Dim_Date := dim_date;
         Dim_Business := dim_business;
         Fact_Business_Categories := fact_business_categories;
         Fact_Business_Performance := fact_business_performance |}.

(** *** The script from the records of the three files

    [load_json_lines] makes the frame of the records it read
    ([pd.DataFrame(data)], line 30).  The frame of no record has no column,
    and the first builder to select a column of it raises [KeyError]:
    [create_dim_location] on the business frame (line 55), then
    [create_dim_date] on the review frame (line 77) and, the review dates
    parsed, on the checkin frame (line 79).  The builders above are given
    frames that have their columns, and a record there has every column,
    null where the file gave none. *)
Definition run (business_records : list Business.t) (review_records : list Review.t)
           (checkin_records : list Checkin.t) : result (tables * list Business.t) :=
  match business_records, review_records with
  | [], _ => Raise KeyError
  | _ :: _, [] => Raise KeyError
  | _ :: _, _ :: _ =>
      bind_result (to_datetime_raise (map Review.date review_records)) (fun _ =>
      match checkin_records with
      | [] => Raise KeyError
      | _ :: _ => main review_records checkin_records business_records
      end)
  end.

(** *** The category build rewrites the caller's frame *)

Lemma fillna_categories_idem (b : Business.t) :
  fillna_categories (fillna_categories b) = fillna_categories b.
Proof. reflexivity. Qed.

Lemma fillna_categories_fixed (b : Business.t) :
  fillna_categories b = b <-> Business.categories b <> None.
Proof.
  destruct b as [i n a c s p la lo st rc io att cat h]. unfold fillna_categories. simpl.
  destruct cat as [x|]; simpl; split; intros H; congruence.
Qed.

(** C10: [create_dim_category] returns with the frame it was given, the
    caller's [df_business_raw], rewritten: the records keep their places and
    their other fields, a null [categories] has become the empty string.  The
    builders [main] calls after it, [create_dim_business] and
    [create_fact_business_categories], run on that rewritten frame, which is
    also the frame [main] ends with, while [create_dim_location], called
    before, ran on the raw one; and a raw frame with a null [categories] is
    not what it was. *)
Theorem create_dim_category_rewrites_the_raw_frame
        (df_business_raw : list Business.t) (df_review_raw : list Review.t)
        (df_checkin_raw : list Checkin.t) :
  let df_filled := map fillna_categories df_business_raw in
  create_dim_category df_business_raw = Ok (dim_category_of df_filled, df_filled)
  /\ (forall i b, nth_error df_business_raw i = Some b ->
                  nth_error df_filled i = Some (fillna_categories b)
                  /\ (Business.categories b = None ->
                      Business.categories (fillna_categories b) = Some "")
                  /\ (Business.categories b <> None -> fillna_categories b = b))
  /\ main df_review_raw df_checkin_raw df_business_raw
     = bind_result (create_dim_date df_review_raw df_checkin_raw) (fun dim_date =>
       let dim_location := dim_location_of df_business_raw in
       let dim_category := dim_category_of df_filled in
       let dim_business := dim_business_of df_filled dim_location in
       bind_result (fact_business_categories_of df_filled dim_category dim_business)
         (fun fact_business_categories =>
       bind_result (create_fact_business_performance df_review_raw df_checkin_raw
                                                     dim_business dim_date)
         (fun fact_business_performance =>
       Ok ({| Dim_Location := dim_location;
              Dim_Category := dim_category;
              Dim_Date := dim_date;
              Dim_Business := dim_business;
              Fact_Business_Categories := fact_business_categories;
              Fact_Business_Performance := fact_business_performance |},
           df_filled))))
  /\ ((exists b, In b df_business_raw /\ Business.categories b = None) ->
      df_filled <> df_business_raw).
Proof.
  intros df_filled. split; [reflexivity|]. split; [|split].
  - intros i b Hi. split; [|split].
    + unfold df_filled. rewrite nth_error_map, Hi. reflexivity.
    + intros H. unfold fillna_categories. simpl. rewrite H. reflexivity.
    + apply fillna_categories_fixed.
  - unfold main, create_dim_location, create_dim_category, create_dim_business,
      create_fact_business_categories, bind, get, put, ret, lift. fold df_filled.
    destruct (create_dim_date df_review_raw df_checkin_raw) as [dim_date|e];
      [|reflexivity].
    cbn [bind_result].
    destruct (fact_business_categories_of df_filled (dim_category_of df_filled)
                (dim_business_of df_filled (dim_location_of df_business_raw)))
      as [fbc|e]; [|reflexivity].
    cbn [bind_result].
    destruct (create_fact_business_performance df_review_raw df_checkin_raw
                (dim_business_of df_filled (dim_location_of df_business_raw)) dim_date)
      as [fbp|e]; reflexivity.
  - intros [b [Hin Hnull]] E.
    apply In_nth_error in Hin. destruct Hin as [i Hi].
    assert (Hf : nth_error df_filled i = Some (fillna_categories b)).
    { unfold df_filled. rewrite nth_error_map, Hi. reflexivity. }
    rewrite E, Hi in Hf. injection Hf as Hf.
    symmetry in Hf. apply fillna_categories_fixed in Hf. contradiction.
Qed.

(** *** An unparsable review date stops the fact build *)

(** Guessing a format only loses dates: what a series makes of a string is
    what the string is on its own, or nothing. *)
Lemma parser_of_to_datetime (series : list (option string)) (s : string) (d : Date.date) :
  parser_of series s = Some d -> to_datetime s = Some d.
Proof.
  unfold parser_of.
  destruct (bind_opt (first_string series) guess_datetime_format) as [has_format|];
    [|auto].
  destruct (has_format s); [auto|discriminate].
Qed.

Lemma parser_of_bad_date (series : list (option string)) (s : string) :
  to_datetime s = None -> parser_of series s = None.
Proof.
  intros Hbad. destruct (parser_of series s) as [d|] eqn:E; [|reflexivity].
  apply parser_of_to_datetime in E. congruence.
Qed.

Lemma to_datetime_raise_on_unparsed (series : list (option string)) (s : string) :
  In (Some s) series -> parser_of series s = None ->
  to_datetime_raise series = Raise ValueError.
Proof.
  unfold to_datetime_raise. set (parse := parser_of series). clearbody parse.
  intros Hin Hbad.
  induction series as [|o t IH]; [destruct Hin|].
  simpl. destruct Hin as [->|Hin].
  - rewrite Hbad. reflexivity.
  - destruct o as [s'|]; simpl.
    + destruct (parse s'); [|reflexivity]. simpl.
      rewrite (IH Hin). reflexivity.
    + rewrite (IH Hin). reflexivity.
Qed.

Lemma to_datetime_raise_on_bad_date (series : list (option string)) (s : string) :
  In (Some s) series -> to_datetime s = None ->
  to_datetime_raise series = Raise ValueError.
Proof.
  intros Hin Hbad. apply (to_datetime_raise_on_unparsed series s Hin).
  apply parser_of_bad_date. exact Hbad.
Qed.


(** The same string in a checkin costs only its piece: the coerced parse
    gives null and the row is dropped. *)
Lemma to_datetime_coerce_never_raises (series : list (option string)) :
  List.length (to_datetime_coerce series) = List.length series.
Proof. unfold to_datetime_coerce. apply length_map. Qed.

(** *** The bridge refers to rows that exist *)

Lemma lookup_In {K V : Type} (K_dec : forall x y : K, {x = y} + {x <> y})
      (mapper : list (K * V)) (k : K) (v : V) :
  lookup K_dec mapper k = Some v -> In (k, v) mapper.
Proof.
  induction mapper as [|[k' v'] t IH]; simpl; [discriminate|].
  destruct (K_dec k' k) as [->|Hne].
  - intros E. injection E as ->. left. reflexivity.
  - intros E. right. apply IH. exact E.
Qed.

Lemma series_map_Ok {K V : Type} (K_dec : forall x y : K, {x = y} + {x <> y})
      (mapper : list (K * V)) (values : list K) (out : list (option V)) :
  series_map K_dec mapper values = Ok out ->
  out = map (lookup K_dec mapper) values.
Proof.
  unfold series_map. destruct (is_unique K_dec (map fst mapper)); [|discriminate].
  intros E. injection E as <-. reflexivity.
Qed.

Lemma both_keys_Some (row : option Z * option Z) (b c : Z) :
  both_keys row = Some (b, c) <-> row = (Some b, Some c).
Proof.
  destruct row as [[x|] [y|]]; simpl; split; intros E; try discriminate;
    injection E as -> ->; reflexivity.
Qed.

(** X2, the bridge of this pipeline: when the bridge build
    returns, [drop_duplicates()] has left no pair twice, and the two keys of
    every pair are keys of a row of [Dim_Business] and of a row of
    [Dim_Category], found through the key maps. *)
Theorem investors_bridge_unique_and_referential
        (df_business : list Business.t) (df_category : list category_row)
        (df_dim_business : list business_row) (bridge : list (Z * Z)) :
  fact_business_categories_of df_business df_category df_dim_business = Ok bridge ->
  NoDup bridge
  /\ forall bk ck, In (bk, ck) bridge ->
                   (exists r, In r df_dim_business /\ business_key r = bk)
                   /\ (exists c, In c df_category /\ category_key c = ck).
Proof.
  unfold fact_business_categories_of.
  destruct (series_map opt_string_dec
              (map (fun r => (business_nk r, business_key r)) df_dim_business)
              (map fst (exploded_categories df_business))) as [bks|e] eqn:Eb;
    [|discriminate].
  cbn [bind_result].
  destruct (series_map opt_string_dec
              (map (fun c => (category_name c, category_key c)) df_category)
              (map (fun bc => Some (snd bc)) (exploded_categories df_business)))
    as [cks|e] eqn:Ec; [|discriminate].
  cbn [bind_result]. intros E. injection E as <-.
  split; [apply Rel.distinct_NoDup|].
  intros bk ck Hin. apply Rel.distinct_In in Hin. apply na_drop_In in Hin.
  apply in_map_iff in Hin. destruct Hin as [[ob oc] [Hk Hin]].
  apply both_keys_Some in Hk. injection Hk as -> ->.
  apply series_map_Ok in Eb, Ec. subst bks cks. split.
  - apply in_combine_l in Hin. apply in_map_iff in Hin. destruct Hin as [v [Hv _]].
    apply lookup_In in Hv. apply in_map_iff in Hv. destruct Hv as [r [Er Hr]].
    injection Er as _ <-. exists r. auto.
  - apply in_combine_r in Hin. apply in_map_iff in Hin. destruct Hin as [v [Hv _]].
    apply lookup_In in Hv. apply in_map_iff in Hv. destruct Hv as [c [Ec Hc]].
    injection Ec as _ <-. exists c. auto.
Qed.

(** *** Dim_Date has one row per date *)





Lemma split_explode_In (series : list (option string)) (piece : string) :
  In (Some piece) (split_explode series)
  <-> exists s, In (Some s) series /\ In piece (Str.split_comma_space s).
Proof.
  unfold split_explode. rewrite in_flat_map. split.
  - intros [[s|] [Hs Hin]].
    + apply in_map_iff in Hin. destruct Hin as [p [E Hp]]. injection E as ->.
      exists s. auto.
    + destruct Hin as [E|[]]. discriminate.
  - intros [s [Hs Hp]]. exists (Some s). split; [exact Hs|].
    apply in_map. exact Hp.
Qed.

(** A date occurs in a source of this pipeline, as [pd.to_datetime] reads
    the source: it is the date of a review, as a string of the review dates,
    or of one exploded piece of a checkin string, as a string of the
    exploded pieces. *)
Definition date_occurs (df_review : list Review.t) (df_checkin : list Checkin.t)
           (d : Date.date) : Prop :=
  (exists r, In r df_review
             /\ bind_opt (Review.date r) (parser_of (map Review.date df_review)) = Some d)
  \/ (exists c s piece, In c df_checkin /\ Checkin.date c = Some s
                        /\ In piece (Str.split_comma_space s)
                        /\ parser_of (split_explode (map Checkin.date df_checkin)) piece
                           = Some d).








(** *** The performance fact keeps the keys of either aggregate *)

Lemma keys_from_1_snd {A : Type} (l : list A) : map snd (keys_from_1 l) = l.
Proof.
  unfold keys_from_1. apply Rel.combine_snd. rewrite length_map, length_seq. reflexivity.
Qed.

Lemma keys_from_1_fst {A : Type} (l : list A) :
  map fst (keys_from_1 l) = map Z.of_nat (seq 1 (List.length l)).
Proof.
  unfold keys_from_1.
  assert (H : forall (a : list Z) (b : list A),
             List.length a = List.length b -> map fst (combine a b) = a).
  { induction a as [|x a IH]; intros [|y b] E; simpl in *; try discriminate;
      [reflexivity|]. f_equal. apply IH. lia. }
  apply H. rewrite length_map, length_seq. reflexivity.
Qed.

Lemma lookup_None {K V : Type} (K_dec : forall x y : K, {x = y} + {x <> y})
      (mapper : list (K * V)) (k : K) :
  ~ In k (map fst mapper) -> lookup K_dec mapper k = None.
Proof.
  induction mapper as [|[k' v] t IH]; simpl; [reflexivity|].
  intros H. destruct (K_dec k' k) as [->|Hne].
  - exfalso. apply H. left. reflexivity.
  - apply IH. intros Hin. apply H. right. exact Hin.
Qed.

Lemma lookup_NoDup_In {K V : Type} (K_dec : forall x y : K, {x = y} + {x <> y})
      (mapper : list (K * V)) (k : K) (v : V) :
  NoDup (map fst mapper) -> In (k, v) mapper -> lookup K_dec mapper k = Some v.
Proof.
  induction mapper as [|[k' v'] t IH]; intros Hnd Hin; [destruct Hin|].
  simpl in *. apply NoDup_cons_iff in Hnd. destruct Hnd as [Hnotin Hnd].
  destruct (K_dec k' k) as [->|Hne].
  - destruct Hin as [E|Hin]; [congruence|].
    exfalso. apply Hnotin. apply (in_map fst) in Hin. exact Hin.
  - destruct Hin as [E|Hin]; [congruence|]. apply IH; assumption.
Qed.

Lemma ZZ_leb_total (a b : Z * Z) : ZZ_leb a b = false -> ZZ_leb b a = true.
Proof.
  unfold ZZ_leb. rewrite orb_false_iff, andb_false_iff, orb_true_iff, andb_true_iff.
  rewrite !Z.ltb_ge, !Z.ltb_lt, !Z.eqb_neq, !Z.eqb_eq, Z.leb_gt, Z.leb_le. lia.
Qed.

(** *** The outer merge of two frames that have each key once *)

(** The right rows a left row meets. *)
Lemma filter_key_lookup {V : Type} (right : list (Z * Z * V)) (k : Z * Z) :
  NoDup (map fst right) ->
  filter (fun r => Rel.eqb ZZ_dec (fst r) k) right
  = match lookup ZZ_dec right k with
    | Some v => [(k, v)]
    | None => []
    end.
Proof.
  induction right as [|[k' v] t IH]; intros Hnd; [reflexivity|].
  cbn [map fst] in Hnd. apply NoDup_cons_iff in Hnd. destruct Hnd as [Hnotin Hnd].
  cbn [filter lookup fst]. unfold Rel.eqb at 1.
  destruct (ZZ_dec k' k) as [->|Hne].
  - rewrite (IH Hnd), (lookup_None ZZ_dec t k Hnotin). reflexivity.
  - apply IH. exact Hnd.
Qed.

(** With each key once on the right, a left row gives one row. *)
Lemma merge_outer_unique {L R : Type} (left : list (Z * Z * L)) (right : list (Z * Z * R)) :
  NoDup (map fst right) ->
  merge_outer left right
  = Rel.sort (fun a b => ZZ_leb (fst a) (fst b))
      (map (fun l => (fst l, (Some (snd l), lookup ZZ_dec right (fst l)))) left
       ++ map (fun r => (fst r, (None, Some (snd r))))
              (filter (fun r => negb (Rel.mem ZZ_dec (fst r) (map fst left))) right)).
Proof.
  intros Hnd. unfold merge_outer. f_equal. f_equal.
  - induction left as [|l t IH]; [reflexivity|].
    cbn [flat_map]. rewrite IH. rewrite (filter_key_lookup right (fst l) Hnd).
    cbn [map]. destruct (lookup ZZ_dec right (fst l)); reflexivity.
  - clear Hnd. induction right as [|r t IH]; [reflexivity|].
    cbn [flat_map filter]. rewrite IH.
    destruct (Rel.mem ZZ_dec (fst r) (map fst left)); reflexivity.
Qed.

(** The rows of the merge: one for each key of either side, with what each
    side has at the key. *)
Lemma merge_outer_In {L R : Type} (left : list (Z * Z * L)) (right : list (Z * Z * R))
      (x : Z * Z * (option L * option R)) :
  NoDup (map fst left) -> NoDup (map fst right) ->
  In x (merge_outer left right)
  <-> (In (fst x) (map fst left) \/ In (fst x) (map fst right))
      /\ snd x = (lookup ZZ_dec left (fst x), lookup ZZ_dec right (fst x)).
Proof.
  intros Hl Hr. rewrite (merge_outer_unique left right Hr).
  rewrite Rel.sort_In, in_app_iff. split.
  - intros [Hin|Hin]; apply in_map_iff in Hin; destruct Hin as [[k v] [<- Hin]];
      cbn [fst snd].
    + split; [left; apply (in_map fst) in Hin; exact Hin|].
      rewrite (lookup_NoDup_In ZZ_dec left k v Hl Hin). reflexivity.
    + apply filter_In in Hin. destruct Hin as [Hin Hno]. cbn [fst] in Hno.
      apply negb_true_iff, Rel.mem_false in Hno.
      split; [right; apply (in_map fst) in Hin; exact Hin|].
      rewrite (lookup_None ZZ_dec left k Hno).
      rewrite (lookup_NoDup_In ZZ_dec right k v Hr Hin). reflexivity.
  - destruct x as [k [l r]]. cbn [fst snd]. intros [Hk E]. injection E as -> ->.
    destruct (Rel.mem ZZ_dec k (map fst left)) eqn:Em.
    + left. apply Rel.mem_true in Em. apply in_map_iff in Em.
      destruct Em as [[k' v] [Ek Hin]]. cbn [fst] in Ek. subst k'.
      apply in_map_iff. exists (k, v). split; [|exact Hin]. cbn [fst snd].
      rewrite (lookup_NoDup_In ZZ_dec left k v Hl Hin). reflexivity.
    + right. pose proof Em as Hno. apply Rel.mem_false in Hno.
      destruct Hk as [Hk|Hk]; [contradiction|].
      apply in_map_iff in Hk. destruct Hk as [[k' v] [Ek Hin]]. cbn [fst] in Ek. subst k'.
      apply in_map_iff. exists (k, v). split.
      * cbn [fst snd]. rewrite (lookup_None ZZ_dec left k Hno).
        rewrite (lookup_NoDup_In ZZ_dec right k v Hr Hin). reflexivity.
      * apply filter_In. split; [exact Hin|]. cbn [fst]. rewrite Em. reflexivity.
Qed.

(** The rows a filter keeps still have each key once. *)
Lemma kept_keys_NoDup {V : Type} (keep : Z * Z * V -> bool) (rows : list (Z * Z * V)) :
  NoDup (map fst rows) -> NoDup (map fst (filter keep rows)).
Proof.
  intros Hnd. induction rows as [|row rest IH]; [constructor|].
  cbn [map] in Hnd. apply NoDup_cons_iff in Hnd. destruct Hnd as [Hfresh Hrest].
  cbn [filter]. destruct (keep row); [|exact (IH Hrest)].
  cbn [map]. apply NoDup_cons; [|exact (IH Hrest)].
  rewrite in_map_iff. intros [other [Ekey Hkept]].
  apply filter_In in Hkept. apply Hfresh. rewrite <- Ekey.
  apply in_map. exact (proj1 Hkept).
Qed.

Lemma merge_outer_NoDup {L R : Type} (left : list (Z * Z * L)) (right : list (Z * Z * R)) :
  NoDup (map fst left) -> NoDup (map fst right) ->
  NoDup (map fst (merge_outer left right)).
Proof.
  intros Hl Hr. rewrite (merge_outer_unique left right Hr).
  eapply Permutation_NoDup; [apply Permutation_map; symmetry; apply Rel.sort_perm|].
  rewrite map_app, !map_map. cbn [fst].
  apply NoDup_app.
  - exact Hl.
  - apply kept_keys_NoDup. exact Hr.
  - intros k Hk Hin. apply in_map_iff in Hin. destruct Hin as [r [<- Hin]].
    apply filter_In in Hin. destruct Hin as [_ Hno].
    apply negb_true_iff, Rel.mem_false in Hno. contradiction.
Qed.

Lemma Sorted_map_fst {A B : Type} (leb : A -> A -> bool) (l : list (A * B)) :
  Sorted (fun a b => leb (fst a) (fst b) = true) l ->
  Sorted (fun a b => leb a b = true) (map fst l).
Proof.
  intros H. induction H as [|a t Ht IH Hhd]; cbn [map]; constructor; [exact IH|].
  destruct Hhd as [|b t' Hab]; cbn [map]; constructor. exact Hab.
Qed.

Lemma merge_outer_sorted {L R : Type} (left : list (Z * Z * L)) (right : list (Z * Z * R)) :
  Sorted (fun a b => ZZ_leb a b = true) (map fst (merge_outer left right)).
Proof.
  apply Sorted_map_fst. unfold merge_outer.
  apply (Rel.sort_sorted (fun a b : Z * Z * (option L * option R) => ZZ_leb (fst a) (fst b))).
  intros x y. apply ZZ_leb_total.
Qed.

Lemma merge_outer_fillna_keys (review_agg : list (Z * Z * (Z * option Q)))
      (checkin_agg : list (Z * Z * Z)) :
  map (fun row => (fp_business_key row, fp_date_key row))
      (merge_outer_fillna review_agg checkin_agg)
  = map fst (merge_outer review_agg checkin_agg).
Proof.
  unfold merge_outer_fillna. rewrite map_map. cbn [fp_business_key fp_date_key].
  rewrite <- (keys_from_1_snd (merge_outer review_agg checkin_agg)) at 2.
  rewrite map_map. apply map_ext. intros [n [[b d] v]]. reflexivity.
Qed.

(** A row of the filled merge, from what each aggregate has at its key. *)
Lemma merge_outer_fillna_In (review_agg : list (Z * Z * (Z * option Q)))
      (checkin_agg : list (Z * Z * Z)) (row : performance_row) :
  NoDup (map fst review_agg) -> NoDup (map fst checkin_agg) ->
  In row (merge_outer_fillna review_agg checkin_agg) ->
  let k := (fp_business_key row, fp_date_key row) in
  (In k (map fst review_agg) \/ In k (map fst checkin_agg))
  /\ fp_review_count row = coalesce (option_map fst (lookup ZZ_dec review_agg k)) 0
  /\ average_stars row = coalesce (bind_opt (lookup ZZ_dec review_agg k) snd) 0%Q
  /\ checkin_count row = coalesce (lookup ZZ_dec checkin_agg k) 0.
Proof.
  intros Hl Hr Hin. unfold merge_outer_fillna in Hin. apply in_map_iff in Hin.
  destruct Hin as [[n x] [<- Hx]].
  unfold keys_from_1 in Hx. apply in_combine_r in Hx.
  apply (merge_outer_In review_agg checkin_agg x Hl Hr) in Hx.
  destruct Hx as [Hk E]. destruct x as [[b d] [r c]]. cbn [fst snd] in *.
  injection E as -> ->. repeat split. exact Hk.
Qed.

(** X6, the union of the aggregates in this pipeline, by business and date
    and for two sources.  [pd.merge] pairs every left row with every right
    row of its key; when each aggregate has a key once, as [groupby] leaves
    them, the fact table has a row for a key exactly when the review
    aggregate or the checkin aggregate has the key, one row per key, with
    the counts the aggregates have at the key, and a count whose aggregate
    lacks the key is 0. *)
Theorem investors_fact_is_union_with_defaults
        (review_agg : list (Z * Z * (Z * option Q))) (checkin_agg : list (Z * Z * Z)) :
  NoDup (map fst review_agg) -> NoDup (map fst checkin_agg) ->
  (forall k, (exists row, In row (merge_outer_fillna review_agg checkin_agg)
                          /\ (fp_business_key row, fp_date_key row) = k)
             <-> In k (map fst review_agg) \/ In k (map fst checkin_agg))
  /\ NoDup (map (fun row => (fp_business_key row, fp_date_key row))
                (merge_outer_fillna review_agg checkin_agg))
  /\ (forall row, In row (merge_outer_fillna review_agg checkin_agg) ->
        fp_review_count row
        = coalesce (option_map fst
                      (lookup ZZ_dec review_agg (fp_business_key row, fp_date_key row))) 0
        /\ checkin_count row
           = coalesce (lookup ZZ_dec checkin_agg (fp_business_key row, fp_date_key row)) 0
        /\ (~ In (fp_business_key row, fp_date_key row) (map fst review_agg) ->
            fp_review_count row = 0 /\ average_stars row = 0%Q)
        /\ (~ In (fp_business_key row, fp_date_key row) (map fst checkin_agg) ->
            checkin_count row = 0)).
Proof.
  intros Hl Hr. split; [|split].
  - intros k. split.
    + intros [row [Hin <-]].
      apply (merge_outer_fillna_In review_agg checkin_agg row Hl Hr Hin).
    + intros Hk.
      assert (Hx : In (k, (lookup ZZ_dec review_agg k, lookup ZZ_dec checkin_agg k))
                      (merge_outer review_agg checkin_agg)).
      { apply (merge_outer_In review_agg checkin_agg _ Hl Hr). cbn [fst snd]. auto. }
      apply (in_map fst) in Hx. cbn [fst] in Hx.
      rewrite <- merge_outer_fillna_keys in Hx. apply in_map_iff in Hx.
      destruct Hx as [row [E Hin]]. exists row. auto.
  - rewrite merge_outer_fillna_keys. apply merge_outer_NoDup; assumption.
  - intros row Hin.
    destruct (merge_outer_fillna_In review_agg checkin_agg row Hl Hr Hin)
      as [_ [Hrc [Has Hcc]]].
    split; [exact Hrc|]. split; [exact Hcc|]. split.
    + intros Hno. rewrite Hrc, Has.
      rewrite (lookup_None ZZ_dec review_agg _ Hno). split; reflexivity.
    + intros Hno. rewrite Hcc.
      rewrite (lookup_None ZZ_dec checkin_agg _ Hno). reflexivity.
Qed.

(** *** Dim_Category in the run *)

Lemma fillna_categories_of (b : Business.t) :
  Business.categories (fillna_categories b) = Some (coalesce (Business.categories b) "").
Proof. reflexivity. Qed.

(** X7, [Dim_Category] of this pipeline: after the category build of [main]
    the labels of [Dim_Category] are the pieces, as split on comma-space, of
    the category strings of the businesses, the empty pieces left out; no
    label has two rows; and the keys are 1, 2, ... in the order of the rows. *)
Theorem investors_dim_category_labels (df_business_raw : list Business.t) :
  let dim := dim_category_of (map fillna_categories df_business_raw) in
  (forall o, In o (map category_name dim)
             <-> exists c, o = Some c /\ c <> ""
                           /\ exists b s, In b df_business_raw
                                          /\ Business.categories b = Some s
                                          /\ In c (Str.split_comma_space s))
  /\ NoDup (map category_name dim)
  /\ map category_key dim = map Z.of_nat (seq 1 (List.length dim)).
Proof.
  intros dim.
  assert (Hnames : map category_name dim
                   = unique_categories (map fillna_categories df_business_raw)).
  { unfold dim, dim_category_of. rewrite map_map. cbn [category_name].
    rewrite <- (keys_from_1_snd (unique_categories _)) at 2. reflexivity. }
  split; [|split].
  - intros o. rewrite Hnames. unfold unique_categories.
    rewrite Rel.distinct_In, filter_In, negb_true_iff, Rel.eqb_false. split.
    + intros [Hin Hne]. destruct o as [c|].
      * apply split_explode_In in Hin. destruct Hin as [s [Hs Hc]].
        rewrite map_map in Hs. apply in_map_iff in Hs. destruct Hs as [b [Eb Hb]].
        rewrite fillna_categories_of in Eb. injection Eb as Eb.
        exists c. split; [reflexivity|]. split; [congruence|].
        destruct (Business.categories b) as [s'|] eqn:Es; simpl in Eb.
        -- subst s'. exists b, s. auto.
        -- subst s. simpl in Hc. destruct Hc as [<-|[]]. congruence.
      * exfalso. unfold split_explode in Hin. apply in_flat_map in Hin.
        destruct Hin as [[s|] [Hs Hin]].
        -- apply in_map_iff in Hin. destruct Hin as [p [E _]]. discriminate.
        -- rewrite map_map in Hs. apply in_map_iff in Hs.
           destruct Hs as [b [Eb _]]. rewrite fillna_categories_of in Eb. discriminate.
    + intros [c [-> [Hne [b [s [Hb [Es Hc]]]]]]]. split; [|congruence].
      apply split_explode_In. exists s. split; [|exact Hc].
      rewrite map_map. apply in_map_iff. exists b. split; [|exact Hb].
      rewrite fillna_categories_of, Es. reflexivity.
  - rewrite Hnames. apply Rel.distinct_NoDup.
  - unfold dim, dim_category_of. rewrite map_map. cbn [category_key].
    rewrite length_map.
    assert (Hlen : List.length (keys_from_1 (unique_categories
                                               (map fillna_categories df_business_raw)))
                   = List.length (unique_categories (map fillna_categories df_business_raw))).
    { rewrite <- (keys_from_1_snd (unique_categories _)) at 2.
      rewrite length_map. reflexivity. }
    rewrite Hlen. apply keys_from_1_fst.
Qed.

(** *** Dim_Location and Dim_Business *)


(** In a keyed list of values that differ, a value is found once. *)
Lemma filter_combine_NoDup {K V : Type} (V_dec : forall x y : V, {x = y} + {x <> y})
      (ks : list K) (vs : list V) (x : V) :
  NoDup vs -> List.length ks = List.length vs -> In x vs ->
  exists k, filter (fun kv => Rel.eqb V_dec x (snd kv)) (combine ks vs) = [(k, x)].
Proof.
  intros Hnd. revert ks. induction Hnd as [|v t Hnotin Hnd IH]; intros ks Hlen Hin;
    [destruct Hin|].
  destruct ks as [|k ks]; [discriminate|]. cbn [combine filter snd].
  destruct (V_dec x v) as [->|Hne].
  - rewrite Rel.eqb_refl. exists k. f_equal.
    apply Rel.filter_none. intros [k' v'] Hkv. apply Rel.eqb_false. cbn [snd].
    intros ->. apply Hnotin. apply in_combine_r in Hkv. exact Hkv.
  - assert (E : Rel.eqb V_dec x v = false) by (apply Rel.eqb_false; exact Hne).
    rewrite E. apply IH.
    + simpl in Hlen. lia.
    + destruct Hin as [->|Hin]; [contradiction|exact Hin].
Qed.

Lemma keys_from_1_length {A : Type} (l : list A) :
  List.length (keys_from_1 l) = List.length l.
Proof.
  unfold keys_from_1. rewrite length_combine, length_map, length_seq. lia.
Qed.

(** The location of a business has one row in [Dim_Location]. *)
Lemma location_match (df_business : list Business.t) (b : Business.t) :
  In (location_of b) (map location_of df_business) ->
  exists k,
    filter (fun l => Rel.eqb location_dec (location_of b) (loc l))
           (dim_location_of df_business)
    = [mk_location_row k (location_of b)].
Proof.
  intros Hin. unfold dim_location_of, keys_from_1.
  rewrite Rel.filter_map_comm. cbn [loc].
  destruct (filter_combine_NoDup location_dec
              (map (fun i => Z.of_nat i)
                   (seq 1 (List.length
                             (Rel.distinct location_dec (map location_of df_business)))))
              (Rel.distinct location_dec (map location_of df_business))
              (location_of b)) as [k Hk].
  - apply Rel.distinct_NoDup.
  - rewrite length_map, length_seq. reflexivity.
  - apply Rel.distinct_In. exact Hin.
  - exists k. rewrite Hk. reflexivity.
Qed.

(** The left merge with [Dim_Location] keeps the businesses as they come,
    each with the row of its location. *)
Lemma merge_with_locations (df_business df_located : list Business.t) :
  (forall b, In b df_business -> In (location_of b) (map location_of df_located)) ->
  Forall2 (fun b j => fst j = b
                      /\ exists k, snd j = Some (mk_location_row k (location_of b))
                                   /\ In (mk_location_row k (location_of b))
                                         (dim_location_of df_located))
          df_business
          (Rel.left_join (fun b l => Rel.eqb location_dec (location_of b) (loc l))
                         df_business (dim_location_of df_located)).
Proof.
  induction df_business as [|b t IH]; intros H; [constructor|].
  unfold Rel.left_join. cbn [flat_map].
  destruct (location_match df_located b (H b (or_introl eq_refl))) as [k Hk].
  rewrite Hk. cbn [map app]. constructor.
  - split; [reflexivity|]. exists k. split; [reflexivity|].
    assert (Hin : In (mk_location_row k (location_of b))
                     (filter (fun l => Rel.eqb location_dec (location_of b) (loc l))
                             (dim_location_of df_located)))
      by (rewrite Hk; left; reflexivity).
    apply filter_In in Hin. exact (proj1 Hin).
  - apply IH. intros x Hx. apply H. right. exact Hx.
Qed.


Lemma location_of_fillna (b : Business.t) :
  location_of (fillna_categories b) = location_of b.
Proof. reflexivity. Qed.

Lemma merge_in_main (df_business_raw : list Business.t) :
  Forall2 (fun b j => fst j = b
                      /\ exists k, snd j = Some (mk_location_row k (location_of b))
                                   /\ In (mk_location_row k (location_of b))
                                         (dim_location_of df_business_raw))
          (map fillna_categories df_business_raw)
          (Rel.left_join (fun b l => Rel.eqb location_dec (location_of b) (loc l))
                         (map fillna_categories df_business_raw)
                         (dim_location_of df_business_raw)).
Proof.
  apply merge_with_locations. intros b Hb. apply in_map_iff in Hb.
  destruct Hb as [b0 [<- Hb0]]. rewrite location_of_fillna. apply in_map. exact Hb0.
Qed.


Lemma combine_nth_error {A B : Type} (ks : list A) (l : list B) (i : nat) (k : A)
      (a : B) :
  nth_error ks i = Some k -> nth_error l i = Some a ->
  nth_error (combine ks l) i = Some (k, a).
Proof.
  revert l i. induction ks as [|x t IH]; intros l i Hk Hi; [destruct i; discriminate|].
  destruct l as [|y l]; [destruct i; discriminate|].
  destruct i as [|i]; simpl in *.
  - congruence.
  - apply IH; assumption.
Qed.

Lemma keys_from_1_nth {A : Type} (l : list A) (i : nat) (a : A) :
  nth_error l i = Some a ->
  nth_error (keys_from_1 l) i = Some (Z.of_nat (S i), a).
Proof.
  intros Hi. unfold keys_from_1.
  assert (Hlt : (i < List.length l)%nat) by (apply nth_error_Some; congruence).
  apply combine_nth_error; [|exact Hi].
  rewrite nth_error_map.
  rewrite (nth_error_nth' _ 0%nat) by (rewrite length_seq; exact Hlt).
  rewrite seq_nth by exact Hlt. reflexivity.
Qed.

Lemma Forall2_nth {A B : Type} (P : A -> B -> Prop) (l : list A) (l' : list B)
      (i : nat) (a : A) :
  Forall2 P l l' -> nth_error l i = Some a ->
  exists b, nth_error l' i = Some b /\ P a b.
Proof.
  intros H. revert i. induction H as [|x y l l' Hxy _ IH]; intros i Hi;
    [destruct i; discriminate|].
  destruct i as [|i]; simpl in *.
  - injection Hi as <-. exists y. auto.
  - apply IH. exact Hi.
Qed.

(** X17: [Dim_Location] has one row per distinct location, keyed 1, 2, ...;
    and in the run of [main], [Dim_Business] has one row per business
    record, at the record's place and keyed by that place counted from 1,
    with the record's id, name, address, stars, review count and open flag,
    and with a [location_key] that is not null and is the key of the
    [Dim_Location] row of the record's own location: the left merge on the
    five location columns finds one row for every business. *)
Theorem investors_business_rows_refer_to_their_location
        (df_business_raw : list Business.t) :
  let dim_location := dim_location_of df_business_raw in
  let dim_business :=
    dim_business_of (map fillna_categories df_business_raw) dim_location in
  NoDup (map loc dim_location)
  /\ map location_key dim_location
     = map Z.of_nat (seq 1 (List.length dim_location))
  /\ List.length dim_business = List.length df_business_raw
  /\ forall i b,
      nth_error df_business_raw i = Some b ->
      exists row k,
        nth_error dim_business i = Some row
        /\ business_key row = Z.of_nat (S i)
        /\ business_nk row = Business.business_id b
        /\ name row = Business.name b
        /\ address row = Business.address b
        /\ stars row = Business.stars b
        /\ review_count row = Business.review_count b
        /\ is_open row = Business.is_open b
        /\ br_location_key row = Some k
        /\ In (mk_location_row k (location_of b)) dim_location.
Proof.
  intros dim_location dim_business. subst dim_business dim_location.
  pose proof (merge_in_main df_business_raw) as Hmerge.
  split; [|split; [|split]].
  - unfold dim_location_of. rewrite map_map. cbn [loc].
    rewrite keys_from_1_snd. apply Rel.distinct_NoDup.
  - unfold dim_location_of. rewrite map_map, length_map. cbn [location_key].
    rewrite keys_from_1_length. apply keys_from_1_fst.
  - unfold dim_business_of. rewrite length_map, keys_from_1_length.
    rewrite <- (Forall2_length Hmerge). apply length_map.
  - intros i b Hi.
    assert (Hf : nth_error (map fillna_categories df_business_raw) i
                 = Some (fillna_categories b))
      by (rewrite nth_error_map, Hi; reflexivity).
    destruct (Forall2_nth _ _ _ i _ Hmerge Hf) as [j [Hj [Hfst [k [Hsnd Hk]]]]].
    pose proof (keys_from_1_nth _ i j Hj) as Hkey.
    eexists. exists k. split.
    + unfold dim_business_of. rewrite nth_error_map, Hkey. reflexivity.
    + cbn [business_key business_nk name address stars review_count is_open
           br_location_key fst snd].
      rewrite Hfst, Hsnd. cbn [option_map location_key].
      repeat split. exact Hk.
Qed.

(** *** How a run of [main] ends *)




Lemma create_dim_date_bad_date (df_review : list Review.t) (df_checkin : list Checkin.t)
      (r : Review.t) (s : string) :
  In r df_review -> Review.date r = Some s -> to_datetime s = None ->
  create_dim_date df_review df_checkin = Raise ValueError.
Proof.
  intros Hin Hs Hbad. unfold create_dim_date.
  rewrite (to_datetime_raise_on_bad_date (map Review.date df_review) s).
  - reflexivity.
  - rewrite <- Hs. apply in_map. exact Hin.
  - exact Hbad.
Qed.







(** Some review date is no date, as [pd.to_datetime] reads the review
    dates. *)
Definition unparsed_review_date (df_review : list Review.t) : bool :=
  existsb (fun o => match bind_opt o (parser_of (map Review.date df_review)) with
                    | Some _ => false
                    | None => is_some o
                    end)
          (map Review.date df_review).





(** *** The keys of the performance fact *)

Lemma keyed_In {R : Type} (rows : list R) (business_keys date_keys : list (option Z))
      (r : R) (k : Z * Z) :
  In (r, k) (keyed rows business_keys date_keys) ->
  In (Some (fst k)) business_keys /\ In (Some (snd k)) date_keys.
Proof.
  unfold keyed. rewrite in_flat_map. intros [[r' [bk dk]] [Hin Hk]].
  cbn [fst snd] in Hk.
  destruct (both_keys (bk, dk)) as [k'|] eqn:E; [|destruct Hk].
  destruct Hk as [Hk|[]]. injection Hk as <- <-.
  destruct k' as [b d]. apply both_keys_Some in E. injection E as -> ->.
  apply in_combine_r in Hin. split.
  - apply in_combine_l in Hin. exact Hin.
  - apply in_combine_r in Hin. exact Hin.
Qed.

Lemma groupby_keys_In {R V : Type} (key : R -> Z * Z) (agg : list R -> V)
      (rows : list R) (k : Z * Z) :
  In k (map fst (groupby_keys key agg rows)) <-> In k (map key rows).
Proof.
  unfold groupby_keys. split.
  - intros H. apply in_map_iff in H. destruct H as [x [<- Hx]].
    apply Rel.sort_In in Hx. apply (in_map fst) in Hx.
    rewrite Rel.group_by_keys in Hx. apply Rel.distinct_In in Hx. exact Hx.
  - intros H. apply (Rel.distinct_In ZZ_dec) in H.
    rewrite <- (Rel.group_by_keys ZZ_dec key agg) in H.
    apply in_map_iff in H. destruct H as [x [<- Hx]].
    apply in_map. apply Rel.sort_In. exact Hx.
Qed.

Lemma groupby_keys_NoDup {R V : Type} (key : R -> Z * Z) (agg : list R -> V)
      (rows : list R) :
  NoDup (map fst (groupby_keys key agg rows)).
Proof.
  unfold groupby_keys.
  eapply Permutation_NoDup.
  - apply Permutation_map. symmetry. apply Rel.sort_perm.
  - rewrite Rel.group_by_keys. apply Rel.distinct_NoDup.
Qed.

Lemma mapped_key_In {K : Type} (K_dec : forall x y : K, {x = y} + {x <> y})
      (mapper : list (K * Z)) (values : list K) (v : Z) :
  In (Some v) (map (lookup K_dec mapper) values) -> In v (map snd mapper).
Proof.
  intros H. apply in_map_iff in H. destruct H as [k [Hk _]].
  apply lookup_In in Hk. apply (in_map snd) in Hk. exact Hk.
Qed.

(** X19: when the fact build returns, [performance_key] numbers the rows 1,
    2, ...; the rows come by ([business_key], [date_key]), no pair twice;
    every [business_key] is the key of a row of the [Dim_Business] it was
    given and every [date_key] the key of a row of its [Dim_Date]; and the
    two counts are not negative. *)
Theorem investors_performance_fact_keys
        (df_review : list Review.t) (df_checkin : list Checkin.t)
        (df_dim_business : list business_row) (df_dim_date : list date_row)
        (rows : list performance_row) :
  create_fact_business_performance df_review df_checkin df_dim_business df_dim_date
  = Ok rows ->
  map performance_key rows = map Z.of_nat (seq 1 (List.length rows))
  /\ Sorted (fun a b => ZZ_leb a b = true)
            (map (fun row => (fp_business_key row, fp_date_key row)) rows)
  /\ NoDup (map (fun row => (fp_business_key row, fp_date_key row)) rows)
  /\ forall row, In row rows ->
       (exists b, In b df_dim_business /\ business_key b = fp_business_key row)
       /\ (exists d, In d df_dim_date /\ date_key d = fp_date_key row)
       /\ 0 <= fp_review_count row /\ 0 <= checkin_count row.
Proof.
  unfold create_fact_business_performance.
  destruct (to_datetime_raise (map Review.date df_review)) as [rev_dates|e];
    [|discriminate].
  cbn [bind_result].
  match goal with
  | |- bind_result ?x _ = _ -> _ => destruct x as [rev_bk|e] eqn:Erb; [|discriminate]
  end.
  cbn [bind_result].
  match goal with
  | |- bind_result ?x _ = _ -> _ => destruct x as [rev_dk|e] eqn:Erd; [|discriminate]
  end.
  cbn [bind_result].
  match goal with
  | |- bind_result ?x _ = _ -> _ => destruct x as [chk_bk|e] eqn:Ecb; [|discriminate]
  end.
  cbn [bind_result].
  match goal with
  | |- bind_result ?x _ = _ -> _ => destruct x as [chk_dk|e] eqn:Ecd; [|discriminate]
  end.
  cbn [bind_result].
  apply series_map_Ok in Erb, Erd, Ecb, Ecd.
  intros E. injection E as <-.
  match goal with
  | |- context [merge_outer_fillna ?ra ?ca] =>
      set (review_agg := ra); set (checkin_agg := ca)
  end.
  assert (Hra : NoDup (map fst review_agg)) by apply groupby_keys_NoDup.
  assert (Hca : NoDup (map fst checkin_agg)) by apply groupby_keys_NoDup.
  split; [|split; [|split]].
  - unfold merge_outer_fillna. rewrite map_map, length_map. cbn [performance_key].
    rewrite keys_from_1_length. apply keys_from_1_fst.
  - rewrite merge_outer_fillna_keys. apply merge_outer_sorted.
  - rewrite merge_outer_fillna_keys. apply merge_outer_NoDup; assumption.
  - intros row Hrow.
    destruct (merge_outer_fillna_In review_agg checkin_agg row Hra Hca Hrow)
      as [Hkey [Hrc [_ Hcc]]].
    assert (Hk : (In (Some (fp_business_key row)) rev_bk
                  /\ In (Some (fp_date_key row)) rev_dk)
                 \/ (In (Some (fp_business_key row)) chk_bk
                     /\ In (Some (fp_date_key row)) chk_dk)).
    { destruct Hkey as [Hkey|Hkey]; apply groupby_keys_In in Hkey;
        apply in_map_iff in Hkey; destruct Hkey as [[r k] [Ek Hin]];
        cbn [snd] in Ek; subst k; apply keyed_In in Hin; cbn [fst snd] in Hin; auto. }
    assert (Hb : In (fp_business_key row) (map business_key df_dim_business)).
    { destruct Hk as [[H _]|[H _]]; [rewrite Erb in H|rewrite Ecb in H];
        apply mapped_key_In in H; rewrite map_map in H; exact H. }
    assert (Hd : In (fp_date_key row) (map date_key df_dim_date)).
    { destruct Hk as [[_ H]|[_ H]]; [rewrite Erd in H|rewrite Ecd in H];
        apply mapped_key_In in H; rewrite map_map in H; exact H. }
    apply in_map_iff in Hb, Hd.
    destruct Hb as [b [Eb Hb]], Hd as [d [Ed Hd]].
    split; [exists b; auto|]. split; [exists d; auto|].
    rewrite Hrc, Hcc. split.
    + destruct (lookup ZZ_dec review_agg _) as [[c s]|] eqn:El; cbn; [|lia].
      apply lookup_In in El. unfold review_agg, groupby_keys in El.
      apply Rel.sort_In in El.
      unfold Rel.group_by in El. apply in_map_iff in El.
      destruct El as [k' [E _]]. injection E as _ <- _. apply Rel.count_nonneg.
    + destruct (lookup ZZ_dec checkin_agg _) as [c|] eqn:El; cbn; [|lia].
      apply lookup_In in El. unfold checkin_agg, groupby_keys in El.
      apply Rel.sort_In in El.
      unfold Rel.group_by in El. apply in_map_iff in El.
      destruct El as [k' [E _]]. injection E as _ <-. apply Rel.count_nonneg.
Qed.

(** *** What the counts of the performance fact count *)

(** The exploded checkin time stamps, each with the [business_id] of its
    record: [df_chk_exploded] of line 187. *)
Definition checkin_pieces (df_checkin : list Checkin.t)
  : list (option string * option string) :=
  flat_map (fun c => map (fun piece => (Checkin.business_id c, piece))
                         (match Checkin.date c with
                          | Some s => map Some (Str.split_comma_space s)
                          | None => [None]
                          end)) df_checkin.


(** The series of the pieces is the one the date build parses. *)
Lemma checkin_pieces_series (df_checkin : list Checkin.t) :
  map snd (checkin_pieces df_checkin) = split_explode (map Checkin.date df_checkin).
Proof.
  unfold checkin_pieces, split_explode.
  induction df_checkin as [|c t IH]; [reflexivity|].
  cbn [flat_map map]. rewrite map_app, IH. f_equal.
  rewrite map_map. cbn [snd]. apply map_id.
Qed.









End Pipeline.

(** *** Runs on sample data *)

Import Sample.

Example main_on_sample :
  match main Date.of_iso Date.iso_format reviews checkins [cafe (Some "Bars, Bars, Cafes"); diner None] with
  | Ok (t, df) =>
      map category_name (Dim_Category t) = [Some "Bars"; Some "Cafes"]
      /\ map date_key (Dim_Date t) = [20180101; 20180105; 20180120; 20180202]
      /\ map business_nk (Dim_Business t) = [Some "b1"; Some "b2"]
      /\ Fact_Business_Categories t = [(1, 1); (1, 2)]
      /\ map (fun p => (fp_date_key p, fp_review_count p, checkin_count p))
             (Fact_Business_Performance t)
         = [(20180101, 0, 1); (20180105, 1, 0); (20180120, 1, 0); (20180202, 0, 1)]
      /\ map Business.categories df = [Some "Bars, Bars, Cafes"; Some ""]
  | Raise _ => False
  end.
Proof. vm_compute. repeat split. Qed.

(** The frame after the category build, next to the raw one. *)
Example null_categories_become_empty :
  option_map (fun r => map Business.categories (snd r))
             (match create_dim_category [diner None; cafe (Some "Bars")] with
              | Ok r => Some r
              | Raise _ => None
              end)
  = Some [Some ""; Some "Bars"].
Proof. reflexivity. Qed.

(** *** Instances of the theorems *)

Definition sample_filled : list Business.t :=
  map fillna_categories [cafe (Some "Bars, Bars, Cafes"); diner None].

Lemma investors_bridge_unique_and_referential_witness :
  fact_business_categories_of sample_filled (dim_category_of sample_filled)
    (dim_business_of sample_filled (dim_location_of sample_filled))
  = Ok [(1, 1); (1, 2)]
  /\ (NoDup [(1, 1); (1, 2)]
      /\ forall bk ck, In (bk, ck) [(1, 1); (1, 2)] ->
           (exists r, In r (dim_business_of sample_filled (dim_location_of sample_filled))
                      /\ business_key r = bk)
           /\ (exists c, In c (dim_category_of sample_filled) /\ category_key c = ck)).
Proof.
  assert (H : fact_business_categories_of sample_filled (dim_category_of sample_filled)
                (dim_business_of sample_filled (dim_location_of sample_filled))
              = Ok [(1, 1); (1, 2)]) by (vm_compute; reflexivity).
  split; [exact H|].
  exact (investors_bridge_unique_and_referential sample_filled
           (dim_category_of sample_filled)
           (dim_business_of sample_filled (dim_location_of sample_filled))
           [(1, 1); (1, 2)] H).
Defined.



(** The same dates under the two ways of parsing a series: every string on
    its own, and every string in the format of the first.  A checkin piece
    that is a date alone, after one with a time, is a date in the first
    way and none in the second; a review date of another form than the
    first is read in the first way and raises in the second. *)
Example dim_date_and_the_guessed_format :
  let stamps := [Checkin.mk (Some "b1") (Some "2018-01-01 10:00:00, 2018-02-02")] in
  let mixed := [review_on (Some "r1") "2018-01-05 09:00:00";
                review_on (Some "r2") "2018-01-20"] in
  match create_dim_date Date.of_iso (fun _ => None) reviews stamps,
        create_dim_date Date.of_iso Date.iso_format reviews stamps with
  | Ok each, Ok first =>
      map date_key each = [20180101; 20180105; 20180120; 20180202]
      /\ map date_key first = [20180101; 20180105; 20180120]
  | _, _ => False
  end
  /\ match create_dim_date Date.of_iso (fun _ => None) mixed stamps with
     | Ok each => map date_key each = [20180101; 20180105; 20180120; 20180202]
     | Raise _ => False
     end
  /\ create_dim_date Date.of_iso Date.iso_format mixed stamps = Raise ValueError.
Proof. vm_compute. repeat split. Qed.

Example merge_outer_on_sample :
  map (fun row => (fp_business_key row, fp_date_key row, fp_review_count row,
                   checkin_count row))
      (merge_outer_fillna [((1, 20180105), (2, Some 5%Q))] [((1, 20180101), 3)])
  = [(1, 20180101, 0, 3); (1, 20180105, 2, 0)].
Proof. reflexivity. Qed.

(** A key that a frame has twice is paired twice. *)
Example merge_outer_repeats_a_repeated_key :
  merge_outer [((1, 20180105), 2); ((1, 20180105), 7)] [((1, 20180105), 3)]
  = [((1, 20180105), (Some 2, Some 3)); ((1, 20180105), (Some 7, Some 3))].
Proof. reflexivity. Qed.

Definition sample_review_agg : list (Z * Z * (Z * option Q)) :=
  [((1, 20180105), (2, Some 5%Q)); ((2, 20180105), (1, None))].

Definition sample_checkin_agg : list (Z * Z * Z) :=
  [((1, 20180101), 3); ((1, 20180105), 1)].

Lemma sample_review_agg_keys : NoDup (map fst sample_review_agg).
Proof.
  constructor; [intros [H|[]]; discriminate H|].
  constructor; [intros []|constructor].
Defined.

Lemma sample_checkin_agg_keys : NoDup (map fst sample_checkin_agg).
Proof.
  constructor; [intros [H|[]]; discriminate H|].
  constructor; [intros []|constructor].
Defined.

Lemma investors_fact_is_union_with_defaults_witness :
  NoDup (map fst sample_review_agg) /\ NoDup (map fst sample_checkin_agg)
  /\ map (fun row => (fp_business_key row, fp_date_key row, fp_review_count row,
                      checkin_count row))
         (merge_outer_fillna sample_review_agg sample_checkin_agg)
     = [(1, 20180101, 0, 3); (1, 20180105, 2, 1); (2, 20180105, 1, 0)]
  /\ ((forall k, (exists row, In row (merge_outer_fillna sample_review_agg
                                                         sample_checkin_agg)
                              /\ (fp_business_key row, fp_date_key row) = k)
                 <-> In k (map fst sample_review_agg) \/ In k (map fst sample_checkin_agg))
      /\ NoDup (map (fun row => (fp_business_key row, fp_date_key row))
                    (merge_outer_fillna sample_review_agg sample_checkin_agg))
      /\ (forall row, In row (merge_outer_fillna sample_review_agg sample_checkin_agg) ->
            fp_review_count row
            = coalesce (option_map fst
                          (lookup ZZ_dec sample_review_agg
                                  (fp_business_key row, fp_date_key row))) 0
            /\ checkin_count row
               = coalesce (lookup ZZ_dec sample_checkin_agg
                                  (fp_business_key row, fp_date_key row)) 0
            /\ (~ In (fp_business_key row, fp_date_key row) (map fst sample_review_agg) ->
                fp_review_count row = 0 /\ average_stars row = 0%Q)
            /\ (~ In (fp_business_key row, fp_date_key row) (map fst sample_checkin_agg) ->
                checkin_count row = 0))).
Proof.
  split; [exact sample_review_agg_keys|]. split; [exact sample_checkin_agg_keys|].
  split; [reflexivity|].
  exact (investors_fact_is_union_with_defaults sample_review_agg sample_checkin_agg
           sample_review_agg_keys sample_checkin_agg_keys).
Defined.

(** C8, the failing run: a review whose date is no date.  [pd.to_datetime]
    of line 168 raises out of [create_fact_business_performance], and the
    run of [main] ends on the [ValueError] of line 77; the same string in a
    checkin list, parsed with [errors='coerce'], costs only its piece. *)
Theorem unparsable_review_date_raises :
  create_fact_business_performance Date.of_iso Date.iso_format
    [review_on (Some "r1") "2018-01-05 09:00:00"; review_on (Some "r2") "not a date"]
    checkins
    (dim_business_of [cafe None] (dim_location_of [cafe None])) []
  = Raise ValueError
  /\ main Date.of_iso Date.iso_format
       [review_on (Some "r1") "2018-01-05 09:00:00"; review_on (Some "r2") "not a date"]
       checkins [cafe None]
     = Raise ValueError
  /\ match main Date.of_iso Date.iso_format [review_on (Some "r1") "2018-01-05 09:00:00"]
                [Checkin.mk (Some "b1") (Some "2018-01-01 10:00:00, not a date")]
                [cafe None] with
     | Ok (t, _) =>
         map (fun p => (fp_date_key p, fp_review_count p, checkin_count p))
             (Fact_Business_Performance t)
         = [(20180101, 0, 1); (20180105, 1, 0)]
     | Raise _ => False
     end.
Proof. repeat split; vm_compute; reflexivity. Qed.


(** Two lines of the business file with one [business_id]: the key map has
    a label twice and [Series.map] raises. *)
Example duplicate_business_id_raises :
  main Date.of_iso Date.iso_format reviews checkins [cafe (Some "Bars"); cafe (Some "Cafes")]
  = Raise InvalidIndexError.
Proof. vm_compute. reflexivity. Qed.

(** Only the empty string is filtered, so the string "null" is a label. *)
Lemma investors_keep_the_null_label :
  map category_name (dim_category_of [cafe (Some "null, Bars")])
  = [Some "null"; Some "Bars"].
Proof. vm_compute. reflexivity. Qed.

(** No review is read for [Dim_Business]: [review_count] of
    [Dim_Business] is the field of the business record, whatever the review
    file holds, and null when the record has none. *)
Lemma investors_copy_the_review_count :
  map (fun r => (business_nk r, review_count r))
      (dim_business_of [cafe None; diner None] (dim_location_of [cafe None; diner None]))
  = [(Some "b1", Some 7); (Some "b2", None)].
Proof. vm_compute. reflexivity. Qed.

(** *** The further properties, on the sample data *)

Definition sample_businesses : list Business.t :=
  [cafe (Some "Bars, Bars, Cafes"); diner None].


(** The five ways a run ends, each on its input. *)
Example run_outcomes :
  run Date.of_iso Date.iso_format [] reviews checkins = Raise KeyError
  /\ run Date.of_iso Date.iso_format sample_businesses [] checkins = Raise KeyError
  /\ run Date.of_iso Date.iso_format sample_businesses
         [review_on (Some "r1") "not a date"] [] = Raise ValueError
  /\ run Date.of_iso Date.iso_format sample_businesses
         [review_on (Some "r1") "2018-01-05 09:00:00"; review_on (Some "r2") "2018-01-20"]
         checkins = Raise ValueError
  /\ run Date.of_iso (fun _ => None) sample_businesses
         [review_on (Some "r1") "2018-01-05 09:00:00"; review_on (Some "r2") "2018-01-20"]
         checkins
     = main Date.of_iso (fun _ => None)
         [review_on (Some "r1") "2018-01-05 09:00:00"; review_on (Some "r2") "2018-01-20"]
         checkins sample_businesses
  /\ run Date.of_iso Date.iso_format sample_businesses reviews [] = Raise KeyError
  /\ run Date.of_iso Date.iso_format [cafe (Some "Bars"); cafe (Some "Cafes")]
         reviews checkins = Raise InvalidIndexError
  /\ run Date.of_iso Date.iso_format sample_businesses reviews checkins
     = main Date.of_iso Date.iso_format reviews checkins sample_businesses
  /\ unparsed_review_date Date.of_iso Date.iso_format reviews = false
  /\ match run Date.of_iso Date.iso_format sample_businesses reviews checkins with
     | Ok (t, df) => map Business.categories df = [Some "Bars, Bars, Cafes"; Some ""]
     | Raise _ => False
     end.
Proof. repeat split; vm_compute; reflexivity. Qed.

(** Two records of one business, and the run stops at the bridge, the date
    dimension built; a bad review date stops it before. *)
Example main_stops_at_the_first_failure :
  main Date.of_iso Date.iso_format [review_on (Some "r1") "not a date"] checkins
       [cafe (Some "Bars"); cafe (Some "Cafes")]
  = Raise ValueError
  /\ main Date.of_iso Date.iso_format reviews checkins [cafe (Some "Bars"); cafe (Some "Cafes")]
     = Raise InvalidIndexError
  /\ main Date.of_iso Date.iso_format reviews checkins
          [Business.mk None None None None None None None None None None None None
                       None None;
           Business.mk None None None None None None None None None None None None
                       None None]
     = Raise InvalidIndexError.
Proof. repeat split; vm_compute; reflexivity. Qed.

Example business_rows_on_sample :
  map (fun r => (business_key r, business_nk r, br_location_key r))
      (dim_business_of (map fillna_categories sample_businesses)
                       (dim_location_of sample_businesses))
  = [(1, Some "b1", Some 1); (2, Some "b2", Some 1)]
  /\ map location_key (dim_location_of sample_businesses) = [1].
Proof. split; vm_compute; reflexivity. Qed.

Definition sample_dim_business : list business_row :=
  dim_business_of sample_filled (dim_location_of sample_filled).

Definition sample_dim_date : list date_row :=
  match create_dim_date Date.of_iso Date.iso_format reviews checkins with
  | Ok rows => rows
  | Raise _ => []
  end.

Definition sample_performance : list performance_row :=
  [mk_performance_row 1 1 20180101 0 0 1;
   mk_performance_row 2 1 20180105 1 5 0;
   mk_performance_row 3 1 20180120 1 5 0;
   mk_performance_row 4 1 20180202 0 0 1].

Lemma sample_performance_built :
  create_fact_business_performance Date.of_iso Date.iso_format reviews checkins sample_dim_business
                                   sample_dim_date
  = Ok sample_performance.
Proof. vm_compute. reflexivity. Defined.

Lemma investors_performance_fact_keys_witness :
  create_fact_business_performance Date.of_iso Date.iso_format reviews checkins sample_dim_business
                                   sample_dim_date
  = Ok sample_performance
  /\ (map performance_key sample_performance
      = map Z.of_nat (seq 1 (List.length sample_performance))
      /\ Sorted (fun a b => ZZ_leb a b = true)
                (map (fun row => (fp_business_key row, fp_date_key row))
                     sample_performance)
      /\ NoDup (map (fun row => (fp_business_key row, fp_date_key row))
                    sample_performance)
      /\ forall row, In row sample_performance ->
           (exists b, In b sample_dim_business /\ business_key b = fp_business_key row)
           /\ (exists d, In d sample_dim_date /\ date_key d = fp_date_key row)
           /\ 0 <= fp_review_count row /\ 0 <= checkin_count row).
Proof.
  split; [exact sample_performance_built|].
  exact (investors_performance_fact_keys Date.of_iso Date.iso_format reviews checkins
           sample_dim_business sample_dim_date sample_performance
           sample_performance_built).
Defined.


(** A review without [review_id] has its row, with the count 0. *)
Example review_without_id_has_a_row :
  option_map (map (fun p => (fp_date_key p, fp_review_count p)))
             (match create_fact_business_performance Date.of_iso Date.iso_format
                      [review_on None "2018-01-05 09:00:00"]
                      [Checkin.mk (Some "b1") (Some "2018-01-05 10:00:00")]
                      sample_dim_business sample_dim_date with
              | Ok rows => Some rows
              | Raise _ => None
              end)
  = Some [(20180105, 0)].
Proof. vm_compute. reflexivity. Qed.

End Investors.

(** ** The PySpark pipeline of [marketingETL.py] *)

Module Marketing.

Record business_row : Type := mk_business_row {
  business_id : option string;
  name : option string;
  categories : option (list string);
  city : option string;
  state : option string;
  postal_code : option string;
  latitude : option Q;
  longitude : option Q;
  is_open : option bool;
  attributes_json : option string
}.

Record user_row : Type := mk_user_row {
  user_id : option string;
  user_name : option string;
  yelping_since : option Date.date;
  user_review_count : option Z;
  average_stars : option Q;
  fans : option Z;
  elite_years : option (list string);
  compliment_count : Z
}.

Record date_row : Type := mk_date_row {
  date_id : option Z;
  full_date : Date.date;
  day : Z;
  month : Z;
  quarter : Z;
  year : Z;
  day_of_week : string
}.

(** A row of [fact_base], and of the fact table once the two counts are
    there. *)
Record base_row : Type := mk_base_row {
  fb_review_id : option string;
  fb_user_id : option string;
  fb_business_id : option string;
  fb_date_id : option Z;
  fb_stars : option Z;
  useful_votes : option Z;
  funny_votes : option Z;
  cool_votes : option Z
}.

Record engagement_row : Type := mk_engagement_row {
  base : base_row;
  tip_count : Z;
  checkin_count : Z
}.

Definition tip_key : Type := (option string * option string)%type.

Definition tip_key_dec (a b : tip_key) : {a = b} + {a <> b}.
Proof. repeat decide equality. Defined.

Definition tip_key_complete (k : tip_key) : bool := andb (is_some (fst k)) (is_some (snd k)).

Definition opt_date_dec (a b : option Date.date) : {a = b} + {a <> b}.
Proof. decide equality; apply Date.eq_dec. Defined.

(** [F.split(col, ",")]. *)
Fixpoint split_comma (s : string) : list string :=
  match s with
  | EmptyString => [EmptyString]
  | String c rest =>
      if Ascii.eqb c "," then EmptyString :: split_comma rest
      else Str.cons_head c (split_comma rest)
  end.

(** The cast of a number to [IntegerType]: the fraction goes. *)
Definition cast_int (q : Q) : Z :=
  if Qle_bool 0%Q q then Qfloor q else Qceiling q.

(** The sum of two [bigint] columns, the type [spark.read.json] gives a
    whole number: Spark adds longs as Java does, wrapping around. *)
Definition wrap64 (z : Z) : Z := (z + 2 ^ 63) mod 2 ^ 64 - 2 ^ 63.

Definition long_add (a b : Z) : Z := wrap64 (a + b).

(** [coalesce(compliment_cool, 0) + ... + coalesce(compliment_writer, 0)],
    added from the left. *)
Definition compliment_sum (compliments : list (option Z)) : Z :=
  match map (fun c => coalesce c 0) compliments with
  | [] => 0
  | first :: rest => fold_left long_add rest first
  end.

(** [date_format(col, "EEEE")]. *)
Definition day_name_of (d : Date.date) : string :=
  nth (Z.to_nat (Date.dayofweek_spark d - 1))
      ["Sunday"; "Monday"; "Tuesday"; "Wednesday"; "Thursday"; "Friday"; "Saturday"] "".

Section Pipeline.

(** The frames of this script come from [spark.read.json], which infers
    the columns from the records: the frames below have their columns.  A
    file of no record gives a frame of no column, and the script stops on
    [AnalysisException] at the first column it names (lines 40-44 on).

    [F.to_timestamp(col, "yyyy-MM-dd HH:mm:ss")] followed by the date of the
    time stamp, all the pipeline uses of it: null for a string of another
    form. *)
Variable to_timestamp : string -> option Date.date.

Definition to_timestamp_col (s : option string) : option Date.date := bind_opt s to_timestamp.

(** *** DimBusiness, DimUser, DimDate (lines 47-126) *)

Definition dim_business (business_df : list Business.t) : list business_row :=
  map (fun b =>
         {| business_id := Business.business_id b;
            name := Business.name b;
            categories := option_map Str.split_comma_ws (Business.categories b);
            city := Business.city b;
            state := Business.state b;
            postal_code := Business.postal_code b;
            latitude := Business.latitude b;
            longitude := Business.longitude b;
            is_open := option_map (fun v => negb (v =? 0)) (Business.is_open b);
            attributes_json := Business.attributes b |})
      business_df.

Definition dim_user (user_df : list User.t) : list user_row :=
  map (fun u =>
         {| user_id := User.user_id u;
            user_name := User.name u;
            yelping_since := to_timestamp_col (User.yelping_since u);
            user_review_count := User.review_count u;
            average_stars := User.average_stars u;
            fans := User.fans u;
            elite_years := option_map split_comma (User.elite u);
            compliment_count := compliment_sum (User.compliments u) |})
      user_df.

Definition all_dates (review_df : list Review.t) (tip_df : list Tip.t)
           (checkin_df : list Checkin.t) : list (option Date.date) :=
  map (fun r => to_timestamp_col (Review.date r)) review_df
  ++ map (fun t => to_timestamp_col (Tip.date t)) tip_df
  ++ flat_map (fun c => match Checkin.date c with
                        | Some s => map to_timestamp (Str.split_comma_ws s)
                        | None => []
                        end) checkin_df.

(** [date_format(col, "yyyyMMdd").cast(IntegerType())]. *)
Definition date_id_of (d : option Date.date) : option Z := bind_opt d Date.date_key.

Definition dim_date (review_df : list Review.t) (tip_df : list Tip.t)
           (checkin_df : list Checkin.t) : list date_row :=
  Rel.sort (fun a b => match date_id a, date_id b with
                       | Some x, Some y => x <=? y
                       | None, _ => true
                       | Some _, None => false
                       end)
    (map (fun d =>
            {| date_id := date_id_of (Some d);
               full_date := d;
               day := Date.day d;
               month := Date.month d;
               quarter := Date.quarter d;
               year := Date.year d;
               day_of_week := day_name_of d |})
         (na_drop (Rel.distinct opt_date_dec (all_dates review_df tip_df checkin_df)))).

(** *** The counts and FactCustomerEngagement (lines 129-181) *)

Definition tip_counts (tip_df : list Tip.t) : list (tip_key * Z) :=
  Rel.group_by tip_key_dec (fun t => (Tip.user_id t, Tip.business_id t))
               (Rel.count (fun _ => true)) tip_df.

(** [F.size] of the split date string of each checkin record; the size of a
    null is -1. *)
Definition checkin_counts_agg (checkin_df : list Checkin.t) : list (option string * Z) :=
  map (fun c => (Checkin.business_id c,
                 match Checkin.date c with
                 | Some s => Z.of_nat (List.length (Str.split_comma_ws s))
                 | None => -1
                 end)) checkin_df.

Definition fact_base (review_df : list Review.t) : list base_row :=
  map (fun r =>
         {| fb_review_id := Review.review_id r;
            fb_user_id := Review.user_id r;
            fb_business_id := Review.business_id r;
            fb_date_id := date_id_of (to_timestamp_col (Review.date r));
            fb_stars := option_map cast_int (Review.stars r);
            useful_votes := Review.useful r;
            funny_votes := Review.funny r;
            cool_votes := Review.cool r |})
      review_df.

(** A join on one nullable column. *)
Definition on_col {K : Type} (K_dec : forall x y : K, {x = y} + {x <> y})
           (a b : option K) : bool :=
  match a, b with
  | Some x, Some y => Rel.eqb K_dec x y
  | _, _ => false
  end.

Definition fact_customer_engagement (review_df : list Review.t) (tip_df : list Tip.t)
           (checkin_df : list Checkin.t) (user_df : list User.t)
           (business_df : list Business.t) : list engagement_row :=
  map (fun j =>
         let '(f, tips, chk, _, _, _) := j in
         {| base := f;
            tip_count := coalesce (option_map snd tips) 0;
            checkin_count := coalesce (option_map snd chk) 0 |})
    (Rel.inner_join
       (fun x b => on_col string_dec (fb_business_id (fst (fst (fst (fst x)))))
                          (business_id b))
       (Rel.inner_join
          (fun x u => on_col string_dec (fb_user_id (fst (fst (fst x)))) (user_id u))
          (Rel.inner_join
             (fun x d => on_col Z.eq_dec (fb_date_id (fst (fst x))) (date_id d))
             (Rel.left_join
                (fun x c => on_col string_dec (fb_business_id (fst x)) (fst c))
                (Rel.left_join
                   (fun f t => Rel.sql_eqb tip_key_dec tip_key_complete
                                           (fb_user_id f, fb_business_id f) (fst t))
                   (fact_base review_df)
                   (tip_counts tip_df))
                (checkin_counts_agg checkin_df))
             (dim_date review_df tip_df checkin_df))
          (dim_user user_df))
       (dim_business business_df)).

(** *** BusinessCategoryBridge (lines 184-191) *)

Definition bridge_business_category (dim : list business_row)
  : list (option string * string) :=
  filter (fun bc => Str.neqb (snd bc) "")
    (flat_map (fun b => match categories b with
                        | Some arr => map (fun c => (business_id b, c)) arr
                        | None => []
                        end) dim).

(** *** A review is in the fact table with or without tips and checkins *)

Lemma dim_date_In (review_df : list Review.t) (tip_df : list Tip.t)
      (checkin_df : list Checkin.t) (r : Review.t) (d : Date.date) :
  In r review_df -> to_timestamp_col (Review.date r) = Some d ->
  exists row, In row (dim_date review_df tip_df checkin_df)
              /\ date_id row = Date.date_key d /\ full_date row = d.
Proof.
  intros Hr Hd.
  exists {| date_id := date_id_of (Some d);
            full_date := d;
            day := Date.day d;
            month := Date.month d;
            quarter := Date.quarter d;
            year := Date.year d;
            day_of_week := day_name_of d |}.
  split; [|split; reflexivity].
  unfold dim_date. apply Rel.sort_In.
  apply (in_map (fun d => {| date_id := date_id_of (Some d);
                             full_date := d;
                             day := Date.day d;
                             month := Date.month d;
                             quarter := Date.quarter d;
                             year := Date.year d;
                             day_of_week := day_name_of d |})).
  apply na_drop_In.
  apply Rel.distinct_In. unfold all_dates. apply in_or_app. left.
  rewrite <- Hd. apply (in_map (fun r => to_timestamp_col (Review.date r))). exact Hr.
Qed.

(** X3, the left joins of this pipeline, every source having a record: a
    review whose user, business and date have their dimension rows is a row
    of [FactCustomerEngagement] whether or not a tip count or a checkin
    count matches it; a count that matches nothing is 0. *)
Theorem engagement_fact_defaults_missing_counts
        (review_df : list Review.t) (tip_df : list Tip.t) (checkin_df : list Checkin.t)
        (user_df : list User.t) (business_df : list Business.t)
        (r : Review.t) (u : User.t) (b : Business.t) (uid bid : string)
        (d : Date.date) (k : Z) :
  tip_df <> [] -> checkin_df <> [] ->
  In r review_df -> In u user_df -> In b business_df ->
  Review.user_id r = Some uid -> User.user_id u = Some uid ->
  Review.business_id r = Some bid -> Business.business_id b = Some bid ->
  to_timestamp_col (Review.date r) = Some d -> Date.date_key d = Some k ->
  exists row,
    In row (fact_customer_engagement review_df tip_df checkin_df user_df business_df)
    /\ fb_review_id (base row) = Review.review_id r
    /\ fb_user_id (base row) = Some uid
    /\ fb_business_id (base row) = Some bid
    /\ fb_date_id (base row) = Some k
    /\ ((forall t, In t tip_df ->
                   (Tip.user_id t, Tip.business_id t) <> (Some uid, Some bid)) ->
        tip_count row = 0)
    /\ ((forall c, In c checkin_df -> Checkin.business_id c <> Some bid) ->
        checkin_count row = 0).
Proof.
  intros _ _ Hr Hu Hb Hru Hu_id Hrb Hb_id Hd Hk.
  set (f := {| fb_review_id := Review.review_id r;
               fb_user_id := Review.user_id r;
               fb_business_id := Review.business_id r;
               fb_date_id := date_id_of (to_timestamp_col (Review.date r));
               fb_stars := option_map cast_int (Review.stars r);
               useful_votes := Review.useful r;
               funny_votes := Review.funny r;
               cool_votes := Review.cool r |}).
  assert (Hf : In f (fact_base review_df)).
  { unfold fact_base. apply in_map_iff. exists r. auto. }
  destruct (Rel.left_join_total
              (fun f t => Rel.sql_eqb tip_key_dec tip_key_complete
                                      (fb_user_id f, fb_business_id f) (fst t))
              (fact_base review_df) (tip_counts tip_df) f Hf) as [ot [Hot Hnot]].
  destruct (Rel.left_join_total
              (fun (x : base_row * option (tip_key * Z)) (c : option string * Z) =>
                 on_col string_dec (fb_business_id (fst x)) (fst c))
              _ (checkin_counts_agg checkin_df) (f, ot) Hot) as [oc [Hoc Hnoc]].
  destruct (dim_date_In review_df tip_df checkin_df r d Hr Hd) as [drow [Hdrow [Hdid _]]].
  set (urow := {| user_id := User.user_id u;
                  user_name := User.name u;
                  yelping_since := to_timestamp_col (User.yelping_since u);
                  user_review_count := User.review_count u;
                  average_stars := User.average_stars u;
                  fans := User.fans u;
                  elite_years := option_map split_comma (User.elite u);
                  compliment_count := compliment_sum (User.compliments u) |}).
  assert (Hurow : In urow (dim_user user_df)).
  { unfold dim_user. apply in_map_iff. exists u. auto. }
  set (brow := {| business_id := Business.business_id b;
                  name := Business.name b;
                  categories := option_map Str.split_comma_ws (Business.categories b);
                  city := Business.city b;
                  state := Business.state b;
                  postal_code := Business.postal_code b;
                  latitude := Business.latitude b;
                  longitude := Business.longitude b;
                  is_open := option_map (fun v => negb (v =? 0)) (Business.is_open b);
                  attributes_json := Business.attributes b |}).
  assert (Hbrow : In brow (dim_business business_df)).
  { unfold dim_business. apply in_map_iff. exists b. auto. }
  exists {| base := f;
            tip_count := coalesce (option_map snd ot) 0;
            checkin_count := coalesce (option_map snd oc) 0 |}.
  split.
  - unfold fact_customer_engagement. apply in_map_iff.
    exists (f, ot, oc, drow, urow, brow). split; [reflexivity|].
    apply Rel.inner_join_In. split; [|split; [exact Hbrow|]].
    + apply Rel.inner_join_In. split; [|split; [exact Hurow|]].
      * apply Rel.inner_join_In. split; [exact Hoc|]. split; [exact Hdrow|].
        cbn [fst fb_date_id f]. rewrite Hd, Hdid. unfold date_id_of, bind_opt.
        rewrite Hk. simpl. apply Rel.eqb_refl.
      * cbn [fst fb_user_id f user_id urow]. rewrite Hru, Hu_id. simpl.
        apply Rel.eqb_refl.
    + cbn [fst fb_business_id f business_id brow]. rewrite Hrb, Hb_id. simpl.
      apply Rel.eqb_refl.
  - cbn [base fb_review_id fb_user_id fb_business_id fb_date_id f tip_count checkin_count].
    split; [reflexivity|]. split; [exact Hru|]. split; [exact Hrb|].
    split; [rewrite Hd; unfold date_id_of, bind_opt; exact Hk|]. split.
    + intros Hnotip. rewrite Hnot; [reflexivity|].
      intros [key n] Hin. unfold Rel.sql_eqb. cbn [fst fb_user_id fb_business_id f].
      rewrite Hru, Hrb. simpl. apply Rel.eqb_false. intros E. subst key.
      apply (in_map fst) in Hin. unfold tip_counts in Hin.
      rewrite Rel.group_by_keys in Hin. apply Rel.distinct_In in Hin.
      apply in_map_iff in Hin. destruct Hin as [t [Et Ht]].
      apply (Hnotip t Ht). exact Et.
    + intros Hnochk. rewrite Hnoc; [reflexivity|].
      intros [cb n] Hin. cbn [fst fb_business_id f]. rewrite Hrb.
      unfold checkin_counts_agg in Hin. apply in_map_iff in Hin.
      destruct Hin as [c [Ec Hc]]. injection Ec as <- _.
      unfold on_col. destruct (Checkin.business_id c) as [x|] eqn:Ex; [|reflexivity].
      apply Rel.eqb_false. intros E. subst x. apply (Hnochk c Hc). exact Ex.
Qed.

(** *** Every row of the fact table has its dimension rows *)

(** The fact columns a review gives. *)
Definition base_of (r : Review.t) : base_row :=
  {| fb_review_id := Review.review_id r;
     fb_user_id := Review.user_id r;
     fb_business_id := Review.business_id r;
     fb_date_id := date_id_of (to_timestamp_col (Review.date r));
     fb_stars := option_map cast_int (Review.stars r);
     useful_votes := Review.useful r;
     funny_votes := Review.funny r;
     cool_votes := Review.cool r |}.

(** The tips of a user for a business. *)
Definition tips_of (tip_df : list Tip.t) (user business : option string) : list Tip.t :=
  Rel.group_of tip_key_dec (fun t => (Tip.user_id t, Tip.business_id t))
               (user, business) tip_df.

Lemma on_col_true {K : Type} (K_dec : forall x y : K, {x = y} + {x <> y})
      (a b : option K) :
  on_col K_dec a b = true <-> exists x, a = Some x /\ b = Some x.
Proof.
  unfold on_col. destruct a as [x|], b as [y|]; split;
    try discriminate; try (intros [z [H1 H2]]; discriminate).
  - intros H. apply Rel.eqb_true in H. subst y. exists x. auto.
  - intros [z [H1 H2]]. injection H1 as <-. injection H2 as <-. apply Rel.eqb_refl.
Qed.

(** What the left join on (user, business) leaves in the tip column. *)
Lemma joined_tip_count (tip_df : list Tip.t) (f : base_row)
      (tips : option (tip_key * Z)) :
  match tips with
  | Some t => In t (tip_counts tip_df)
              /\ Rel.sql_eqb tip_key_dec tip_key_complete
                             (fb_user_id f, fb_business_id f) (fst t) = true
  | None => forall t, In t (tip_counts tip_df) ->
                      Rel.sql_eqb tip_key_dec tip_key_complete
                                  (fb_user_id f, fb_business_id f) (fst t) = false
  end ->
  tip_key_complete (fb_user_id f, fb_business_id f) = true ->
  coalesce (option_map snd tips) 0
  = Z.of_nat (List.length (tips_of tip_df (fb_user_id f) (fb_business_id f))).
Proof.
  intros H Hc. unfold tips_of. destruct tips as [[k n]|]; cbn [option_map coalesce snd].
  - destruct H as [Hin Heq]. unfold Rel.sql_eqb in Heq. rewrite Hc in Heq.
    cbn [andb fst] in Heq. apply Rel.eqb_true in Heq. subst k.
    unfold tip_counts, Rel.group_by in Hin. apply in_map_iff in Hin.
    destruct Hin as [k' [E _]]. injection E as <- <-.
    unfold Rel.count. rewrite Owners.filter_all. reflexivity.
  - assert (Hno : ~ In (fb_user_id f, fb_business_id f)
                       (map (fun t => (Tip.user_id t, Tip.business_id t)) tip_df)).
    { intros Hin. apply (Rel.distinct_In tip_key_dec) in Hin.
      rewrite <- (Rel.group_by_keys tip_key_dec _ (Rel.count (fun _ => true))) in Hin.
      apply in_map_iff in Hin. destruct Hin as [t [Et Ht]].
      specialize (H t Ht). unfold Rel.sql_eqb in H. rewrite Hc, Et, Rel.eqb_refl in H.
      discriminate. }
    apply (Rel.group_of_nil_iff tip_key_dec) in Hno. rewrite Hno. reflexivity.
Qed.

(** X21: every row of [FactCustomerEngagement] comes from a review and has
    its dimension rows: its [user_id], [business_id] and [date_id] are not
    null and are those of a user record, of a business record and of a row
    of [DimDate]; its tip count is the number of the tips of that user for
    that business; and its checkin count is 0 when no checkin record has the
    business, and otherwise the size of the split date string of a checkin
    record of the business: one more than the commas of the string, -1 for
    a null string. *)
Theorem engagement_fact_rows_have_their_dimensions
        (review_df : list Review.t) (tip_df : list Tip.t) (checkin_df : list Checkin.t)
        (user_df : list User.t) (business_df : list Business.t)
        (row : engagement_row) :
  In row (fact_customer_engagement review_df tip_df checkin_df user_df business_df) ->
  (exists r, In r review_df /\ base row = base_of r)
  /\ (exists uid u, fb_user_id (base row) = Some uid
                    /\ In u user_df /\ User.user_id u = Some uid)
  /\ (exists bid b, fb_business_id (base row) = Some bid
                    /\ In b business_df /\ Business.business_id b = Some bid)
  /\ (exists k d, fb_date_id (base row) = Some k
                  /\ In d (dim_date review_df tip_df checkin_df) /\ date_id d = Some k)
  /\ tip_count row
     = Z.of_nat (List.length (tips_of tip_df (fb_user_id (base row))
                                      (fb_business_id (base row))))
  /\ ((checkin_count row = 0
       /\ forall c, In c checkin_df ->
                    Checkin.business_id c <> fb_business_id (base row))
      \/ exists c, In c checkin_df
                   /\ Checkin.business_id c = fb_business_id (base row)
                   /\ checkin_count row
                      = match Checkin.date c with
                        | Some s => Z.of_nat (S (Str.comma_count s))
                        | None => -1
                        end).
Proof.
  unfold fact_customer_engagement. rewrite in_map_iff.
  intros [[[[[[f tips] chk] d] u] b] [<- Hj]].
  apply Rel.inner_join_In in Hj. destruct Hj as [Hj [Hb Honb]].
  apply Rel.inner_join_In in Hj. destruct Hj as [Hj [Hu Honu]].
  apply Rel.inner_join_In in Hj. destruct Hj as [Hj [Hd Hond]].
  apply Rel.left_join_In in Hj. destruct Hj as [Hj Hchk].
  apply Rel.left_join_In in Hj. destruct Hj as [Hf Htips].
  cbn [fst] in Honb, Honu, Hond, Hchk, Htips.
  apply on_col_true in Honb, Honu, Hond.
  destruct Honb as [bid [Hfb Hbid]], Honu as [uid [Hfu Huid]], Hond as [k [Hfd Hk]].
  cbn [base tip_count checkin_count].
  unfold dim_user in Hu. apply in_map_iff in Hu. destruct Hu as [u0 [<- Hu0]].
  unfold dim_business in Hb. apply in_map_iff in Hb. destruct Hb as [b0 [<- Hb0]].
  cbn [user_id business_id] in Huid, Hbid.
  split; [|split; [|split; [|split; [|split]]]].
  - unfold fact_base in Hf. apply in_map_iff in Hf. destruct Hf as [r [<- Hr]].
    exists r. auto.
  - exists uid, u0. auto.
  - exists bid, b0. auto.
  - exists k, d. auto.
  - apply joined_tip_count; [exact Htips|]. rewrite Hfu, Hfb. reflexivity.
  - destruct chk as [[cb n]|]; cbn [option_map coalesce snd].
    + right. destruct Hchk as [Hin Hon]. cbn [fst] in Hon.
      apply on_col_true in Hon. destruct Hon as [x [Hx ->]].
      unfold checkin_counts_agg in Hin. apply in_map_iff in Hin.
      destruct Hin as [c [E Hc]]. injection E as Ecb <-.
      exists c. split; [exact Hc|]. split; [congruence|].
      destruct (Checkin.date c) as [s|]; [|reflexivity].
      unfold Str.split_comma_ws. rewrite Str.split_comma_ws_from_length. reflexivity.
    + left. split; [reflexivity|]. intros c Hc E.
      assert (Hin : In (Checkin.business_id c,
                        match Checkin.date c with
                        | Some s => Z.of_nat (List.length (Str.split_comma_ws s))
                        | None => -1
                        end) (checkin_counts_agg checkin_df)).
      { unfold checkin_counts_agg.
        apply (in_map (fun c => (Checkin.business_id c,
                                 match Checkin.date c with
                                 | Some s => Z.of_nat (List.length (Str.split_comma_ws s))
                                 | None => -1
                                 end))). exact Hc. }
      specialize (Hchk _ Hin). cbn [fst] in Hchk.
      rewrite E, Hfb in Hchk. cbn [on_col] in Hchk. rewrite Rel.eqb_refl in Hchk.
      discriminate.
Qed.

(** *** A review is in the fact table once *)

(** A frame whose keys differ, the nulls apart, matches a key once at most. *)
Lemma filter_on_col_once {K B : Type} (K_dec : forall x y : K, {x = y} + {x <> y})
      (key : B -> option K) (x : option K) (r : list B) :
  NoDup (na_drop (map key r)) ->
  (List.length (filter (fun b => on_col K_dec x (key b)) r) <= 1)%nat.
Proof.
  induction r as [|b t IH]; intros Hnd; [simpl; lia|].
  cbn [map filter]. unfold na_drop in Hnd. cbn [map flat_map] in Hnd.
  fold (na_drop (map key t)) in Hnd.
  destruct (on_col K_dec x (key b)) eqn:E.
  - apply on_col_true in E. destruct E as [v [-> Ev]]. rewrite Ev in Hnd.
    cbn [app] in Hnd. apply NoDup_cons_iff in Hnd. destruct Hnd as [Hnotin _].
    rewrite Rel.filter_none; [simpl; lia|].
    intros c Hc. destruct (on_col K_dec (Some v) (key c)) eqn:Ec; [|reflexivity].
    apply on_col_true in Ec. destruct Ec as [w [Ew Ekc]]. injection Ew as <-.
    exfalso. apply Hnotin. apply na_drop_In. rewrite <- Ekc. apply in_map. exact Hc.
  - apply IH. destruct (key b); [|exact Hnd].
    cbn [app] in Hnd. apply NoDup_cons_iff in Hnd. exact (proj2 Hnd).
Qed.

(** The dates of [DimDate] are dates of the calendar, each once. *)
Lemma distinct_dates_valid (review_df : list Review.t) (tip_df : list Tip.t)
      (checkin_df : list Checkin.t) (d : Date.date) :
  (forall s d, to_timestamp s = Some d -> Date.valid d = true) ->
  In d (na_drop (Rel.distinct opt_date_dec (all_dates review_df tip_df checkin_df))) ->
  Date.valid d = true.
Proof.
  intros Hvalid Hd. apply na_drop_In in Hd. apply Rel.distinct_In in Hd.
  assert (Hcol : forall s, to_timestamp_col s = Some d -> Date.valid d = true).
  { intros [s|] H; [exact (Hvalid s d H)|discriminate]. }
  unfold all_dates in Hd. rewrite !in_app_iff, !in_map_iff, in_flat_map in Hd.
  destruct Hd as [[r [E _]]|[[t [E _]]|[c [_ Hc]]]].
  - exact (Hcol _ E).
  - exact (Hcol _ E).
  - destruct (Checkin.date c) as [s|]; [|destruct Hc].
    apply in_map_iff in Hc. destruct Hc as [piece [E _]]. exact (Hvalid piece d E).
Qed.

Lemma date_key_inj (d1 d2 : Date.date) :
  Date.valid d1 = true -> Date.valid d2 = true ->
  Date.date_key d1 = Date.date_key d2 -> d1 = d2.
Proof.
  intros V1 V2 E.
  pose proof (Date.of_int_key_date_key d1 V1) as R1.
  pose proof (Date.of_int_key_date_key d2 V2) as R2.
  rewrite E in R1. congruence.
Qed.

Lemma dim_date_ids_NoDup (review_df : list Review.t) (tip_df : list Tip.t)
      (checkin_df : list Checkin.t) :
  (forall s d, to_timestamp s = Some d -> Date.valid d = true) ->
  NoDup (map date_id (dim_date review_df tip_df checkin_df)).
Proof.
  intros Hvalid. unfold dim_date.
  eapply Permutation_NoDup.
  - apply Permutation_map. symmetry. apply Rel.sort_perm.
  - rewrite map_map. cbn [date_id].
    apply NoDup_map_NoDup_ForallPairs.
    + intros d1 d2 H1 H2 E. unfold date_id_of, bind_opt in E.
      apply date_key_inj; [| |exact E].
      * exact (distinct_dates_valid review_df tip_df checkin_df d1 Hvalid H1).
      * exact (distinct_dates_valid review_df tip_df checkin_df d2 Hvalid H2).
    + apply na_drop_NoDup. apply Rel.distinct_NoDup.
Qed.

(** The review has its user, its business and its date in the dimensions. *)
Definition in_dimensions (review_df : list Review.t) (tip_df : list Tip.t)
           (checkin_df : list Checkin.t) (user_df : list User.t)
           (business_df : list Business.t) (f : base_row) : bool :=
  andb (existsb (fun d => on_col Z.eq_dec (fb_date_id f) (date_id d))
                (dim_date review_df tip_df checkin_df))
       (andb (existsb (fun u => on_col string_dec (fb_user_id f) (User.user_id u)) user_df)
             (existsb (fun b => on_col string_dec (fb_business_id f)
                                       (Business.business_id b)) business_df)).

Lemma existsb_map {A B : Type} (p : B -> bool) (g : A -> B) (l : list A) :
  existsb p (map g l) = existsb (fun a => p (g a)) l.
Proof. induction l as [|a t IH]; simpl; [reflexivity|]. rewrite IH. reflexivity. Qed.

(** X22: when every source has a record, no two user records share a
    [user_id], no two business records a [business_id] and no two checkin
    records a [business_id] (the nulls apart), and the time stamps are
    dates of the calendar, the joins neither drop a review that has its
    dimension rows nor repeat one: the review columns of
    [FactCustomerEngagement] are, in some order, those of the reviews whose
    date, user and business are in [DimDate], the user records and the
    business records, each as many times as it is among the reviews. *)
Theorem engagement_fact_has_each_review_once
        (review_df : list Review.t) (tip_df : list Tip.t) (checkin_df : list Checkin.t)
        (user_df : list User.t) (business_df : list Business.t) :
  review_df <> [] -> tip_df <> [] -> checkin_df <> [] -> user_df <> [] ->
  business_df <> [] ->
  (forall s d, to_timestamp s = Some d -> Date.valid d = true) ->
  NoDup (na_drop (map User.user_id user_df)) ->
  NoDup (na_drop (map Business.business_id business_df)) ->
  NoDup (na_drop (map Checkin.business_id checkin_df)) ->
  Permutation
    (map base (fact_customer_engagement review_df tip_df checkin_df user_df business_df))
    (filter (in_dimensions review_df tip_df checkin_df user_df business_df)
            (map base_of review_df)).
Proof.
  intros _ _ _ _ _ Hvalid Hu Hb Hc.
  assert (E : map base (fact_customer_engagement review_df tip_df checkin_df user_df
                                                 business_df)
              = filter (in_dimensions review_df tip_df checkin_df user_df business_df)
                       (map base_of review_df)).
  { unfold fact_customer_engagement.
    rewrite map_map.
    rewrite (map_ext _ (fun j => fst (fst (fst (fst (fst j))))))
      by (intros [[[[[f tips] chk] d] u] b]; reflexivity).
    rewrite <- (map_map fst (fun j => fst (fst (fst (fst j))))).
    rewrite Rel.inner_join_fst.
    2:{ intros a _. unfold dim_business.
        rewrite Rel.filter_map_comm, length_map. cbn [business_id].
        apply (filter_on_col_once string_dec Business.business_id). exact Hb. }
    rewrite <- (Rel.filter_map_comm
                  (fun f => existsb (fun b => on_col string_dec (fb_business_id f)
                                                     (business_id b))
                                    (dim_business business_df))
                  (fun j => fst (fst (fst (fst j))))).
    rewrite <- (map_map fst (fun j => fst (fst (fst j)))).
    rewrite Rel.inner_join_fst.
    2:{ intros a _. unfold dim_user.
        rewrite Rel.filter_map_comm, length_map. cbn [user_id].
        apply (filter_on_col_once string_dec User.user_id). exact Hu. }
    rewrite <- (Rel.filter_map_comm
                  (fun f => existsb (fun u => on_col string_dec (fb_user_id f) (user_id u))
                                    (dim_user user_df))
                  (fun j => fst (fst (fst j)))).
    rewrite <- (map_map fst (fun j => fst (fst j))).
    rewrite Rel.inner_join_fst.
    2:{ intros a _. apply (filter_on_col_once Z.eq_dec date_id).
        apply na_drop_NoDup. apply dim_date_ids_NoDup. exact Hvalid. }
    rewrite <- (Rel.filter_map_comm
                  (fun f => existsb (fun d => on_col Z.eq_dec (fb_date_id f) (date_id d))
                                    (dim_date review_df tip_df checkin_df))
                  (fun j => fst (fst j))).
    rewrite <- (map_map fst fst).
    rewrite Rel.left_join_fst.
    2:{ intros a _. unfold checkin_counts_agg.
        rewrite Rel.filter_map_comm, length_map. cbn [fst].
        apply (filter_on_col_once string_dec Checkin.business_id). exact Hc. }
    unfold tip_counts.
    rewrite (Rel.left_join_group_by tip_key_dec tip_key_complete
               (fun f => (fb_user_id f, fb_business_id f))).
    rewrite map_map. cbn [fst]. rewrite map_id.
    rewrite !Rel.filter_filter.
    unfold fact_base. fold base_of.
    change (map (fun r => base_of r) review_df) with (map base_of review_df).
    apply filter_ext. intros f. unfold in_dimensions, dim_user, dim_business.
    rewrite !existsb_map. cbn [user_id business_id]. reflexivity. }
  rewrite E. apply Permutation_refl.
Qed.

(** *** The bridge and DimDate *)

(** X23: the pairs of [BusinessCategoryBridge]: a business and a label are
    a pair exactly when a business record with that [business_id] lists
    the label, as split on a comma and the white space after it, and the
    label is not empty; the business of a pair has its row in
    [DimBusiness], and no label of a pair has a comma. *)
Theorem marketing_bridge_pairs (business_df : list Business.t)
        (bid : option string) (c : string) :
  (In (bid, c) (bridge_business_category (dim_business business_df))
   <-> c <> ""
       /\ exists b s, In b business_df /\ Business.business_id b = bid
                      /\ Business.categories b = Some s
                      /\ In c (Str.split_comma_ws s))
  /\ (In (bid, c) (bridge_business_category (dim_business business_df)) ->
      (exists row, In row (dim_business business_df) /\ business_id row = bid)
      /\ Str.comma_count c = 0%nat).
Proof.
  assert (Hiff : In (bid, c) (bridge_business_category (dim_business business_df))
                 <-> c <> ""
                     /\ exists b s, In b business_df /\ Business.business_id b = bid
                                    /\ Business.categories b = Some s
                                    /\ In c (Str.split_comma_ws s)).
  { unfold bridge_business_category. rewrite filter_In, in_flat_map. cbn [snd].
    rewrite Str.neqb_true. split.
    - intros [[row [Hrow Hin]] Hne]. split; [exact Hne|].
      unfold dim_business in Hrow. apply in_map_iff in Hrow.
      destruct Hrow as [b [<- Hb]]. cbn [categories business_id] in Hin.
      destruct (Business.categories b) as [s|] eqn:Es; [|destruct Hin].
      cbn [option_map] in Hin. apply in_map_iff in Hin.
      destruct Hin as [c' [E Hc']]. injection E as <- <-.
      exists b, s. auto.
    - intros [Hne [b [s [Hb [Hbid [Hs Hc]]]]]]. split; [|exact Hne].
      eexists. split.
      + unfold dim_business. apply in_map. exact Hb.
      + cbn [categories business_id]. rewrite Hs. cbn [option_map].
        apply in_map_iff. exists c. rewrite Hbid. auto. }
  split; [exact Hiff|].
  intros Hin. apply Hiff in Hin. destruct Hin as [_ [b [s [Hb [Hbid [Hs Hc]]]]]].
  split.
  - eexists. split; [unfold dim_business; apply in_map; exact Hb|exact Hbid].
  - exact (Str.split_comma_ws_from_no_comma false s c Hc).
Qed.

Lemma Sorted_weaken {A : Type} (P Q : A -> A -> Prop) (l : list A) :
  (forall a b, In a l -> In b l -> P a b -> Q a b) -> Sorted P l -> Sorted Q l.
Proof.
  intros H Hs. induction Hs as [|a t Ht IH Hhd]; constructor.
  - apply IH. intros x y Hx Hy. apply H; right; assumption.
  - destruct Hhd as [|b t' Hab]; constructor.
    apply H; [left; reflexivity|right; left; reflexivity|exact Hab].
Qed.

(** X24: [DimDate] of this pipeline, for time stamps that are dates of the
    calendar: a date has a row exactly when it is the date of a review, of
    a tip or of a piece of a checkin string; no date and no [date_id] comes
    twice; the [date_id] of a row is year * 10000 + month * 100 + day and
    reads back as the date; and the rows come by [date_id], the earlier date
    first. *)
Theorem marketing_dim_date_rows
        (review_df : list Review.t) (tip_df : list Tip.t) (checkin_df : list Checkin.t) :
  (forall s d, to_timestamp s = Some d -> Date.valid d = true) ->
  (forall d, In (Some d) (all_dates review_df tip_df checkin_df)
             <-> exists row, In row (dim_date review_df tip_df checkin_df)
                             /\ full_date row = d)
  /\ NoDup (map full_date (dim_date review_df tip_df checkin_df))
  /\ NoDup (map date_id (dim_date review_df tip_df checkin_df))
  /\ (forall row, In row (dim_date review_df tip_df checkin_df) ->
        date_id row = Some (Date.year (full_date row) * 10000
                            + Date.month (full_date row) * 100
                            + Date.day (full_date row))
        /\ option_map Date.of_int_key (date_id row) = Some (full_date row)
        /\ day row = Date.day (full_date row)
        /\ month row = Date.month (full_date row)
        /\ year row = Date.year (full_date row))
  /\ Sorted (fun a b => exists x y, date_id a = Some x /\ date_id b = Some y /\ x <= y)
            (dim_date review_df tip_df checkin_df).
Proof.
  intros Hvalid.
  assert (Hrow : forall row, In row (dim_date review_df tip_df checkin_df) ->
                   exists d, row = {| date_id := date_id_of (Some d);
                                      full_date := d;
                                      day := Date.day d;
                                      month := Date.month d;
                                      quarter := Date.quarter d;
                                      year := Date.year d;
                                      day_of_week := day_name_of d |}
                             /\ Date.valid d = true
                             /\ In (Some d) (all_dates review_df tip_df checkin_df)).
  { intros row H. unfold dim_date in H. apply Rel.sort_In in H.
    apply in_map_iff in H. destruct H as [d [<- Hd]]. exists d.
    split; [reflexivity|]. split.
    - exact (distinct_dates_valid review_df tip_df checkin_df d Hvalid Hd).
    - apply na_drop_In in Hd. apply Rel.distinct_In in Hd. exact Hd. }
  assert (Hid : forall row, In row (dim_date review_df tip_df checkin_df) ->
                  date_id row = Some (Date.year (full_date row) * 10000
                                      + Date.month (full_date row) * 100
                                      + Date.day (full_date row))).
  { intros row H. destruct (Hrow row H) as [d [-> [Hv _]]].
    cbn [date_id full_date date_id_of bind_opt]. apply Date.date_key_value. exact Hv. }
  split; [|split; [|split; [|split]]].
  - intros d. split.
    + intros Hd. eexists. split.
      * unfold dim_date. apply Rel.sort_In.
        apply (in_map (fun d => {| date_id := date_id_of (Some d);
                                   full_date := d;
                                   day := Date.day d;
                                   month := Date.month d;
                                   quarter := Date.quarter d;
                                   year := Date.year d;
                                   day_of_week := day_name_of d |})).
        apply na_drop_In. apply Rel.distinct_In. exact Hd.
      * reflexivity.
    + intros [row [H <-]]. destruct (Hrow row H) as [d [-> [_ Hd]]]. exact Hd.
  - unfold dim_date. eapply Permutation_NoDup.
    + apply Permutation_map. symmetry. apply Rel.sort_perm.
    + rewrite map_map. cbn [full_date]. rewrite map_id.
      apply na_drop_NoDup. apply Rel.distinct_NoDup.
  - apply dim_date_ids_NoDup. exact Hvalid.
  - intros row H. split; [exact (Hid row H)|].
    destruct (Hrow row H) as [d [-> [Hv _]]].
    cbn [date_id full_date day month year date_id_of bind_opt].
    split; [apply Date.of_int_key_date_key; exact Hv|]. repeat split.
  - apply (Sorted_weaken
             (fun a b => match date_id a, date_id b with
                         | Some x, Some y => x <=? y
                         | None, _ => true
                         | Some _, None => false
                         end = true)).
    + intros a b Ha Hb Hab. rewrite (Hid a Ha), (Hid b Hb) in Hab |- *.
      apply Z.leb_le in Hab. eexists; eexists. split; [reflexivity|].
      split; [reflexivity|exact Hab].
    + unfold dim_date. apply Rel.sort_sorted.
      intros x y. destruct (date_id x), (date_id y); try discriminate; try reflexivity.
      rewrite Z.leb_gt, Z.leb_le. lia.
Qed.

(** *** DimUser *)

Lemma split_comma_not_nil (s : string) : split_comma s <> [].
Proof.
  destruct s as [|c rest]; simpl; [discriminate|].
  destruct (Ascii.eqb c ","); [discriminate|apply Str.cons_head_not_nil].
Qed.

Lemma split_comma_length (s : string) :
  List.length (split_comma s) = S (Str.comma_count s).
Proof.
  induction s as [|c rest IH]; [reflexivity|].
  cbn [split_comma Str.comma_count]. destruct (Ascii.eqb c ",").
  - cbn [List.length]. rewrite IH. reflexivity.
  - rewrite Str.cons_head_length by apply split_comma_not_nil. exact IH.
Qed.

Lemma compliments_sum (compliments : list (option Z)) :
  (forall n, In (Some n) compliments -> 0 <= n) ->
  0 <= fold_right Z.add 0 (map (fun c => coalesce c 0) compliments)
  /\ forall n, In (Some n) compliments ->
               n <= fold_right Z.add 0 (map (fun c => coalesce c 0) compliments).
Proof.
  induction compliments as [|c t IH]; intros H; cbn [map fold_right].
  - split; [lia|]. intros n [].
  - destruct IH as [IH0 IHn]; [intros n Hn; apply H; right; exact Hn|].
    assert (Hc : 0 <= coalesce c 0).
    { destruct c as [n|]; cbn [coalesce]; [apply H; left; reflexivity|lia]. }
    split; [lia|]. intros n [->|Hn].
    + cbn [coalesce]. lia.
    + specialize (IHn n Hn). lia.
Qed.

Lemma wrap64_small (z : Z) : - 2 ^ 63 <= z < 2 ^ 63 -> wrap64 z = z.
Proof. intros H. unfold wrap64. rewrite Z.mod_small; lia. Qed.

(** Longs that are not negative and whose sum is a long add up as numbers
    do. *)
Lemma fold_long_add (values : list Z) (acc : Z) :
  0 <= acc -> (forall v, In v values -> 0 <= v) ->
  acc + fold_right Z.add 0 values < 2 ^ 63 ->
  fold_left long_add values acc = acc + fold_right Z.add 0 values.
Proof.
  revert acc. induction values as [|v t IH]; intros acc Hacc Hpos Hsum;
    cbn [fold_left fold_right] in *; [lia|].
  assert (Hv : 0 <= v) by (apply Hpos; left; reflexivity).
  assert (Ht : 0 <= fold_right Z.add 0 t).
  { clear - Hpos. induction t as [|x t IH]; cbn [fold_right]; [lia|].
    assert (0 <= x) by (apply Hpos; right; left; reflexivity).
    assert (0 <= fold_right Z.add 0 t).
    { apply IH. intros y [->|Hy]; apply Hpos; [left|right; right]; auto. }
    lia. }
  unfold long_add at 2. rewrite wrap64_small by lia.
  rewrite IH; [lia|lia| |lia].
  intros x Hx. apply Hpos. right. exact Hx.
Qed.

Lemma compliment_sum_exact (compliments : list (option Z)) :
  (forall n, In (Some n) compliments -> 0 <= n) ->
  fold_right Z.add 0 (map (fun c => coalesce c 0) compliments) < 2 ^ 63 ->
  compliment_sum compliments
  = fold_right Z.add 0 (map (fun c => coalesce c 0) compliments).
Proof.
  intros Hpos Hsum. unfold compliment_sum.
  assert (Hall : forall v, In v (map (fun c => coalesce c 0) compliments) -> 0 <= v).
  { intros v Hv. apply in_map_iff in Hv. destruct Hv as [[n|] [<- Hin]]; cbn [coalesce];
      [apply Hpos; exact Hin|lia]. }
  destruct (map (fun c => coalesce c 0) compliments) as [|first rest]; [reflexivity|].
  cbn [fold_right] in Hsum. cbn [fold_right].
  apply fold_long_add.
  - apply Hall. left. reflexivity.
  - intros v Hv. apply Hall. right. exact Hv.
  - exact Hsum.
Qed.

(** X27: [DimUser] has one row per user record, in the order of the
    records.  The [compliment_count] of a row is never null; it is a
    [bigint] sum, which wraps around: when no compliment field of the
    record is negative and their sum is below 2^63, it is that sum, so it
    is not negative and no smaller than any of the fields, a null field
    counting 0.  The [elite_years] of a record with an [elite] string is an
    array of one element more than the string has commas, so never the
    empty array: the empty string gives the array of one empty year. *)
Theorem dim_user_rows (user_df : list User.t) :
  map user_id (dim_user user_df) = map User.user_id user_df
  /\ forall i u,
      nth_error user_df i = Some u ->
      exists row,
        nth_error (dim_user user_df) i = Some row
        /\ ((forall n, In (Some n) (User.compliments u) -> 0 <= n) ->
            fold_right Z.add 0 (map (fun c => coalesce c 0) (User.compliments u)) < 2 ^ 63 ->
            compliment_count row
            = fold_right Z.add 0 (map (fun c => coalesce c 0) (User.compliments u))
            /\ 0 <= compliment_count row
            /\ forall n, In (Some n) (User.compliments u) -> n <= compliment_count row)
        /\ ((forall c, In c (User.compliments u) -> c = None) -> compliment_count row = 0)
        /\ match User.elite u with
           | Some s =>
               exists years, elite_years row = Some years
                             /\ List.length years = S (Str.comma_count s)
                             /\ (s = "" -> years = [""])
           | None => elite_years row = None
           end.
Proof.
  split; [unfold dim_user; rewrite map_map; reflexivity|].
  intros i u Hi. eexists. split.
  - unfold dim_user. rewrite nth_error_map, Hi. reflexivity.
  - cbn [compliment_count elite_years]. split; [|split].
    + intros Hpos Hsum. rewrite (compliment_sum_exact _ Hpos Hsum).
      split; [reflexivity|]. apply compliments_sum. exact Hpos.
    + intros Hnull. rewrite compliment_sum_exact.
      * induction (User.compliments u) as [|c t IH]; [reflexivity|].
        cbn [map fold_right]. rewrite (Hnull c (or_introl eq_refl)). cbn [coalesce].
        rewrite IH; [reflexivity|]. intros c' Hc'. apply Hnull. right. exact Hc'.
      * intros n Hn. apply Hnull in Hn. discriminate.
      * assert (E : fold_right Z.add 0
                      (map (fun c => coalesce c 0) (User.compliments u)) = 0).
        { induction (User.compliments u) as [|c t IH]; [reflexivity|].
          cbn [map fold_right]. rewrite (Hnull c (or_introl eq_refl)). cbn [coalesce].
          rewrite IH; [reflexivity|]. intros c' Hc'. apply Hnull. right. exact Hc'. }
        rewrite E. reflexivity.
    + destruct (User.elite u) as [s|]; [|reflexivity].
      cbn [option_map]. eexists. split; [reflexivity|].
      split; [apply split_comma_length|]. intros ->. reflexivity.
Qed.

End Pipeline.

Import Sample.

Definition regular : User.t :=
  User.mk (Some "u1") (Some "Ann") (Some "2015-06-01 08:00:00") (Some 12) (Some 4%Q)
          (Some 1) (Some "2016,2017") [Some 1; None; Some 2].

(** A tip of another user and the checkins of another business. *)
Definition other_tips : list Tip.t :=
  [Tip.mk (Some "u2") (Some "b1") (Some "2018-03-03 12:00:00")].

Definition other_checkins : list Checkin.t :=
  [Checkin.mk (Some "b2") (Some "2018-01-01 10:00:00, 2018-02-02 11:00:00")].

(** The compliments of the sample user add up to 3; two fields of 2^62
    add up to -2^63, the sum wrapped. *)
Example compliment_sum_wraps :
  compliment_sum [Some 1; None; Some 2] = 3
  /\ compliment_sum [Some (2 ^ 62); None; Some (2 ^ 62)] = - 2 ^ 63.
Proof. split; reflexivity. Qed.

Lemma engagement_fact_defaults_missing_counts_witness :
  let review_df := [review_on (Some "r1") "2018-01-05 09:00:00"] in
  other_tips <> [] /\ other_checkins <> []
  /\ In (review_on (Some "r1") "2018-01-05 09:00:00") review_df
  /\ In regular [regular]
  /\ In (cafe None) [cafe None]
  /\ Review.user_id (review_on (Some "r1") "2018-01-05 09:00:00") = Some "u1"
  /\ User.user_id regular = Some "u1"
  /\ Review.business_id (review_on (Some "r1") "2018-01-05 09:00:00") = Some "b1"
  /\ Business.business_id (cafe None) = Some "b1"
  /\ to_timestamp_col Date.of_iso (Review.date (review_on (Some "r1") "2018-01-05 09:00:00"))
     = Some (Date.mk 2018 1 5)
  /\ Date.date_key (Date.mk 2018 1 5) = Some 20180105
  /\ exists row,
      In row (fact_customer_engagement Date.of_iso review_df other_tips other_checkins
                [regular] [cafe None])
      /\ fb_review_id (base row) = Some "r1"
      /\ fb_user_id (base row) = Some "u1"
      /\ fb_business_id (base row) = Some "b1"
      /\ fb_date_id (base row) = Some 20180105
      /\ ((forall t, In t other_tips ->
                     (Tip.user_id t, Tip.business_id t) <> (Some "u1", Some "b1")) ->
          tip_count row = 0)
      /\ ((forall c, In c other_checkins -> Checkin.business_id c <> Some "b1") ->
          checkin_count row = 0).
Proof.
  split; [discriminate|]. split; [discriminate|].
  repeat (split; [first [reflexivity | left; reflexivity]|]).
  exact (engagement_fact_defaults_missing_counts Date.of_iso
           [review_on (Some "r1") "2018-01-05 09:00:00"] other_tips other_checkins
           [regular] [cafe None]
           (review_on (Some "r1") "2018-01-05 09:00:00") regular (cafe None)
           "u1" "b1" (Date.mk 2018 1 5) 20180105
           ltac:(discriminate) ltac:(discriminate)
           (or_introl eq_refl) (or_introl eq_refl) (or_introl eq_refl)
           eq_refl eq_refl eq_refl eq_refl eq_refl eq_refl).
Defined.

(** The review of the instance has its row, with both counts 0: the tip is
    of another user and the checkins of another business. *)
Example engagement_fact_counts_default_to_zero :
  map (fun row => (fb_review_id (base row), tip_count row, checkin_count row))
      (fact_customer_engagement Date.of_iso
         [review_on (Some "r1") "2018-01-05 09:00:00"] other_tips other_checkins
         [regular] [cafe None])
  = [(Some "r1", 0, 0)].
Proof. vm_compute. reflexivity. Qed.

Example engagement_fact_on_sample :
  map (fun row => (fb_review_id (base row), tip_count row, checkin_count row))
      (fact_customer_engagement Date.of_iso
         [review_on (Some "r1") "2018-01-05 09:00:00"]
         [Tip.mk (Some "u1") (Some "b1") (Some "2018-03-03 12:00:00")]
         other_checkins [regular] [cafe None])
  = [(Some "r1", 1, 0)].
Proof. vm_compute. reflexivity. Qed.

(** C4, the failing run: a business whose category string names "Bars"
    twice.  No [distinct()] follows the explode, and the bridge holds the
    pair twice. *)
Theorem marketing_bridge_keeps_duplicates :
  bridge_business_category (dim_business [cafe (Some "Bars, Cafes, Bars")])
  = [(Some "b1", "Bars"); (Some "b1", "Cafes"); (Some "b1", "Bars")]
  /\ ~ NoDup (bridge_business_category (dim_business [cafe (Some "Bars, Cafes, Bars")])).
Proof.
  split; [reflexivity|].
  intros H. vm_compute in H.
  inversion H as [|x l Hnotin _]; subst. apply Hnotin. right. left. reflexivity.
Qed.

(** *** The further properties, on the sample data *)

Definition sample_review : Review.t := review_on (Some "r1") "2018-01-05 09:00:00".

Definition sample_tip : Tip.t :=
  Tip.mk (Some "u1") (Some "b1") (Some "2018-03-03 12:00:00").

Definition sample_engagement : engagement_row :=
  {| base := base_of Date.of_iso sample_review; tip_count := 1; checkin_count := 2 |}.

Lemma engagement_fact_rows_have_their_dimensions_witness :
  In sample_engagement
     (fact_customer_engagement Date.of_iso [sample_review] [sample_tip] checkins
                               [regular] [cafe None])
  /\ ((exists r, In r [sample_review] /\ base sample_engagement = base_of Date.of_iso r)
      /\ (exists uid u, fb_user_id (base sample_engagement) = Some uid
                        /\ In u [regular] /\ User.user_id u = Some uid)
      /\ (exists bid b, fb_business_id (base sample_engagement) = Some bid
                        /\ In b [cafe None] /\ Business.business_id b = Some bid)
      /\ (exists k d, fb_date_id (base sample_engagement) = Some k
                      /\ In d (dim_date Date.of_iso [sample_review] [sample_tip] checkins)
                      /\ date_id d = Some k)
      /\ tip_count sample_engagement
         = Z.of_nat (List.length (tips_of [sample_tip]
                                          (fb_user_id (base sample_engagement))
                                          (fb_business_id (base sample_engagement))))
      /\ ((checkin_count sample_engagement = 0
           /\ forall c, In c checkins ->
                        Checkin.business_id c <> fb_business_id (base sample_engagement))
          \/ exists c, In c checkins
                       /\ Checkin.business_id c = fb_business_id (base sample_engagement)
                       /\ checkin_count sample_engagement
                          = match Checkin.date c with
                            | Some s => Z.of_nat (S (Str.comma_count s))
                            | None => -1
                            end)).
Proof.
  assert (Hin : In sample_engagement
                   (fact_customer_engagement Date.of_iso [sample_review] [sample_tip]
                                             checkins [regular] [cafe None]))
    by (vm_compute; left; reflexivity).
  split; [exact Hin|].
  exact (engagement_fact_rows_have_their_dimensions Date.of_iso [sample_review]
           [sample_tip] checkins [regular] [cafe None] sample_engagement Hin).
Defined.

Lemma one_user_id : NoDup (na_drop (map User.user_id [regular])).
Proof. constructor; [intros []|constructor]. Defined.

Lemma one_business_id : NoDup (na_drop (map Business.business_id [cafe None])).
Proof. constructor; [intros []|constructor]. Defined.

Lemma one_checkin_record : NoDup (na_drop (map Checkin.business_id checkins)).
Proof. constructor; [intros []|constructor]. Defined.

Lemma engagement_fact_has_each_review_once_witness :
  reviews <> [] /\ [sample_tip] <> [] /\ checkins <> [] /\ [regular] <> []
  /\ [cafe None] <> []
  /\ (forall s d, Date.of_iso s = Some d -> Date.valid d = true)
  /\ NoDup (na_drop (map User.user_id [regular]))
  /\ NoDup (na_drop (map Business.business_id [cafe None]))
  /\ NoDup (na_drop (map Checkin.business_id checkins))
  /\ Permutation
       (map base (fact_customer_engagement Date.of_iso reviews [sample_tip] checkins
                                           [regular] [cafe None]))
       (filter (in_dimensions Date.of_iso reviews [sample_tip] checkins [regular]
                              [cafe None])
               (map (base_of Date.of_iso) reviews)).
Proof.
  do 5 (split; [discriminate|]).
  split; [exact Date.of_iso_valid|]. split; [exact one_user_id|].
  split; [exact one_business_id|]. split; [exact one_checkin_record|].
  exact (engagement_fact_has_each_review_once Date.of_iso reviews [sample_tip] checkins
           [regular] [cafe None]
           ltac:(discriminate) ltac:(discriminate) ltac:(discriminate)
           ltac:(discriminate) ltac:(discriminate)
           Date.of_iso_valid one_user_id one_business_id one_checkin_record).
Defined.

(** Two checkin records of one business, and its reviews come twice; a
    checkin record without date string counts -1. *)
Example two_checkin_records_repeat_the_review :
  map (fun row => (fb_review_id (base row), checkin_count row))
      (fact_customer_engagement Date.of_iso [sample_review] other_tips
         [Checkin.mk (Some "b1") (Some "2018-01-01 10:00:00");
          Checkin.mk (Some "b1") None]
         [regular] [cafe None])
  = [(Some "r1", 1); (Some "r1", -1)].
Proof. vm_compute. reflexivity. Qed.

Lemma marketing_dim_date_rows_witness :
  (forall s d, Date.of_iso s = Some d -> Date.valid d = true)
  /\ ((forall d, In (Some d) (all_dates Date.of_iso reviews tips checkins)
                 <-> exists row, In row (dim_date Date.of_iso reviews tips checkins)
                                 /\ full_date row = d)
      /\ NoDup (map full_date (dim_date Date.of_iso reviews tips checkins))
      /\ NoDup (map date_id (dim_date Date.of_iso reviews tips checkins))
      /\ (forall row, In row (dim_date Date.of_iso reviews tips checkins) ->
            date_id row = Some (Date.year (full_date row) * 10000
                                + Date.month (full_date row) * 100
                                + Date.day (full_date row))
            /\ option_map Date.of_int_key (date_id row) = Some (full_date row)
            /\ day row = Date.day (full_date row)
            /\ month row = Date.month (full_date row)
            /\ year row = Date.year (full_date row))
      /\ Sorted (fun a b => exists x y, date_id a = Some x /\ date_id b = Some y /\ x <= y)
                (dim_date Date.of_iso reviews tips checkins)).
Proof.
  split; [exact Date.of_iso_valid|].
  exact (marketing_dim_date_rows Date.of_iso reviews tips checkins Date.of_iso_valid).
Defined.

Example marketing_dim_date_on_sample :
  map (fun row => (date_id row, day_of_week row))
      (dim_date Date.of_iso reviews tips checkins)
  = [(Some 20180101, "Monday"); (Some 20180105, "Friday"); (Some 20180120, "Saturday");
     (Some 20180202, "Friday"); (Some 20180303, "Saturday")].
Proof. vm_compute. reflexivity. Qed.

Example dim_user_on_sample :
  map (fun row => (user_id row, yelping_since row, elite_years row, compliment_count row))
      (dim_user Date.of_iso
         [regular;
          User.mk (Some "u2") None None None None None (Some "") [None; None]])
  = [(Some "u1", Some (Date.mk 2015 6 1), Some ["2016"; "2017"], 3);
     (Some "u2", None, Some [""], 0)].
Proof. vm_compute. reflexivity. Qed.

End Marketing.

(** ** The claims the pipelines do not keep as stated *)

(** C5 as stated fails.  In the owners' pipeline the labels are neither
    trimmed nor folded to one case: "Bars " keeps its blank, and "bars" and
    "Bars" are two rows.  In the investors' pipeline, where only the empty
    string is filtered, the string "null" is a label as well. *)
Lemma category_labels_are_kept_as_split :
  (map snd (Owners.dim_category Z.of_nat [Sample.cafe (Some "Bars ,bars, Bars")])
   = ["Bars "; "bars"; "Bars"]
   /\ Str.trim "Bars " <> "Bars "
   /\ Str.lower "bars" = Str.lower "Bars"
   /\ "bars" <> "Bars")
  /\ map Investors.category_name
         (Investors.dim_category_of [Sample.cafe (Some "null, Bars")])
     = [Some "null"; Some "Bars"].
Proof.
  split.
  - exact Owners.labels_are_not_normalized.
  - exact Investors.investors_keep_the_null_label.
Qed.

(** C6 as stated fails.  In the owners' pipeline a review record without a
    [review_id] is not counted: the business has one review record and an
    [overall_review_count] of 0.  In the investors' pipeline the
    [review_count] of [Dim_Business] is the field of the business record,
    7 or null here, and no review is read. *)
Lemma review_count_is_not_the_number_of_review_records :
  (List.length (Owners.reviews_of [Sample.review_on None "2018-01-05 09:00:00"] "b1")
   = 1%nat
   /\ map (fun row => (Owners.db_business_id row, Owners.overall_review_count row))
          (Owners.dim_business [Sample.cafe None]
                               [Sample.review_on None "2018-01-05 09:00:00"])
      = [(Some "b1", 0)])
  /\ map (fun r => (Investors.business_nk r, Investors.review_count r))
         (Investors.dim_business_of
            [Sample.cafe None; Sample.diner None]
            (Investors.dim_location_of [Sample.cafe None; Sample.diner None]))
     = [(Some "b1", Some 7); (Some "b2", None)].
Proof.
  split.
  - exact Owners.review_without_id_is_not_in_overall_count.
  - exact Investors.investors_copy_the_review_count.
Qed.

(** ** The schema tool of [investors_business_analysts_star_schema.py] *)

Module Schema.

(** What [json.loads] gives; the items of an object are those of the
    [dict], a key once. *)
#[warnings="-register-all"]
Inductive json : Type :=
| JNull
| JBool (b : bool)
| JInt (n : Z)
| JFloat (x : Q)
| JString (s : string)
| JArray (elements : list json)
| JObject (items : list (string * json)).

Definition get_python_type (value : json) : string :=
  match value with
  | JNull => "null"
  | JBool _ => "boolean"
  | JInt _ => "integer"
  | JFloat _ => "float"
  | JString _ => "string"
  | JArray _ => "array"
  | JObject _ => "object"
  end.

(** [types.add(t)] on a set of type names. *)
Fixpoint set_add (t : string) (types : list string) : list string :=
  match types with
  | [] => [t]
  | x :: rest => if String.eqb x t then types else x :: set_add t rest
  end.

(** [field_types[key].add(t)] on the [defaultdict(set)]. *)
Fixpoint add_type (key t : string) (field_types : list (string * list string))
  : list (string * list string) :=
  match field_types with
  | [] => [(key, [t])]
  | (k, types) :: rest =>
      if String.eqb k key then (k, set_add t types) :: rest
      else (k, types) :: add_type key t rest
  end.

Definition add_items (items : list (string * json))
           (field_types : list (string * list string)) : list (string * list string) :=
  fold_left (fun ft kv => add_type (fst kv) (get_python_type (snd kv)) ft)
            items field_types.

(** The type names seen for a field, none for a field not seen. *)
Fixpoint types_of (field_types : list (string * list string)) (key : string)
  : list string :=
  match field_types with
  | [] => []
  | (k, types) :: rest => if String.eqb k key then types else types_of rest key
  end.

Section Tool.

(** [json.loads] on a line: no value when it raises [JSONDecodeError]. *)
Variable loads : string -> option json.

(** The body of the loop over the lines: a line that is no JSON, or whose
    value has no [items()], is skipped with a warning. *)
Definition process_line (acc : list (string * list string) * nat) (line : string)
  : list (string * list string) * nat :=
  match loads line with
  | Some (JObject items) => (add_items items (fst acc), S (snd acc))
  | _ => acc
  end.

Definition scan (lines : list string) : list (string * list string) * nat :=
  fold_left process_line lines ([], 0%nat).

(** The schema of one file: the loop stops at line [sample_size]; a file
    none of whose sampled lines was processed has no schema. *)
Definition infer_schema (sample_size : nat) (lines : list string)
  : option (list (string * list string)) :=
  let '(field_types, lines_processed) := scan (firstn sample_size lines) in
  if Nat.ltb 0 lines_processed
  then Some (map (fun kt => (fst kt, Rel.sort String.leb (snd kt))) field_types)
  else None.

Fixpoint ends_with_json (f : string) : bool :=
  match f with
  | EmptyString => false
  | String c rest => orb (String.eqb f ".json") (ends_with_json rest)
  end.

(** [generate_schema], up to the schemas it writes: nothing is written when
    the directory cannot be listed or has no [.json] file; a file that
    cannot be read and a file without schema are left out. *)
Definition generate_schema (listing : option (list (string * option (list string))))
           (sample_size : nat) : option (list (string * list (string * list string))) :=
  match listing with
  | None => None
  | Some entries =>
      match filter (fun e => ends_with_json (fst e)) entries with
      | [] => None
      | all_files =>
          Some (flat_map (fun e => match snd e with
                                   | None => []
                                   | Some lines =>
                                       match infer_schema sample_size lines with
                                       | Some schema => [(fst e, schema)]
                                       | None => []
                                       end
                                   end) all_files)
      end
  end.

(** A field has a type in a line: the line is an object with the field, of
    a value of that type. *)
Definition seen_in (key t : string) (line : string) : Prop :=
  exists items v, loads line = Some (JObject items)
                  /\ In (key, v) items /\ get_python_type v = t.

Definition is_object (line : string) : bool :=
  match loads line with
  | Some (JObject _) => true
  | _ => false
  end.

Lemma set_add_In (t x : string) (types : list string) :
  In x (set_add t types) <-> In x types \/ x = t.
Proof.
  induction types as [|y rest IH]; simpl.
  - split; [intros [<-|[]]; auto|intros [[]| ->]; auto].
  - destruct (String.eqb y t) eqn:E; simpl.
    + apply String.eqb_eq in E. subst y. split; [auto|].
      intros [H| ->]; [exact H|left; reflexivity].
    + rewrite IH. tauto.
Qed.

Lemma set_add_NoDup (t : string) (types : list string) :
  NoDup types -> NoDup (set_add t types).
Proof.
  intros H. induction H as [|y rest Hnotin Hnd IH]; simpl.
  - constructor; [intros []|constructor].
  - destruct (String.eqb y t) eqn:E; [constructor; assumption|].
    constructor; [|exact IH]. rewrite set_add_In. intros [Hin| ->].
    + contradiction.
    + rewrite String.eqb_refl in E. discriminate.
Qed.

Lemma add_type_types_of (key t : string) (ft : list (string * list string))
      (k x : string) :
  In x (types_of (add_type key t ft) k)
  <-> In x (types_of ft k) \/ (k = key /\ x = t).
Proof.
  induction ft as [|[k' types] rest IH]; simpl.
  - destruct (String.eqb key k) eqn:E; simpl.
    + apply String.eqb_eq in E. subst k. split; [intros [<-|[]]; auto|].
      intros [[]|[_ ->]]. auto.
    + apply String.eqb_neq in E. split; [intros []|]. intros [[]|[-> _]]. congruence.
  - destruct (String.eqb k' key) eqn:Ek; simpl.
    + apply String.eqb_eq in Ek. subst k'.
      destruct (String.eqb key k) eqn:E.
      * apply String.eqb_eq in E. subst k. rewrite set_add_In. intuition.
      * apply String.eqb_neq in E. split; [auto|]. intros [H|[-> _]]; [exact H|congruence].
    + destruct (String.eqb k' k) eqn:E.
      * apply String.eqb_eq in E. subst k'. apply String.eqb_neq in Ek.
        split; [auto|]. intros [H|[-> _]]; [exact H|congruence].
      * exact IH.
Qed.

Lemma add_type_keys (key t : string) (ft : list (string * list string)) (k : string) :
  In k (map fst (add_type key t ft)) <-> In k (map fst ft) \/ k = key.
Proof.
  induction ft as [|[k' types] rest IH]; simpl.
  - split; [intros [<-|[]]; auto|intros [[]| ->]; auto].
  - destruct (String.eqb k' key) eqn:Ek; simpl.
    + apply String.eqb_eq in Ek. subst k'. split; [auto|].
      intros [H| ->]; [exact H|left; reflexivity].
    + rewrite IH. tauto.
Qed.

(** The dictionary is well formed: a key once, a type once in a set, no
    set empty. *)
Definition well_formed (ft : list (string * list string)) : Prop :=
  NoDup (map fst ft)
  /\ forall k types, In (k, types) ft -> NoDup types /\ types <> [].

Lemma set_add_not_nil (t : string) (types : list string) : set_add t types <> [].
Proof. destruct types as [|y rest]; simpl; [|destruct (String.eqb y t)]; discriminate. Qed.

Lemma add_type_well_formed (key t : string) (ft : list (string * list string)) :
  well_formed ft -> well_formed (add_type key t ft).
Proof.
  intros [Hnd Hsets]. split.
  - clear Hsets. induction ft as [|[k' types] rest IH]; simpl.
    + constructor; [intros []|constructor].
    + simpl in Hnd. apply NoDup_cons_iff in Hnd. destruct Hnd as [Hnotin Hnd].
      destruct (String.eqb k' key) eqn:Ek; simpl.
      * constructor; assumption.
      * constructor; [|apply IH; exact Hnd].
        rewrite add_type_keys. intros [H| ->]; [contradiction|].
        rewrite String.eqb_refl in Ek. discriminate.
  - clear Hnd. induction ft as [|[k' types] rest IH]; simpl; intros k ts Hin.
    + destruct Hin as [E|[]]. injection E as <- <-. split; [|discriminate].
      constructor; [intros []|constructor].
    + destruct (String.eqb k' key) eqn:Ek; simpl in Hin.
      * destruct Hin as [E|Hin].
        -- injection E as <- <-. split; [|apply set_add_not_nil].
           apply set_add_NoDup. apply (Hsets k' types). left. reflexivity.
        -- apply (Hsets k ts). right. exact Hin.
      * destruct Hin as [E|Hin].
        -- injection E as <- <-. apply (Hsets k' types). left. reflexivity.
        -- exact (IH (fun k0 ts0 H0 => Hsets k0 ts0 (or_intror H0)) k ts Hin).
Qed.

Lemma types_of_In (ft : list (string * list string)) (k : string) (types : list string) :
  NoDup (map fst ft) -> In (k, types) ft -> types_of ft k = types.
Proof.
  induction ft as [|[k' ts] rest IH]; simpl; intros Hnd Hin; [destruct Hin|].
  apply NoDup_cons_iff in Hnd. destruct Hnd as [Hnotin Hnd].
  destruct Hin as [E|Hin].
  - injection E as -> ->. rewrite String.eqb_refl. reflexivity.
  - destruct (String.eqb k' k) eqn:E; [|apply IH; assumption].
    apply String.eqb_eq in E. subst k'. exfalso. apply Hnotin.
    apply (in_map fst) in Hin. exact Hin.
Qed.

Lemma types_of_keys (ft : list (string * list string)) (k : string) :
  (forall k' types, In (k', types) ft -> types <> []) ->
  (In k (map fst ft) <-> types_of ft k <> []).
Proof.
  induction ft as [|[k' ts] rest IH]; simpl; intros Hne.
  - split; [intros []|congruence].
  - destruct (String.eqb k' k) eqn:E.
    + apply String.eqb_eq in E. subst k'. split; [|auto].
      intros _. apply (Hne k ts). left. reflexivity.
    + apply String.eqb_neq in E. rewrite <- IH.
      * split; [intros [H|H]; [congruence|exact H]|auto].
      * intros k0 ts0 H0. apply (Hne k0 ts0). right. exact H0.
Qed.

Lemma add_items_spec (items : list (string * json)) (ft : list (string * list string)) :
  well_formed ft ->
  well_formed (add_items items ft)
  /\ forall k x, In x (types_of (add_items items ft) k)
                 <-> In x (types_of ft k)
                     \/ exists v, In (k, v) items /\ get_python_type v = x.
Proof.
  unfold add_items. revert ft. induction items as [|[key v] rest IH]; intros ft Hwf.
  - simpl. split; [exact Hwf|]. intros k x. split; [auto|].
    intros [H|[v [[] _]]]. exact H.
  - cbn [fold_left fst snd].
    destruct (IH (add_type key (get_python_type v) ft)
                 (add_type_well_formed key (get_python_type v) ft Hwf)) as [Hwf' Hin].
    split; [exact Hwf'|]. intros k x. rewrite Hin, add_type_types_of. split.
    + intros [[H|[-> ->]]|[v' [Hv' Ht]]].
      * left. exact H.
      * right. exists v. split; [left; reflexivity|reflexivity].
      * right. exists v'. split; [right; exact Hv'|exact Ht].
    + intros [H|[v' [[E|Hv'] Ht]]].
      * left. left. exact H.
      * injection E as -> ->. left. right. auto.
      * right. exists v'. auto.
Qed.

Lemma scan_spec (lines : list string) (acc : list (string * list string) * nat) :
  well_formed (fst acc) ->
  well_formed (fst (fold_left process_line lines acc))
  /\ (forall k x, In x (types_of (fst (fold_left process_line lines acc)) k)
                  <-> In x (types_of (fst acc) k)
                      \/ exists line, In line lines /\ seen_in k x line)
  /\ snd (fold_left process_line lines acc)
     = (snd acc + List.length (filter is_object lines))%nat.
Proof.
  revert acc. induction lines as [|line rest IH]; intros acc Hwf.
  - simpl. split; [exact Hwf|]. split; [|lia]. intros k x. split; [auto|].
    intros [H|[l [[] _]]]. exact H.
  - cbn [fold_left filter].
    assert (Hstep : well_formed (fst (process_line acc line))
                    /\ (forall k x, In x (types_of (fst (process_line acc line)) k)
                                    <-> In x (types_of (fst acc) k) \/ seen_in k x line)
                    /\ snd (process_line acc line)
                       = (snd acc + if is_object line then 1 else 0)%nat).
    { unfold process_line, is_object, seen_in.
      destruct (loads line) as [[|b|n|q|s|a|items]|] eqn:El; cbn [fst snd];
        try (split; [exact Hwf|]; split; [|lia]; intros k x; split; [auto|];
             intros [H|[items [v [E _]]]]; [exact H|discriminate]).
      destruct (add_items_spec items (fst acc) Hwf) as [Hwf' Hin].
      split; [exact Hwf'|]. split; [|lia]. intros k x. rewrite Hin. split.
      - intros [H|[v [Hv Ht]]]; [auto|]. right. exists items, v. auto.
      - intros [H|[items' [v [E [Hv Ht]]]]]; [auto|]. injection E as <-.
        right. exists v. auto. }
    destruct Hstep as [Hwf1 [Hin1 Hn1]].
    destruct (IH (process_line acc line) Hwf1) as [Hwf2 [Hin2 Hn2]].
    split; [exact Hwf2|]. split.
    + intros k x. rewrite Hin2, Hin1. split.
      * intros [[H|H]|[l [Hl Hs]]].
        -- left. exact H.
        -- right. exists line. split; [left; reflexivity|exact H].
        -- right. exists l. split; [right; exact Hl|exact Hs].
      * intros [H|[l [[<-|Hl] Hs]]].
        -- left. left. exact H.
        -- left. right. exact Hs.
        -- right. exists l. auto.
    + rewrite Hn2, Hn1. destruct (is_object line); cbn [List.length]; lia.
Qed.

Lemma well_formed_nil : well_formed [].
Proof. split; [constructor|]. intros k types []. Qed.

Lemma leb_total_bool (x y : string) : String.leb x y = false -> String.leb y x = true.
Proof.
  intros H. destruct (String.leb_total x y) as [E|E]; [congruence|exact E].
Qed.

(** X28: the schema the tool infers for a file, when it infers one: a field
    is listed once; its type names are listed once each, in alphabetical
    order; a type name is listed for a field exactly when one of the first
    [sample_size] lines is a JSON object that has the field with a value of
    that type; and a field is listed exactly when such a line has it. *)
Theorem inferred_schema_lists_the_sampled_types
        (sample_size : nat) (lines : list string)
        (schema : list (string * list string)) :
  infer_schema sample_size lines = Some schema ->
  NoDup (map fst schema)
  /\ (forall key, In key (map fst schema)
                  <-> exists t line, In line (firstn sample_size lines)
                                     /\ seen_in key t line)
  /\ forall key types,
      In (key, types) schema ->
      Sorted (fun a b => String.leb a b = true) types
      /\ NoDup types
      /\ forall t, In t types
                   <-> exists line, In line (firstn sample_size lines)
                                    /\ seen_in key t line.
Proof.
  unfold infer_schema, scan.
  destruct (scan_spec (firstn sample_size lines) ([], 0%nat) well_formed_nil)
    as [[Hnd Hsets] [Hin _]].
  destruct (fold_left process_line (firstn sample_size lines) ([], 0%nat))
    as [ft n] eqn:Efold.
  cbn [fst snd] in Hnd, Hsets, Hin.
  destruct (Nat.ltb 0 n); [|discriminate]. intros E. injection E as <-.
  assert (Hkeys : map fst (map (fun kt : string * list string =>
                                  (fst kt, Rel.sort String.leb (snd kt))) ft)
                  = map fst ft)
    by (rewrite map_map; reflexivity).
  assert (Hseen : forall k x, In x (types_of ft k)
                              <-> exists line, In line (firstn sample_size lines)
                                               /\ seen_in k x line).
  { intros k x. rewrite Hin. cbn [types_of]. split; [intros [[]|H]; exact H|auto]. }
  split; [rewrite Hkeys; exact Hnd|]. split.
  - intros key. rewrite Hkeys.
    rewrite (types_of_keys ft key (fun k types H => proj2 (Hsets k types H))).
    split.
    + intros Hne. destruct (types_of ft key) as [|t rest] eqn:Et; [congruence|].
      exists t. apply Hseen. rewrite Et. left. reflexivity.
    + intros [t [line H]] E.
      assert (Hx : In t (types_of ft key)) by (apply Hseen; exists line; exact H).
      rewrite E in Hx. destruct Hx.
  - intros key types Hkt. apply in_map_iff in Hkt.
    destruct Hkt as [[k ts] [E Hk]]. cbn [fst snd] in E. injection E as <- <-.
    split; [apply Rel.sort_sorted; exact leb_total_bool|]. split.
    + eapply Permutation_NoDup; [symmetry; apply Rel.sort_perm|].
      exact (proj1 (Hsets k ts Hk)).
    + intros t. rewrite Rel.sort_In, <- Hseen.
      rewrite (types_of_In ft k ts Hnd Hk). reflexivity.
Qed.

(** X29: when the tool infers no schema for a file, and what it never
    reads: a file has a schema exactly when one of its first [sample_size]
    lines is a JSON object, whatever the lines after them hold; and those
    later lines change nothing. *)
Theorem schema_depends_on_the_sample_only (sample_size : nat) (lines : list string) :
  (infer_schema sample_size lines = None
   <-> forall line, In line (firstn sample_size lines) -> is_object line = false)
  /\ (forall later, List.length lines = sample_size ->
                    infer_schema sample_size (lines ++ later)
                    = infer_schema sample_size lines).
Proof.
  split.
  - unfold infer_schema, scan.
    destruct (scan_spec (firstn sample_size lines) ([], 0%nat) well_formed_nil)
      as [_ [_ Hn]].
    destruct (fold_left process_line (firstn sample_size lines) ([], 0%nat))
      as [ft n] eqn:Efold.
    cbn [snd] in Hn. rewrite Nat.add_0_l in Hn. subst n.
    destruct (filter is_object (firstn sample_size lines)) as [|l rest] eqn:Ef.
    + cbn [List.length Nat.ltb Nat.leb]. split; [|reflexivity]. intros _ line Hline.
      destruct (is_object line) eqn:E; [|reflexivity].
      assert (Hin : In line (filter is_object (firstn sample_size lines)))
        by (apply filter_In; auto).
      rewrite Ef in Hin. destruct Hin.
    + cbn [List.length Nat.ltb Nat.leb]. split; [discriminate|]. intros H.
      assert (Hin : In l (filter is_object (firstn sample_size lines)))
        by (rewrite Ef; left; reflexivity).
      apply filter_In in Hin. destruct Hin as [Hl Ho]. rewrite (H l Hl) in Ho.
      discriminate.
  - intros later Hlen. unfold infer_schema.
    rewrite firstn_app, <- Hlen, Nat.sub_diag, firstn_all. cbn [firstn].
    rewrite app_nil_r. reflexivity.
Qed.

End Tool.

(** A parser for the examples: three lines of a file. *)
Definition sample_loads (line : string) : option json :=
  if String.eqb line "{id: 1, name: x}"
  then Some (JObject [("id", JInt 1); ("name", JString "x")])
  else if String.eqb line "{id: 1.5, name: null}"
       then Some (JObject [("id", JFloat (3 # 2)); ("name", JNull)])
       else if String.eqb line "[1, 2]"
            then Some (JArray [JInt 1; JInt 2])
            else None.

Example schema_of_three_lines :
  infer_schema sample_loads 100
    ["{id: 1, name: x}"; "not json"; "[1, 2]"; "{id: 1.5, name: null}"]
  = Some [("id", ["float"; "integer"]); ("name", ["null"; "string"])].
Proof. vm_compute. reflexivity. Qed.

(** Valid lines after the sample do not help a file whose sample has none. *)
Example schema_stops_at_the_sample :
  infer_schema sample_loads 2 ["not json"; "[1, 2]"; "{id: 1, name: x}"] = None.
Proof. vm_compute. reflexivity. Qed.

Example generate_schema_on_a_directory :
  generate_schema sample_loads
    (Some [("business.json", Some ["{id: 1, name: x}"]);
           ("notes.txt", Some ["{id: 1, name: x}"]);
           ("locked.json", None);
           ("empty.json", Some [])])
    100
  = Some [("business.json", [("id", ["integer"]); ("name", ["string"])])]
  /\ generate_schema sample_loads (Some [("notes.txt", Some [])]) 100 = None
  /\ generate_schema sample_loads None 100 = None.
Proof. repeat split; vm_compute; reflexivity. Qed.

Lemma inferred_schema_lists_the_sampled_types_witness :
  infer_schema sample_loads 100
    ["{id: 1, name: x}"; "not json"; "[1, 2]"; "{id: 1.5, name: null}"]
  = Some [("id", ["float"; "integer"]); ("name", ["null"; "string"])]
  /\ (NoDup (map fst [("id", ["float"; "integer"]); ("name", ["null"; "string"])])
      /\ (forall key,
             In key (map fst [("id", ["float"; "integer"]); ("name", ["null"; "string"])])
             <-> exists t line,
                 In line (firstn 100 ["{id: 1, name: x}"; "not json"; "[1, 2]";
                                      "{id: 1.5, name: null}"])
                 /\ seen_in sample_loads key t line)
      /\ forall key types,
          In (key, types) [("id", ["float"; "integer"]); ("name", ["null"; "string"])] ->
          Sorted (fun a b => String.leb a b = true) types
          /\ NoDup types
          /\ forall t, In t types
                       <-> exists line,
                           In line (firstn 100 ["{id: 1, name: x}"; "not json"; "[1, 2]";
                                                "{id: 1.5, name: null}"])
                           /\ seen_in sample_loads key t line).
Proof.
  split; [vm_compute; reflexivity|].
  exact (inferred_schema_lists_the_sampled_types sample_loads 100
           ["{id: 1, name: x}"; "not json"; "[1, 2]"; "{id: 1.5, name: null}"]
           [("id", ["float"; "integer"]); ("name", ["null"; "string"])] eq_refl).
Defined.

End Schema.

(** ** The three date dimensions describe a date alike *)

Lemma weekday_numbers (d : Date.date) :
  0 <= Date.dayofweek_pandas d <= 6
  /\ Date.dayofweek_spark d = (Date.dayofweek_pandas d + 1) mod 7 + 1.
Proof.
  unfold Date.dayofweek_pandas, Date.dayofweek_spark.
  pose proof (Z.mod_pos_bound (Date.days_from_civil d + 3) 7) as Hb.
  split; [lia|].
  rewrite Z.add_mod_idemp_l by lia. f_equal. f_equal. lia.
Qed.

(** X25: the date dimensions of the three pipelines agree on a date of the
    calendar: the [date_id] string of the owners' [Dim_Date] spells the
    integer key of the investors' [Dim_Date] and of the marketing [DimDate];
    the weekend flag of the owners (Spark's day 1 or 7) is the weekend flag
    of the investors (pandas' day 5 or 6), the days named Saturday and
    Sunday; the quarters are the same; and the marketing day name is the
    investors' day name. *)
Theorem date_dimensions_agree (d : Date.date) :
  Date.valid d = true ->
  exists row,
    Investors.date_row_of d = Investors.Ok row
    /\ Date.int_of_string (Owners.date_id (Owners.date_row_of d))
       = Some (Investors.date_key row)
    /\ Marketing.date_id_of (Some d) = Some (Investors.date_key row)
    /\ Owners.is_weekend (Owners.date_row_of d) = Investors.is_weekend row
    /\ Owners.quarter (Owners.date_row_of d) = Investors.quarter row
    /\ Marketing.day_name_of d = Investors.day_name row
    /\ (Investors.is_weekend row = true
        <-> Investors.day_name row = "Saturday" \/ Investors.day_name row = "Sunday").
Proof.
  intros Hv. unfold Investors.date_row_of.
  pose proof (Date.date_key_value d Hv) as Hk. rewrite Hk.
  eexists. split; [reflexivity|].
  cbn [Investors.date_key Investors.is_weekend Investors.quarter Investors.day_name
       Owners.date_id Owners.is_weekend Owners.quarter Owners.date_row_of].
  split; [exact Hk|]. split; [exact Hk|].
  destruct (weekday_numbers d) as [Hb Hs].
  unfold Marketing.day_name_of. rewrite Hs.
  assert (E : Date.dayofweek_pandas d = 0 \/ Date.dayofweek_pandas d = 1
              \/ Date.dayofweek_pandas d = 2 \/ Date.dayofweek_pandas d = 3
              \/ Date.dayofweek_pandas d = 4 \/ Date.dayofweek_pandas d = 5
              \/ Date.dayofweek_pandas d = 6) by lia.
  destruct E as [E|[E|[E|[E|[E|[E|E]]]]]]; rewrite E;
    (split; [reflexivity|]); (split; [reflexivity|]); (split; [reflexivity|]);
    cbn; split; try discriminate; try (intros [H|H]; discriminate H); auto.
Qed.

Lemma date_dimensions_agree_witness :
  Date.valid (Date.mk 2018 1 6) = true
  /\ exists row,
      Investors.date_row_of (Date.mk 2018 1 6) = Investors.Ok row
      /\ Date.int_of_string (Owners.date_id (Owners.date_row_of (Date.mk 2018 1 6)))
         = Some (Investors.date_key row)
      /\ Marketing.date_id_of (Some (Date.mk 2018 1 6)) = Some (Investors.date_key row)
      /\ Owners.is_weekend (Owners.date_row_of (Date.mk 2018 1 6))
         = Investors.is_weekend row
      /\ Owners.quarter (Owners.date_row_of (Date.mk 2018 1 6)) = Investors.quarter row
      /\ Marketing.day_name_of (Date.mk 2018 1 6) = Investors.day_name row
      /\ (Investors.is_weekend row = true
          <-> Investors.day_name row = "Saturday" \/ Investors.day_name row = "Sunday").
Proof.
  split; [reflexivity|].
  exact (date_dimensions_agree (Date.mk 2018 1 6) eq_refl).
Defined.
